(** * Crypto futures analyzer: the scoring core

    A shallow embedding of the four analysis modules of the repository
    ([analysis/technical.py], [analysis/funding.py],
    [analysis/liquidation.py], [analysis/signals.py]), of the validation
    in [config.py] and of what [main.py] computes from fetched data; the
    properties of the specification that were checked against them; and
    further properties of the code.

    Numbers.  The Python code computes with binary floating point.  The
    embedding keeps the IEEE-754 special values (NaN and the two
    infinities) and the way comparisons, [min], [max], [round] and
    division by zero treat them, and represents every finite value by an
    exact rational: rounding error of finite arithmetic is not modelled,
    and there is a single zero.  Finite values are compared up to [Qeq]. *)

From Stdlib Require Import ZArith QArith Qround Qabs Lqa Lia Ascii String Sorted.
From stdpp Require Import gmap strings list.

Open Scope Q_scope.

(** ** Python and numpy floats *)

Module Num.

Inductive pyfloat : Type :=
| NaN
| PInf
| NInf
| Fin (q : Q).

Definition is_finite (x : pyfloat) : bool :=
  match x with Fin _ => true | _ => false end.

Definition is_nan (x : pyfloat) : bool :=
  match x with NaN => true | _ => false end.

Definition Qltb (x y : Q) : bool :=
  match Qcompare x y with Lt => true | _ => false end.

Definition Qzerob (x : Q) : bool := Qeq_bool x 0.

(** Equality of values: the same special value, or equal rationals. *)
Definition feq (a b : pyfloat) : Prop :=
  match a, b with
  | NaN, NaN | PInf, PInf | NInf, NInf => True
  | Fin x, Fin y => x == y
  | _, _ => False
  end.

Definition fneg (a : pyfloat) : pyfloat :=
  match a with
  | NaN => NaN
  | PInf => NInf
  | NInf => PInf
  | Fin x => Fin (- x)
  end.

Definition fabs (a : pyfloat) : pyfloat :=
  match a with
  | NaN => NaN
  | PInf | NInf => PInf
  | Fin x => Fin (Qabs x)
  end.

Definition fadd (a b : pyfloat) : pyfloat :=
  match a, b with
  | NaN, _ | _, NaN => NaN
  | PInf, NInf | NInf, PInf => NaN
  | PInf, _ | _, PInf => PInf
  | NInf, _ | _, NInf => NInf
  | Fin x, Fin y => Fin (x + y)
  end.

Definition fsub (a b : pyfloat) : pyfloat := fadd a (fneg b).

(** An infinity of sign [pos] scaled by a finite factor [y]. *)
Definition scale_inf (pos : bool) (y : Q) : pyfloat :=
  if Qzerob y then NaN
  else if Bool.eqb pos (Qltb 0 y) then PInf else NInf.

Definition fmul (a b : pyfloat) : pyfloat :=
  match a, b with
  | NaN, _ | _, NaN => NaN
  | PInf, PInf | NInf, NInf => PInf
  | PInf, NInf | NInf, PInf => NInf
  | PInf, Fin y | Fin y, PInf => scale_inf true y
  | NInf, Fin y | Fin y, NInf => scale_inf false y
  | Fin x, Fin y => Fin (x * y)
  end.

(** The IEEE quotient, as numpy computes it: a zero divisor gives an
    infinity of the sign of the dividend, and [0/0] is NaN. *)
Definition fdiv (a b : pyfloat) : pyfloat :=
  match a, b with
  | NaN, _ | _, NaN => NaN
  | (PInf | NInf), (PInf | NInf) => NaN
  | PInf, Fin y => if Qltb y 0 then NInf else PInf
  | NInf, Fin y => if Qltb y 0 then PInf else NInf
  | Fin _, (PInf | NInf) => Fin 0
  | Fin x, Fin y =>
      if Qzerob y then
        if Qzerob x then NaN else if Qltb 0 x then PInf else NInf
      else Fin (x / y)
  end.

Definition is_zero (a : pyfloat) : bool :=
  match a with Fin x => Qzerob x | _ => false end.

(** The quotient of two Python floats: [ZeroDivisionError] (here [None])
    on a zero divisor, the IEEE quotient otherwise. *)
Definition pydiv (a b : pyfloat) : option pyfloat :=
  if is_zero b then None else Some (fdiv a b).

(** Comparisons; every comparison with NaN is false. *)
Definition flt (a b : pyfloat) : bool :=
  match a, b with
  | NaN, _ | _, NaN => false
  | _, NInf => false
  | NInf, _ => true
  | PInf, _ => false
  | Fin _, PInf => true
  | Fin x, Fin y => Qltb x y
  end.

Definition fle (a b : pyfloat) : bool :=
  match a, b with
  | NaN, _ | _, NaN => false
  | NInf, _ => true
  | _, PInf => true
  | _, NInf => false
  | PInf, _ => false
  | Fin x, Fin y => Qle_bool x y
  end.

Definition fgt (a b : pyfloat) : bool := flt b a.
Definition fge (a b : pyfloat) : bool := fle b a.

(** Python's builtin [min(a, b)] and [max(a, b)]: the first argument is
    kept unless the second is strictly smaller (resp. larger). *)
Definition pymin (a b : pyfloat) : pyfloat := if flt b a then b else a.
Definition pymax (a b : pyfloat) : pyfloat := if fgt b a then b else a.

(** Round to the nearest integer, ties to the even one. *)
Definition round_half_even (x : Q) : Z :=
  let f := Qfloor x in
  match Qcompare (x - inject_Z f) (1 # 2) with
  | Lt => f
  | Gt => (f + 1)%Z
  | Eq => if Z.even f then f else (f + 1)%Z
  end.

(** Python's [round(x, ndigits)]; NaN and the infinities are returned
    unchanged. *)
Definition pyround (x : pyfloat) (ndigits : nat) : pyfloat :=
  match x with
  | Fin q =>
      let p := inject_Z (10 ^ Z.of_nat ndigits) in
      Fin (inject_Z (round_half_even (q * p)) / p)
  | _ => x
  end.

End Num.

Export Num.

Declare Scope float_scope.
Delimit Scope float_scope with F.
Bind Scope float_scope with pyfloat.
Infix "+" := fadd : float_scope.
Infix "-" := fsub : float_scope.
Infix "*" := fmul : float_scope.
Infix "/" := fdiv : float_scope.
Infix "<?" := flt : float_scope.
Infix "<=?" := fle : float_scope.
Infix ">?" := fgt : float_scope.
Infix ">=?" := fge : float_scope.
Infix "==" := feq : float_scope.

(** ** Python lists: sorting and slicing *)

Module PyList.

(** One step of the stable sort into descending key order. *)
Fixpoint insert_desc_by {A : Type} (key : A -> pyfloat) (x : A) (l : list A)
  : list A :=
  match l with
  | [] => [x]
  | y :: t =>
      if (key x <? key y)%F then y :: insert_desc_by key x t else x :: l
  end.

(** [sorted(l, key=key, reverse=True)] and [l.sort(key=key, reverse=True)]:
    the stable sort into descending key order; keys are compared with
    [<] only. *)
Definition sorted_desc_by {A : Type} (key : A -> pyfloat) (l : list A)
  : list A :=
  foldr (insert_desc_by key) [] l.

(** [l[:n]] for an integer [n]: a negative [n] counts from the end. *)
Definition slice_to {A : Type} (l : list A) (n : Z) : list A :=
  if (0 <=? n)%Z then take (Z.to_nat n) l
  else take (length l - Z.to_nat (- n)) l.

End PyList.

(** ** The pandas operations the indicators use

    A [Series] is the list of its values in index order.  The operations
    are exact on series of finite values, which is what the price and
    volume columns hold. *)

Module Pandas.

Abbreviation Series := (list pyfloat).

(** [s.iloc[-k]] for [k >= 1]; [None] stands for [IndexError]. *)
Definition iloc_neg {A : Type} (s : list A) (k : nat) : option A :=
  if (length s <? k)%nat then None else s !! (length s - k)%nat.

(** [s.iloc[-k]] where the caller has checked the length. *)
Definition iloc_last (s : Series) (k : nat) : pyfloat :=
  default NaN (iloc_neg s k).

Fixpoint diff_from (prev : pyfloat) (s : Series) : Series :=
  match s with
  | [] => []
  | x :: t => (x - prev)%F :: diff_from x t
  end.

(** [s.diff()]: the first entry has no predecessor and is NaN. *)
Definition diff (s : Series) : Series :=
  match s with
  | [] => []
  | x :: t => NaN :: diff_from x t
  end.

(** [s.where(cond, other)]: entries where [cond] fails are replaced. *)
Definition where_ (cond : pyfloat -> bool) (other : pyfloat) (s : Series)
  : Series :=
  map (fun x => if cond x then x else other) s.

Definition sum_series (s : Series) : pyfloat := foldl fadd (Fin 0) s.

Definition count (s : Series) : pyfloat :=
  Fin (inject_Z (Z.of_nat (length s))).

(** [s.mean()]: missing values are skipped, the mean of nothing is NaN. *)
Definition mean (s : Series) : pyfloat :=
  let present := filter (fun x => is_nan x = false) s in
  (sum_series present / count present)%F.

(** The window of [window] entries that ends at position [i]. *)
Definition window_at (window i : nat) (s : Series) : Series :=
  take window (drop (i + 1 - window) s).

(** [s.rolling(window).mean()]: NaN until a full window is available (and
    when the window holds a missing value). *)
Definition rolling_mean (window : nat) (s : Series) : Series :=
  map (fun i =>
         if (i + 1 <? window)%nat then NaN
         else (sum_series (window_at window i s) / Fin (inject_Z (Z.of_nat window)))%F)
      (seq 0 (length s)).

Fixpoint ewm_from (alpha : Q) (prev : pyfloat) (s : Series) : Series :=
  match s with
  | [] => []
  | x :: t =>
      let y := (Fin (1 - alpha) * prev + Fin alpha * x)%F in
      y :: ewm_from alpha y t
  end.

(** [s.ewm(span=span, adjust=False).mean()]: the recursion
    [y0 = x0], [yi = (1 - a) * y(i-1) + a * xi] with [a = 2 / (span + 1)].
    pandas raises [ValueError] (here [None]) unless [span >= 1]. *)
Definition ewm_mean (span : Z) (s : Series) : option Series :=
  if (span <? 1)%Z then None
  else
    let alpha := 2 / (inject_Z span + 1) in
    Some (match s with
          | [] => []
          | x :: t => x :: ewm_from alpha x t
          end).

(** [s.tail(n)]. *)
Definition tail (n : nat) (s : Series) : Series :=
  drop (length s - n) s.

End Pandas.

(** ** analysis/technical.py *)

Module technical.
Import Pandas.

(** One row of the OHLCV frame. *)
Record Bar : Type := {
  timestamp : Z;
  open : pyfloat;
  high : pyfloat;
  low : pyfloat;
  close : pyfloat;
  volume : pyfloat
}.

Abbreviation DataFrame := (list Bar).

Record TechnicalSignal : Type := {
  symbol : string;
  timeframe : string;
  rsi : pyfloat;
  rsi_signal : string;
  macd : pyfloat;
  macd_signal : pyfloat;
  macd_histogram : pyfloat;
  macd_crossover : string;
  ema_short : pyfloat;
  ema_long : pyfloat;
  ema_crossover : string;
  price_vs_ema : pyfloat;
  volume_ratio : pyfloat;
  volume_spike : bool;
  current_price : pyfloat;
  price_change_percent : pyfloat;
  bias : string;
  strength : pyfloat
}.

(** [df['close'].diff()] *)
Definition rsi_delta (df : DataFrame) : Series := diff (map close df).

(** [(delta.where(delta > 0, 0)).rolling(window=period).mean()] *)
Definition rsi_gain (df : DataFrame) (period : nat) : Series :=
  rolling_mean period
    (where_ (fun d => (d >? Fin 0)%F) (Fin 0) (rsi_delta df)).

(** [(-delta.where(delta < 0, 0)).rolling(window=period).mean()] *)
Definition rsi_loss (df : DataFrame) (period : nat) : Series :=
  rolling_mean period
    (map fneg (where_ (fun d => (d <? Fin 0)%F) (Fin 0) (rsi_delta df))).

Definition calculate_rsi (df : DataFrame) (period : nat) : Series :=
  let gain := rsi_gain df period in
  let loss := rsi_loss df period in
  let rs := zip_with fdiv gain loss in
  map (fun r => (Fin 100 - Fin 100 / (Fin 1 + r))%F) rs.

Definition calculate_ema (df : DataFrame) (period : Z) : option Series :=
  ewm_mean period (map close df).

Definition calculate_macd (df : DataFrame) (fast slow signal : Z)
  : option (Series * Series * Series) :=
  ema_fast ← ewm_mean fast (map close df);
  ema_slow ← ewm_mean slow (map close df);
  let macd_line := zip_with fsub ema_fast ema_slow in
  signal_line ← ewm_mean signal macd_line;
  let histogram := zip_with fsub macd_line signal_line in
  Some (macd_line, signal_line, histogram).

Definition calculate_sma (df : DataFrame) (period : nat) : Series :=
  rolling_mean period (map close df).

(** [None] stands for the [IndexError] of [iloc[-1]] on an empty frame. *)
Definition calculate_volume_ratio (df : DataFrame) (period : nat)
  : option pyfloat :=
  let avg_volume := mean (tail period (map volume df)) in
  current_volume ← iloc_neg (map volume df) 1;
  if (avg_volume >? Fin 0)%F then Some (current_volume / avg_volume)%F
  else Some (Fin 1).

Definition detect_macd_crossover (macd signal : Series) : string :=
  if ((length macd <? 2) || (length signal <? 2))%nat then "none"
  else
    let prev_diff := (iloc_last macd 2 - iloc_last signal 2)%F in
    let curr_diff := (iloc_last macd 1 - iloc_last signal 1)%F in
    if (prev_diff <? Fin 0)%F && (curr_diff >? Fin 0)%F then "bullish"
    else if (prev_diff >? Fin 0)%F && (curr_diff <? Fin 0)%F then "bearish"
    else "none".

Definition detect_ema_crossover (ema_short ema_long : Series) : string :=
  if ((length ema_short <? 2) || (length ema_long <? 2))%nat then "none"
  else
    let prev_diff := (iloc_last ema_short 2 - iloc_last ema_long 2)%F in
    let curr_diff := (iloc_last ema_short 1 - iloc_last ema_long 1)%F in
    if (prev_diff <? Fin 0)%F && (curr_diff >? Fin 0)%F then "bullish"
    else if (prev_diff >? Fin 0)%F && (curr_diff <? Fin 0)%F then "bearish"
    else "none".

(** The two accumulators of [calculate_bias] as they stand when the bias
    is determined (line 370): [(long_score, short_score)].  The
    quotients are taken on numpy scalars ([current_rsi] comes from
    [rsi.iloc[-1]]), so they are IEEE quotients. *)
Definition bias_scores (rsi_signal : string) (current_rsi : pyfloat)
    (macd_crossover : string) (current_histogram : pyfloat)
    (ema_crossover : string) (price_vs_ema : pyfloat) (volume_spike : bool)
    (rsi_oversold rsi_overbought : pyfloat) : pyfloat * pyfloat :=
  let long_score := Fin 0 in
  let short_score := Fin 0 in
  (* RSI contribution *)
  let '(long_score, short_score) :=
    if String.eqb rsi_signal "oversold" then
      let rsi_intensity := ((rsi_oversold - current_rsi) / rsi_oversold)%F in
      ((long_score + (Fin 2 + pymin rsi_intensity (Fin 1)))%F, short_score)
    else if String.eqb rsi_signal "overbought" then
      let rsi_intensity :=
        ((current_rsi - rsi_overbought) / (Fin 100 - rsi_overbought))%F in
      (long_score, (short_score + (Fin 2 + pymin rsi_intensity (Fin 1)))%F)
    else (long_score, short_score) in
  (* MACD crossover contribution *)
  let '(long_score, short_score) :=
    if String.eqb macd_crossover "bullish" then
      ((long_score + Fin 2.5)%F, short_score)
    else if String.eqb macd_crossover "bearish" then
      (long_score, (short_score + Fin 2.5)%F)
    else if (current_histogram >? Fin 0)%F then
      ((long_score + Fin 0.5)%F, short_score)
    else if (current_histogram <? Fin 0)%F then
      (long_score, (short_score + Fin 0.5)%F)
    else (long_score, short_score) in
  (* EMA crossover contribution *)
  let '(long_score, short_score) :=
    if String.eqb ema_crossover "bullish" then
      ((long_score + Fin 2)%F, short_score)
    else if String.eqb ema_crossover "bearish" then
      (long_score, (short_score + Fin 2)%F)
    else (long_score, short_score) in
  (* Price position vs EMA *)
  let '(long_score, short_score) :=
    if (price_vs_ema >? Fin 2)%F then
      ((long_score + pymin (price_vs_ema / Fin 4) (Fin 1.5))%F, short_score)
    else if (price_vs_ema <? Fin (-2))%F then
      (long_score,
       (short_score + pymin (fabs price_vs_ema / Fin 4) (Fin 1.5))%F)
    else (long_score, short_score) in
  (* Volume spike bonus *)
  if volume_spike then
    if (long_score >? short_score)%F then
      ((long_score + Fin 1)%F, short_score)
    else if (short_score >? long_score)%F then
      (long_score, (short_score + Fin 1)%F)
    else (long_score, short_score)
  else (long_score, short_score).

(** The decision of [calculate_bias] on the accumulated scores. *)
Definition decide_bias (long_score short_score : pyfloat) : string * pyfloat :=
  let '(bias, strength) :=
    if (long_score >? short_score + Fin 1)%F then
      ("long"%string, pymin long_score (Fin 10))
    else if (short_score >? long_score + Fin 1)%F then
      ("short"%string, pymin short_score (Fin 10))
    else ("neutral"%string, Fin 0) in
  (bias, pyround strength 1).

Definition calculate_bias (rsi_signal : string) (current_rsi : pyfloat)
    (macd_crossover : string) (current_histogram : pyfloat)
    (ema_crossover : string) (price_vs_ema : pyfloat) (volume_spike : bool)
    (rsi_oversold rsi_overbought : pyfloat) : string * pyfloat :=
  let '(long_score, short_score) :=
    bias_scores rsi_signal current_rsi macd_crossover current_histogram
      ema_crossover price_vs_ema volume_spike rsi_oversold rsi_overbought in
  decide_bias long_score short_score.

(** [None] is returned both for a short frame and when the body raises. *)
Definition analyze_technicals (df : DataFrame) (symbol timeframe : string)
    (rsi_oversold rsi_overbought : pyfloat)
    (ema_short_period ema_long_period : Z)
    (volume_spike_threshold : pyfloat) : option TechnicalSignal :=
  if (Z.of_nat (length df) <? Z.max ema_long_period 26 + 10)%Z then None
  else
    let rsi := calculate_rsi df 14 in
    '(macd_line, signal_line, histogram) ← calculate_macd df 12 26 9;
    ema_short ← calculate_ema df ema_short_period;
    ema_long ← calculate_ema df ema_long_period;
    volume_ratio ← calculate_volume_ratio df 20;
    current_rsi ← iloc_neg rsi 1;
    current_macd ← iloc_neg macd_line 1;
    current_signal ← iloc_neg signal_line 1;
    current_histogram ← iloc_neg histogram 1;
    current_ema_short ← iloc_neg ema_short 1;
    current_ema_long ← iloc_neg ema_long 1;
    current_price ← iloc_neg (map close df) 1;
    price_change ←
      (if (2 <=? length df)%nat then
         prev_close ← iloc_neg (map close df) 2;
         Some ((current_price - prev_close) / prev_close * Fin 100)%F
       else Some (Fin 0));
    let rsi_signal :=
      if (current_rsi <=? rsi_oversold)%F then "oversold"%string
      else if (current_rsi >=? rsi_overbought)%F then "overbought"%string
      else "neutral"%string in
    let macd_crossover := detect_macd_crossover macd_line signal_line in
    let ema_crossover := detect_ema_crossover ema_short ema_long in
    let price_vs_ema :=
      ((current_price - current_ema_long) / current_ema_long * Fin 100)%F in
    let volume_spike := (volume_ratio >=? volume_spike_threshold)%F in
    let '(bias, strength) :=
      calculate_bias rsi_signal current_rsi macd_crossover current_histogram
        ema_crossover price_vs_ema volume_spike rsi_oversold rsi_overbought in
    Some {| symbol := symbol; timeframe := timeframe;
            rsi := current_rsi; rsi_signal := rsi_signal;
            macd := current_macd; macd_signal := current_signal;
            macd_histogram := current_histogram;
            macd_crossover := macd_crossover;
            ema_short := current_ema_short; ema_long := current_ema_long;
            ema_crossover := ema_crossover; price_vs_ema := price_vs_ema;
            volume_ratio := volume_ratio; volume_spike := volume_spike;
            current_price := current_price;
            price_change_percent := price_change;
            bias := bias; strength := strength |}.

End technical.

(** ** Formatted text

    The descriptions and reasons are f-strings.  Rendering numbers as
    text is not modelled: an f-string is kept as its template together
    with the values that fill it, in order. *)

Module Text.

Inductive farg : Type :=
| ArgStr (s : string)
| ArgNum (x : pyfloat).

Record fstring : Type := { template : string; args : list farg }.

Definition literal (s : string) : fstring := {| template := s; args := [] |}.

Definition upper_ascii (c : ascii) : ascii :=
  let n := nat_of_ascii c in
  if ((97 <=? n) && (n <=? 122))%nat then ascii_of_nat (n - 32) else c.

(** [s.upper()] on ASCII text. *)
Fixpoint upper (s : string) : string :=
  match s with
  | EmptyString => EmptyString
  | String c t => String (upper_ascii c) (upper t)
  end.

Definition lower_ascii (c : ascii) : ascii :=
  let n := nat_of_ascii c in
  if ((65 <=? n) && (n <=? 90))%nat then ascii_of_nat (n + 32) else c.

(** [s.lower()] on ASCII text. *)
Fixpoint lower (s : string) : string :=
  match s with
  | EmptyString => EmptyString
  | String c t => String (lower_ascii c) (lower t)
  end.

End Text.

(** ** analysis/funding.py *)

Module funding.
Import Text.

Record FundingSignal : Type := {
  symbol : string;
  funding_rate : pyfloat;
  funding_rate_raw : pyfloat;
  next_funding_time : option Z;
  signal : string;
  intensity : string;
  description : fstring;
  score : pyfloat
}.

Definition default_extreme_positive_threshold : pyfloat := Fin 0.1.
Definition default_extreme_negative_threshold : pyfloat := Fin (-0.1).
Definition default_high_positive_threshold : pyfloat := Fin 0.05.
Definition default_high_negative_threshold : pyfloat := Fin (-0.05).

(** The threshold cascade: [(signal, intensity, score, description)].
    [None] stands for the [ZeroDivisionError] of a zero extreme
    threshold. *)
Definition classify_funding (funding_rate : pyfloat)
    (extreme_positive_threshold extreme_negative_threshold
     high_positive_threshold high_negative_threshold : pyfloat)
  : option (string * string * pyfloat * fstring) :=
  let rate := [ArgNum funding_rate] in
  if (funding_rate <=? extreme_negative_threshold)%F then
    q ← pydiv (fabs funding_rate) (fabs extreme_negative_threshold);
    Some ("long"%string, "extreme"%string, pymin (q * Fin 5)%F (Fin 10),
          {| template := "Extreme negative funding ({:.4f}%). Shorts are paying longs heavily - potential long opportunity.";
             args := rate |})
  else if (funding_rate <=? high_negative_threshold)%F then
    q ← pydiv (fabs funding_rate) (fabs extreme_negative_threshold);
    Some ("long"%string, "high"%string, pymin (q * Fin 4)%F (Fin 7),
          {| template := "High negative funding ({:.4f}%). Shorts paying longs - consider long positions.";
             args := rate |})
  else if (funding_rate >=? extreme_positive_threshold)%F then
    q ← pydiv funding_rate extreme_positive_threshold;
    Some ("short"%string, "extreme"%string, pymin (q * Fin 5)%F (Fin 10),
          {| template := "Extreme positive funding ({:.4f}%). Longs are paying shorts heavily - potential short opportunity.";
             args := rate |})
  else if (funding_rate >=? high_positive_threshold)%F then
    q ← pydiv funding_rate extreme_positive_threshold;
    Some ("short"%string, "high"%string, pymin (q * Fin 4)%F (Fin 7),
          {| template := "High positive funding ({:.4f}%). Longs paying shorts - consider short positions.";
             args := rate |})
  else if (funding_rate >? Fin 0.01)%F then
    Some ("short"%string, "moderate"%string, Fin 2,
          {| template := "Moderate positive funding ({:.4f}%). Slight bearish bias.";
             args := rate |})
  else if (funding_rate <? Fin (-0.01))%F then
    Some ("long"%string, "moderate"%string, Fin 2,
          {| template := "Moderate negative funding ({:.4f}%). Slight bullish bias.";
             args := rate |})
  else
    Some ("neutral"%string, "low"%string, Fin 0,
          {| template := "Neutral funding rate ({:.4f}%). No clear signal.";
             args := rate |}).

Definition analyze_funding_rate (symbol : string) (funding_rate : pyfloat)
    (next_funding_time : option Z)
    (extreme_positive_threshold extreme_negative_threshold
     high_positive_threshold high_negative_threshold : pyfloat)
  : option FundingSignal :=
  '(signal, intensity, score, description) ←
    classify_funding funding_rate extreme_positive_threshold
      extreme_negative_threshold high_positive_threshold
      high_negative_threshold;
  Some {| symbol := symbol;
          funding_rate := funding_rate;
          funding_rate_raw := (funding_rate / Fin 100)%F;
          next_funding_time := next_funding_time;
          signal := signal;
          intensity := intensity;
          description := description;
          score := pyround score 1 |}.

(** One value of the [funding_data] dict: the entries that
    [data.get('funding_rate', 0.0)] and [data.get('funding_time')]
    read, each present or not. *)
Record FundingData : Type := {
  data_funding_rate : option pyfloat;
  data_funding_time : option Z
}.

(** The loop body of [analyze_funding_rates_batch]; the two high
    thresholds are not passed on and keep their defaults. *)
Definition analyze_funding_entry (symbol : string) (data : FundingData)
    (extreme_positive_threshold extreme_negative_threshold : pyfloat)
  : option FundingSignal :=
  let funding_rate := default (Fin 0) (data_funding_rate data) in
  let funding_time := data_funding_time data in
  analyze_funding_rate symbol funding_rate funding_time
    extreme_positive_threshold extreme_negative_threshold
    default_high_positive_threshold default_high_negative_threshold.

(** [analyze_funding_rates_batch]: the dict is walked item by item and
    the first exception ends the call ([None]). *)
Definition analyze_funding_rates_batch (funding_data : gmap string FundingData)
    (extreme_positive_threshold extreme_negative_threshold : pyfloat)
  : option (gmap string FundingSignal) :=
  foldl (fun results item =>
           results ← results;
           r ← analyze_funding_entry item.1 item.2
                  extreme_positive_threshold extreme_negative_threshold;
           Some (<[item.1 := r]> results))
        (Some ∅) (map_to_list funding_data).

(** [get_extreme_funding_symbols], on the values of the dict in their
    order. *)
Definition get_extreme_funding_symbols (signals : list FundingSignal)
    (min_score : pyfloat) : list FundingSignal :=
  let extreme_signals :=
    List.filter (fun signal => (score signal >=? min_score)%F) signals in
  PyList.sorted_desc_by score extreme_signals.

End funding.

(** ** analysis/liquidation.py *)

Module liquidation.
Import Text.

Record LiquidationSignal : Type := {
  symbol : string;
  total_long_liquidations_usd : pyfloat;
  total_short_liquidations_usd : pyfloat;
  net_liquidations_usd : pyfloat;
  signal : string;
  description : fstring;
  score : pyfloat
}.

Definition default_threshold_usd : pyfloat := Fin 1000000.

(** The cascade of [analyze_liquidations]: [(signal, score, description)].
    [None] stands for the [ZeroDivisionError] of a zero threshold. *)
Definition classify_liquidations
    (long_liquidations_usd short_liquidations_usd threshold_usd : pyfloat)
  : option (string * pyfloat * fstring) :=
  let total_liquidations := (long_liquidations_usd + short_liquidations_usd)%F in
  let both := [ArgNum long_liquidations_usd; ArgNum short_liquidations_usd] in
  if (total_liquidations <? threshold_usd / Fin 2)%F then
    Some ("neutral"%string, Fin 0,
          {| template := "Low liquidation activity. Longs: ${:,.0f}, Shorts: ${:,.0f}";
             args := both |})
  else if (long_liquidations_usd >=? threshold_usd)%F
          && (long_liquidations_usd >? short_liquidations_usd * Fin 1.5)%F then
    m ← pydiv long_liquidations_usd threshold_usd;
    let magnitude_score := pymin m (Fin 5) in
    r ← pydiv long_liquidations_usd (pymax short_liquidations_usd (Fin 1));
    let imbalance_score := pymin (r - Fin 1)%F (Fin 5) in
    Some ("long"%string, pymin (magnitude_score + imbalance_score)%F (Fin 10),
          {| template := "Large long liquidations detected (${:,.0f}). Potential capitulation - consider long positions.";
             args := [ArgNum long_liquidations_usd] |})
  else if (short_liquidations_usd >=? threshold_usd)%F
          && (short_liquidations_usd >? long_liquidations_usd * Fin 1.5)%F then
    m ← pydiv short_liquidations_usd threshold_usd;
    let magnitude_score := pymin m (Fin 5) in
    r ← pydiv short_liquidations_usd (pymax long_liquidations_usd (Fin 1));
    let imbalance_score := pymin (r - Fin 1)%F (Fin 5) in
    Some ("short"%string, pymin (magnitude_score + imbalance_score)%F (Fin 10),
          {| template := "Large short liquidations detected (${:,.0f}). Potential short squeeze exhaustion - consider short positions.";
             args := [ArgNum short_liquidations_usd] |})
  else if (total_liquidations >=? threshold_usd)%F then
    Some ("neutral"%string, Fin 0,
          {| template := "Balanced liquidations. Longs: ${:,.0f}, Shorts: ${:,.0f}";
             args := both |})
  else
    Some ("neutral"%string, Fin 0,
          literal "No significant liquidation activity detected.").

Definition analyze_liquidations (symbol : string)
    (long_liquidations_usd short_liquidations_usd threshold_usd : pyfloat)
  : option LiquidationSignal :=
  let net_liquidations := (long_liquidations_usd - short_liquidations_usd)%F in
  '(signal, score, description) ←
    classify_liquidations long_liquidations_usd short_liquidations_usd
      threshold_usd;
  Some {| symbol := symbol;
          total_long_liquidations_usd := long_liquidations_usd;
          total_short_liquidations_usd := short_liquidations_usd;
          net_liquidations_usd := net_liquidations;
          signal := signal;
          description := description;
          score := pyround score 1 |}.

(** One trade of the tape, as the exchange clients build it; [time] is
    the trade time as a timestamp. *)
Record Trade : Type := {
  price : pyfloat;
  qty : pyfloat;
  quote_qty : pyfloat;
  time : Z;
  is_buyer_maker : bool
}.

Fixpoint insert_by_time (x : Trade) (l : list Trade) : list Trade :=
  match l with
  | [] => [x]
  | y :: t =>
      if (time y <? time x)%Z then y :: insert_by_time x t else x :: l
  end.

(** [sorted(trades, key=lambda x: x['time'])]: the stable sort into
    ascending order of time. *)
Definition sorted_by_time (trades : list Trade) : list Trade :=
  foldr insert_by_time [] trades.

(** The loop of [estimate_liquidations_from_trades] from the trade after
    [prev_trade] on; the accumulators are [(long_liqs, short_liqs)].
    The quotient has a positive divisor. *)
Fixpoint scan_trades (price_threshold_percent : pyfloat) (prev_trade : Trade)
    (rest : list Trade) (acc : pyfloat * pyfloat) : pyfloat * pyfloat :=
  match rest with
  | [] => acc
  | trade :: rest' =>
      let '(long_liqs, short_liqs) := acc in
      let acc' :=
        if (price prev_trade >? Fin 0)%F then
          let price_change :=
            ((price trade - price prev_trade) / price prev_trade * Fin 100)%F in
          if (price_change <? fneg price_threshold_percent)%F
             && is_buyer_maker trade then
            ((long_liqs + quote_qty trade)%F, short_liqs)
          else if (price_change >? price_threshold_percent)%F
                  && negb (is_buyer_maker trade) then
            (long_liqs, (short_liqs + quote_qty trade)%F)
          else (long_liqs, short_liqs)
        else (long_liqs, short_liqs) in
      scan_trades price_threshold_percent trade rest' acc'
  end.

Definition default_price_threshold_percent : pyfloat := Fin 0.5.

Definition estimate_liquidations_from_trades (trades : list Trade)
    (price_threshold_percent : pyfloat) : pyfloat * pyfloat :=
  match trades with
  | [] => (Fin 0, Fin 0)
  | _ =>
      match sorted_by_time trades with
      | [] => (Fin 0, Fin 0)
      | first :: rest =>
          scan_trades price_threshold_percent first rest (Fin 0, Fin 0)
      end
  end.

(** [analyze_liquidations_batch]: a symbol without data counts as
    [(0.0, 0.0)]; the first exception ends the call ([None]). *)
Definition analyze_liquidations_batch (symbols : list string)
    (liquidation_data : gmap string (pyfloat * pyfloat))
    (threshold_usd : pyfloat) : option (gmap string LiquidationSignal) :=
  foldl (fun results symbol =>
           results ← results;
           let '(long_liqs, short_liqs) :=
             default (Fin 0, Fin 0) (liquidation_data !! symbol) in
           r ← analyze_liquidations symbol long_liqs short_liqs threshold_usd;
           Some (<[symbol := r]> results))
        (Some ∅) symbols.

End liquidation.

(** ** analysis/signals.py *)

Module signals.
Import Text.

Inductive SignalType : Type := LONG | SHORT | NEUTRAL.

Inductive SignalStrength : Type := WEAK | MODERATE | STRONG | VERY_STRONG.

#[export] Instance SignalType_eq_dec : EqDecision SignalType.
Proof. solve_decision. Defined.

#[export] Instance SignalStrength_eq_dec : EqDecision SignalStrength.
Proof. solve_decision. Defined.

(** The [timestamp] field ([datetime.now()]) is left out. *)
Record AggregatedSignal : Type := {
  symbol : string;
  signal_type : SignalType;
  strength : SignalStrength;
  total_score : pyfloat;
  technical_signal : option technical.TechnicalSignal;
  funding_signal : option funding.FundingSignal;
  liquidation_signal : option liquidation.LiquidationSignal;
  technical_score : pyfloat;
  funding_score : pyfloat;
  liquidation_score : pyfloat;
  confluence_count : nat;
  confluence_bonus : pyfloat;
  timeframe : string;
  reasons : list fstring
}.

Definition calculate_signal_strength (score : pyfloat) : SignalStrength :=
  if (score >=? Fin 8.5)%F then VERY_STRONG
  else if (score >=? Fin 7)%F then STRONG
  else if (score >=? Fin 5)%F then MODERATE
  else WEAK.

Definition default_weights : gmap string pyfloat :=
  <["technical" := Fin 0.50]>
    (<["funding" := Fin 0.30]> (<["liquidation" := Fin 0.20]> ∅)).

(** The running state of [aggregate_signals] while the three lenses are
    processed. *)
Record Tally : Type := {
  long_score : pyfloat;
  short_score : pyfloat;
  signals_agreeing_long : nat;
  signals_agreeing_short : nat;
  reasons_so_far : list fstring
}.

Definition initial_tally : Tally :=
  {| long_score := Fin 0; short_score := Fin 0;
     signals_agreeing_long := 0; signals_agreeing_short := 0;
     reasons_so_far := [] |}.

Definition vote_long (t : Tally) (contribution : pyfloat) (reason : fstring)
  : Tally :=
  {| long_score := (long_score t + contribution)%F;
     short_score := short_score t;
     signals_agreeing_long := signals_agreeing_long t + 1;
     signals_agreeing_short := signals_agreeing_short t;
     reasons_so_far := reasons_so_far t ++ [reason] |}.

Definition vote_short (t : Tally) (contribution : pyfloat) (reason : fstring)
  : Tally :=
  {| long_score := long_score t;
     short_score := (short_score t + contribution)%F;
     signals_agreeing_long := signals_agreeing_long t;
     signals_agreeing_short := signals_agreeing_short t + 1;
     reasons_so_far := reasons_so_far t ++ [reason] |}.

(** One lens: its direction word, its own score, the key of its weight
    and the reasons it gives for either direction.  A lens that is
    absent or neutral contributes [0.0] and leaves the tally alone; a
    missing weight raises [KeyError] (here [None]). *)
Definition process_lens (weights : gmap string pyfloat) (key : string)
    (lens : option (string * pyfloat * fstring * fstring)) (t : Tally)
  : option (pyfloat * Tally) :=
  match lens with
  | Some (direction, own_score, long_reason, short_reason) =>
      if negb (String.eqb direction "neutral") then
        w ← weights !! key;
        let contribution := (own_score * w)%F in
        if String.eqb direction "long" then
          Some (contribution, vote_long t contribution long_reason)
        else if String.eqb direction "short" then
          Some (contribution, vote_short t contribution short_reason)
        else Some (contribution, t)
      else Some (Fin 0, t)
  | None => Some (Fin 0, t)
  end.

Definition technical_lens (s : technical.TechnicalSignal)
  : string * pyfloat * fstring * fstring :=
  let reason :=
    {| template := "Technical: {} (RSI: {:.1f}, MACD: {})";
       args := [ArgStr (upper (technical.bias s)); ArgNum (technical.rsi s);
                ArgStr (technical.macd_crossover s)] |} in
  (technical.bias s, technical.strength s, reason, reason).

Definition funding_lens (s : funding.FundingSignal)
  : string * pyfloat * fstring * fstring :=
  let filled :=
    [ArgStr (upper (funding.intensity s)); ArgNum (funding.funding_rate s)] in
  (funding.signal s, funding.score s,
   {| template := "Funding: {} negative ({:.4f}%)"; args := filled |},
   {| template := "Funding: {} positive ({:.4f}%)"; args := filled |}).

Definition liquidation_lens (s : liquidation.LiquidationSignal)
  : string * pyfloat * fstring * fstring :=
  (liquidation.signal s, liquidation.score s,
   {| template := "Liquidations: Long cascade (${:,.0f})";
      args := [ArgNum (liquidation.total_long_liquidations_usd s)] |},
   {| template := "Liquidations: Short squeeze (${:,.0f})";
      args := [ArgNum (liquidation.total_short_liquidations_usd s)] |}).

(** The final direction: [(signal_type, base_score, confluence_count)]. *)
Definition final_direction (t : Tally) : SignalType * pyfloat * nat :=
  if (long_score t >? short_score t)%F then
    (LONG, long_score t, signals_agreeing_long t)
  else if (short_score t >? long_score t)%F then
    (SHORT, short_score t, signals_agreeing_short t)
  else (NEUTRAL, Fin 0, 0%nat).

(** The confluence bonus and the reason it appends, if any. *)
Definition confluence (confluence_count : nat) : pyfloat * list fstring :=
  if (3 <=? confluence_count)%nat then
    (Fin 1.5, [literal "Strong confluence: All 3 signals agree"])
  else if (confluence_count =? 2)%nat then
    (Fin 0.75, [literal "Good confluence: 2 signals agree"])
  else (Fin 0, []).

(** The three lens blocks in order: the three contributions and the
    tally they leave. *)
Definition tally_lenses (weights : gmap string pyfloat)
    (technical : option technical.TechnicalSignal)
    (funding : option funding.FundingSignal)
    (liquidation : option liquidation.LiquidationSignal)
  : option (pyfloat * pyfloat * pyfloat * Tally) :=
  let t := initial_tally in
  '(technical_contribution, t) ←
    process_lens weights "technical" (technical_lens <$> technical) t;
  '(funding_contribution, t) ←
    process_lens weights "funding" (funding_lens <$> funding) t;
  '(liquidation_contribution, t) ←
    process_lens weights "liquidation" (liquidation_lens <$> liquidation) t;
  Some (technical_contribution, funding_contribution,
        liquidation_contribution, t).

Definition aggregate_signals (symbol timeframe : string)
    (technical : option technical.TechnicalSignal)
    (funding : option funding.FundingSignal)
    (liquidation : option liquidation.LiquidationSignal)
    (weights : option (gmap string pyfloat)) : option AggregatedSignal :=
  let weights := default default_weights weights in
  '(technical_contribution, funding_contribution, liquidation_contribution, t) ←
    tally_lenses weights technical funding liquidation;
  let '(signal_type, base_score, confluence_count) := final_direction t in
  let '(confluence_bonus, confluence_reason) := confluence confluence_count in
  let reasons := reasons_so_far t ++ confluence_reason in
  let total_score := pymin (base_score + confluence_bonus)%F (Fin 10) in
  let strength := calculate_signal_strength total_score in
  Some {| symbol := symbol;
          signal_type := signal_type;
          strength := strength;
          total_score := pyround total_score 1;
          technical_signal := technical;
          funding_signal := funding;
          liquidation_signal := liquidation;
          technical_score := pyround technical_contribution 1;
          funding_score := pyround funding_contribution 1;
          liquidation_score := pyround liquidation_contribution 1;
          confluence_count := confluence_count;
          confluence_bonus := confluence_bonus;
          timeframe := timeframe;
          reasons := reasons |}.

(** The test of the loop body of [filter_signals]: [true] when the
    signal is appended to [filtered]. *)
Definition passes_filter (min_score : pyfloat)
    (signal_types : option (list SignalType)) (signal : AggregatedSignal)
  : bool :=
  if bool_decide (signal_type signal = NEUTRAL) then false
  else if (total_score signal <? min_score)%F then false
  else
    match signal_types with
    | Some (ty :: tys) =>
        bool_decide (signal_type signal ∈ ty :: tys)
    | _ => true
    end.

Fixpoint insert_desc (x : AggregatedSignal) (l : list AggregatedSignal)
  : list AggregatedSignal :=
  match l with
  | [] => [x]
  | y :: t =>
      if (total_score x <? total_score y)%F then y :: insert_desc x t
      else x :: l
  end.

(** [sorted(l, key=lambda x: x.total_score, reverse=True)]: the stable
    sort into descending order, which compares keys with [<] only. *)
Definition sorted_desc (l : list AggregatedSignal) : list AggregatedSignal :=
  foldr insert_desc [] l.

Definition filter_signals (signals : list AggregatedSignal)
    (min_score : pyfloat) (signal_types : option (list SignalType))
  : list AggregatedSignal :=
  let filtered :=
    List.filter (passes_filter min_score signal_types) signals in
  sorted_desc filtered.

(** [rank_signals]: the two lists are sorted in place and cut to
    [top_n]. *)
Definition rank_signals (signals : list AggregatedSignal) (top_n : Z)
  : gmap string (list AggregatedSignal) :=
  let long_signals :=
    List.filter (fun s => bool_decide (signal_type s = LONG)) signals in
  let short_signals :=
    List.filter (fun s => bool_decide (signal_type s = SHORT)) signals in
  let long_signals := sorted_desc long_signals in
  let short_signals := sorted_desc short_signals in
  <["long" := PyList.slice_to long_signals top_n]>
    (<["short" := PyList.slice_to short_signals top_n]> ∅).

End signals.

(** ** config.py *)

Module config.

Record Config : Type := {
  binance_api_key : string;
  binance_api_secret : string;
  telegram_bot_token : string;
  telegram_chat_id : string;
  preferred_exchange : string;
  timeframes : list string;
  top_coins_count : Z;
  min_signal_score : pyfloat;
  funding_rate_extreme_positive : pyfloat;
  funding_rate_extreme_negative : pyfloat;
  rsi_oversold : pyfloat;
  rsi_overbought : pyfloat;
  ema_short_period : Z;
  ema_long_period : Z;
  volume_spike_threshold : pyfloat;
  liquidation_threshold_usd : pyfloat
}.

Definition valid_exchanges : list string :=
  ["auto"; "binance"; "bybit"; "okx"]%string.

(** [not s] for a string. *)
Definition is_empty (s : string) : bool :=
  match s with EmptyString => true | _ => false end.

(** [validate_config]: the list of error messages, in the order of the
    checks. *)
Definition validate_config (config : Config) : list string :=
  let errors := [] in
  let errors :=
    if is_empty (telegram_bot_token config)
    then errors ++ ["TELEGRAM_BOT_TOKEN is not set"%string] else errors in
  let errors :=
    if is_empty (telegram_chat_id config)
    then errors ++ ["TELEGRAM_CHAT_ID is not set"%string] else errors in
  let errors :=
    if (min_signal_score config <? Fin 0)%F
       || (min_signal_score config >? Fin 10)%F
    then errors ++ ["MIN_SIGNAL_SCORE must be between 0 and 10"%string]
    else errors in
  let errors :=
    if (rsi_oversold config >=? rsi_overbought config)%F
    then errors ++ ["RSI_OVERSOLD must be less than RSI_OVERBOUGHT"%string]
    else errors in
  let errors :=
    if bool_decide (Text.lower (preferred_exchange config) ∈ valid_exchanges)
    then errors
    else errors
         ++ ["PREFERRED_EXCHANGE must be one of: auto, binance, bybit, okx"%string] in
  errors.

End config.

(** ** main.py

    The computation of [analyze_symbol] and [run_analysis] on data that
    has been fetched. *)

Module main.
Import signals config.

(** The body of the loop of [analyze_symbol] for one timeframe, given
    the frame, the funding reading and the trades that the client
    returned.  [None]: an exception was raised, and the timeframe is
    skipped. *)
Definition analyze_timeframe (config : Config) (symbol timeframe : string)
    (df : list technical.Bar) (funding_rate : pyfloat)
    (funding_time : option Z) (trades : list liquidation.Trade)
  : option signals.AggregatedSignal :=
  let technical :=
    technical.analyze_technicals df symbol timeframe
      (rsi_oversold config) (rsi_overbought config)
      (ema_short_period config) (ema_long_period config)
      (volume_spike_threshold config) in
  funding ←
    funding.analyze_funding_rate symbol funding_rate funding_time
      (funding_rate_extreme_positive config)
      (funding_rate_extreme_negative config)
      funding.default_high_positive_threshold
      funding.default_high_negative_threshold;
  let '(long_liqs, short_liqs) :=
    liquidation.estimate_liquidations_from_trades trades
      liquidation.default_price_threshold_percent in
  liquidation ←
    liquidation.analyze_liquidations symbol long_liqs short_liqs
      (liquidation_threshold_usd config);
  signals.aggregate_signals symbol timeframe technical (Some funding)
    (Some liquidation) None.

(** The end of [run_analysis]: the aggregated signals of all symbols
    and timeframes, in the order they were produced, are reduced to the
    long and the short list that are returned.  [None] would be a
    [KeyError] on the ranking. *)
Definition select_signals (results : list signals.AggregatedSignal)
    (config : Config)
  : option (list signals.AggregatedSignal * list signals.AggregatedSignal) :=
  let all_signals :=
    List.filter
      (fun signal =>
         negb (bool_decide (signals.signal_type signal = signals.NEUTRAL)))
      results in
  let filtered :=
    signals.filter_signals all_signals (min_signal_score config) None in
  let ranked := signals.rank_signals filtered 5 in
  long ← ranked !! "long"%string;
  short ← ranked !! "short"%string;
  Some (long, short).

End main.

(** ** Sample inputs *)

Module Samples.

Definition bar (price vol : Q) : technical.Bar :=
  {| technical.timestamp := 0; technical.open := Fin price;
     technical.high := Fin price; technical.low := Fin price;
     technical.close := Fin price; technical.volume := Fin vol |}.

(** A frame whose closes are the given prices, at constant volume. *)
Definition frame (prices : list Q) : list technical.Bar :=
  map (fun p => bar p 5) prices.

Definition two_bars : list technical.Bar := frame [100; 110].



Definition aggregated (ty : signals.SignalType) (score : Q)
  : signals.AggregatedSignal :=
  {| signals.symbol := "BTCUSDT"; signals.signal_type := ty;
     signals.strength := signals.calculate_signal_strength (Fin score);
     signals.total_score := Fin score;
     signals.technical_signal := None; signals.funding_signal := None;
     signals.liquidation_signal := None;
     signals.technical_score := Fin 0; signals.funding_score := Fin 0;
     signals.liquidation_score := Fin 0;
     signals.confluence_count := 0; signals.confluence_bonus := Fin 0;
     signals.timeframe := "1h"; signals.reasons := [] |}.

End Samples.

(** ** Vocabulary of the statements *)

Section Vocabulary.
Import technical signals.

(** A finite, non-negative value. *)
Definition nonneg (x : pyfloat) : Prop := exists q, x = Fin q /\ 0 <= q.

Definition finite_or_nan (x : pyfloat) : Prop := x = NaN \/ is_finite x = true.

Definition finite_closes (df : list Bar) : Prop :=
  Forall (fun x => is_finite x = true) (map close df).

(** The RSI of one bar from its average gain and average loss. *)
Definition rsi_of (gain loss : pyfloat) : pyfloat :=
  (Fin 100 - Fin 100 / (Fin 1 + gain / loss))%F.

Definition finite_volumes (df : list Bar) : Prop :=
  Forall (fun x => is_finite x = true) (map volume df).

(** The score formula of either side, before the final rounding. *)
Definition dominance_score (side other T : pyfloat) : pyfloat :=
  pymin (pymin (side / T)%F (Fin 5)
         + pymin (side / pymax other (Fin 1) - Fin 1)%F (Fin 5))%F (Fin 10).


(** The type restriction of [filter_signals]: a missing or empty list
    of types (both falsy in Python) allows every type. *)
Definition allowed (signal_types : option (list SignalType))
    (ty : SignalType) : Prop :=
  match signal_types with
  | Some (t :: ts) => ty ∈ t :: ts
  | _ => True
  end.

(** [a] may stand before [b] in descending order of score. *)
Definition score_ge (a b : AggregatedSignal) : Prop :=
  (total_score b <=? total_score a)%F = true.

Definition has_score (s : AggregatedSignal) : Prop :=
  is_nan (total_score s) = false.

End Vocabulary.

(** ** Vocabulary of the further properties *)

Section Vocabulary2.
Import technical signals liquidation.

(** An infinity, or a finite value of at least [lo]. *)
Definition at_least (lo : Q) (x : pyfloat) : Prop :=
  x = PInf \/ exists q, x = Fin q /\ lo <= q.

(** The notional of a trade as a rational (0 when it is not finite). *)
Definition quote_of (t : Trade) : Q :=
  match quote_qty t with Fin q => q | _ => 0 end.

Definition quote_total (trades : list Trade) : Q :=
  foldr (fun t acc => quote_of t + acc) 0 trades.

(** [a] is traded strictly before [b]. *)
Definition earlier (a b : Trade) : Prop := (time a < time b)%Z.

End Vocabulary2.

Section Vocabulary3.

(** Equality of values as a test. *)
Definition feqb (a b : pyfloat) : bool :=
  match a, b with
  | NaN, NaN | PInf, PInf | NInf, NInf => true
  | Fin x, Fin y => Qeq_bool x y
  | _, _ => false
  end.

(** [a] may stand before [b] in descending order of [key]. *)
Definition key_ge {A : Type} (key : A -> pyfloat) (a b : A) : Prop :=
  (key b <=? key a)%F = true.

(** What [analyze_liquidations_batch] computes for one symbol. *)
Definition liquidation_entry
    (liquidation_data : gmap string (pyfloat * pyfloat)) (T : pyfloat)
    (symbol : string) : option liquidation.LiquidationSignal :=
  liquidation.analyze_liquidations symbol
    (default (Fin 0, Fin 0) (liquidation_data !! symbol)).1
    (default (Fin 0, Fin 0) (liquidation_data !! symbol)).2 T.

(** The order of the strength categories. *)
Definition strength_rank (s : signals.SignalStrength) : nat :=
  match s with
  | signals.WEAK => 0
  | signals.MODERATE => 1
  | signals.STRONG => 2
  | signals.VERY_STRONG => 3
  end.

End Vocabulary3.

Section Vocabulary4.
Import signals.

(** The record [r] with its three component signals replaced. *)
Definition with_components
    (technical : option technical.TechnicalSignal)
    (funding : option funding.FundingSignal)
    (liquidation : option liquidation.LiquidationSignal)
    (r : AggregatedSignal) : AggregatedSignal :=
  {| symbol := symbol r;
     signal_type := signal_type r;
     strength := strength r;
     total_score := total_score r;
     technical_signal := technical;
     funding_signal := funding;
     liquidation_signal := liquidation;
     technical_score := technical_score r;
     funding_score := funding_score r;
     liquidation_score := liquidation_score r;
     confluence_count := confluence_count r;
     confluence_bonus := confluence_bonus r;
     timeframe := timeframe r;
     reasons := reasons r |}.

(** A lens that is present but neutral, taken as absent. *)
Definition active_technical (t : option technical.TechnicalSignal)
  : option technical.TechnicalSignal :=
  t ≫= fun s => if String.eqb (technical.bias s) "neutral" then None else Some s.

Definition active_funding (f : option funding.FundingSignal)
  : option funding.FundingSignal :=
  f ≫= fun s => if String.eqb (funding.signal s) "neutral" then None else Some s.

Definition active_liquidation (l : option liquidation.LiquidationSignal)
  : option liquidation.LiquidationSignal :=
  l ≫= fun s =>
         if String.eqb (liquidation.signal s) "neutral" then None else Some s.

(** The tally holds two finite, non-negative scores. *)
Definition tally_nonneg (t : Tally) : Prop :=
  nonneg (long_score t) /\ nonneg (short_score t).

End Vocabulary4.

Section Vocabulary5.

(** A finite value within [lo, hi]. *)
Definition within (lo hi : Q) (x : pyfloat) : Prop :=
  exists q, x = Fin q /\ lo <= q /\ q <= hi.

(** Two finite, non-negative scores that add up to at most [bound]. *)
Definition scores_within (bound : Q) (p : pyfloat * pyfloat) : Prop :=
  exists l s, p = (Fin l, Fin s) /\ 0 <= l /\ 0 <= s /\ l + s <= bound.

(** The RSI class agrees with the RSI value: an 'oversold' RSI is a
    value of [0, oversold] under a positive threshold, an 'overbought'
    one a value of [overbought, 100] over a threshold below 100. *)
Definition rsi_classified (rsi_signal : string)
    (current_rsi rsi_oversold rsi_overbought : pyfloat) : Prop :=
  (rsi_signal = "oversold"%string ->
   exists r o, current_rsi = Fin r /\ rsi_oversold = Fin o /\
               0 <= r /\ r <= o /\ 0 < o) /\
  (rsi_signal = "overbought"%string ->
   exists r o, current_rsi = Fin r /\ rsi_overbought = Fin o /\
               o <= r /\ r <= 100 /\ o < 100).

(** Every close of the frame is the value [c]. *)
Definition flat_at (c : Q) (df : list technical.Bar) : Prop :=
  Forall (within c c) (map technical.close df).

(** A value without a sign: zero or NaN. *)
Definition unsigned (x : pyfloat) : Prop := x = NaN \/ within 0 0 x.

End Vocabulary5.

(** ** Further sample data *)

Module MoreSamples.

(** Three trades, a sell between two buys. *)
Definition tape : list liquidation.Trade :=
  [ {| liquidation.price := Fin 100; liquidation.qty := Fin 1;
       liquidation.quote_qty := Fin 100; liquidation.time := 1;
       liquidation.is_buyer_maker := false |};
    {| liquidation.price := Fin 99; liquidation.qty := Fin 2;
       liquidation.quote_qty := Fin 198; liquidation.time := 2;
       liquidation.is_buyer_maker := true |};
    {| liquidation.price := Fin 100; liquidation.qty := Fin 3;
       liquidation.quote_qty := Fin 300; liquidation.time := 3;
       liquidation.is_buyer_maker := false |} ].

(** The configuration that [load_config] builds when only the two
    Telegram variables are set. *)
Definition loaded (token chat : string) : config.Config :=
  {| config.binance_api_key := "";
     config.binance_api_secret := "";
     config.telegram_bot_token := token;
     config.telegram_chat_id := chat;
     config.preferred_exchange := "auto";
     config.timeframes := ["1h"; "4h"]%string;
     config.top_coins_count := 20;
     config.min_signal_score := Fin 7;
     config.funding_rate_extreme_positive := Fin 0.1;
     config.funding_rate_extreme_negative := Fin (-0.1);
     config.rsi_oversold := Fin 30;
     config.rsi_overbought := Fin 70;
     config.ema_short_period := 12;
     config.ema_long_period := 26;
     config.volume_spike_threshold := Fin 2;
     config.liquidation_threshold_usd := Fin 1000000 |}.

(** Forty bars that rise by 1 from 100, and forty bars at 100. *)
Definition ramp : list technical.Bar :=
  Samples.frame (map (fun n => 100 + inject_Z (Z.of_nat n)) (seq 0 40)).

Definition level : list technical.Bar := Samples.frame (repeat 100 40).

(** Liquidation totals for one symbol, and a funding entry. *)
Definition liquidation_data : gmap string (pyfloat * pyfloat) :=
  {[ "BTCUSDT"%string := (Fin 3000000, Fin 500000) ]}.

Definition funding_data : gmap string funding.FundingData :=
  {[ "BTCUSDT"%string :=
       {| funding.data_funding_rate := Some (Fin 0.07);
          funding.data_funding_time := None |} ]}.

End MoreSamples.

Section Vocabulary6.
Import config.

(** The thresholds of a configuration are in range: an oversold level
    above 0, an overbought level below 100, EMA periods of at least 1,
    a positive and a negative extreme funding rate, and a liquidation
    threshold of at least 1 (all finite). *)
Definition thresholds_in_range (cfg : Config) : Prop :=
  exists o b ep en T : Q,
    rsi_oversold cfg = Fin o /\ rsi_overbought cfg = Fin b /\
    0 < o /\ b < 100 /\
    (1 <= ema_short_period cfg)%Z /\ (1 <= ema_long_period cfg)%Z /\
    funding_rate_extreme_positive cfg = Fin ep /\
    funding_rate_extreme_negative cfg = Fin en /\
    0 < ep /\ en < 0 /\
    liquidation_threshold_usd cfg = Fin T /\ 1 <= T.

(** The messages of [validate_config], in the order of its checks. *)
Definition validation_messages : list string :=
  [ "TELEGRAM_BOT_TOKEN is not set";
    "TELEGRAM_CHAT_ID is not set";
    "MIN_SIGNAL_SCORE must be between 0 and 10";
    "RSI_OVERSOLD must be less than RSI_OVERBOUGHT";
    "PREFERRED_EXCHANGE must be one of: auto, binance, bybit, okx" ]%string.

(** The text is ASCII; on such text [lower] is Python's [str.lower]. *)
Fixpoint is_ascii (s : string) : bool :=
  match s with
  | EmptyString => true
  | String c t => (nat_of_ascii c <? 128)%nat && is_ascii t
  end.

End Vocabulary6.

(** * Properties *)

(** ** Facts about the numbers *)

Section NumFacts.

Lemma Qltb_lt (x y : Q) : Qltb x y = true <-> x < y.
Proof.
  unfold Qltb. rewrite Qlt_alt.
  destruct (Qcompare x y); split; congruence.
Qed.

Lemma Qltb_ge (x y : Q) : Qltb x y = false <-> y <= x.
Proof.
  rewrite <- Bool.not_true_iff_false, Qltb_lt. split.
  - apply Qnot_lt_le.
  - intros H1 H2. lra.
Qed.

Lemma Qle_bool_gt (x y : Q) : Qle_bool x y = false <-> y < x.
Proof.
  rewrite <- Bool.not_true_iff_false, Qle_bool_iff. split.
  - apply Qnot_le_lt.
  - intros H1 H2. lra.
Qed.

Lemma Qzerob_eq (x : Q) : Qzerob x = true <-> x == 0.
Proof. apply Qeq_bool_iff. Qed.

Lemma Qzerob_neq (x : Q) : Qzerob x = false <-> ~ x == 0.
Proof. rewrite <- Bool.not_true_iff_false, Qzerob_eq. reflexivity. Qed.

#[global] Instance feq_equivalence : Equivalence feq.
Proof.
  split.
  - intros [ | | |x]; simpl; auto. reflexivity.
  - intros [ | | |x] [ | | |y]; simpl; auto. intros H. symmetry. exact H.
  - intros [ | | |x] [ | | |y] [ | | |z]; simpl; auto; try tauto.
    intros H1 H2. rewrite H1. exact H2.
Qed.

End NumFacts.

(** Turn boolean comparisons of rationals into propositions. *)
Ltac qprop :=
  repeat match goal with
    | H : Qltb _ _ = true |- _ => apply Qltb_lt in H
    | H : Qltb _ _ = false |- _ => apply Qltb_ge in H
    | H : Qle_bool _ _ = true |- _ => apply Qle_bool_iff in H
    | H : Qle_bool _ _ = false |- _ => apply Qle_bool_gt in H
    | H : Qzerob _ = true |- _ => apply Qzerob_eq in H
    | H : Qzerob _ = false |- _ => apply Qzerob_neq in H
    | |- Qltb _ _ = true => apply Qltb_lt
    | |- Qltb _ _ = false => apply Qltb_ge
    | |- Qle_bool _ _ = true => apply Qle_bool_iff
    | |- Qle_bool _ _ = false => apply Qle_bool_gt
    | |- Qzerob _ = true => apply Qzerob_eq
    | |- Qzerob _ = false => apply Qzerob_neq
    end.

(** Case analysis on the shape of a number, then linear arithmetic. *)
Ltac fcases x := destruct x as [ | | |?q]; simpl in *; try discriminate; try tauto.
Ltac qauto := qprop; simpl in *; try lra.

Section NumOrder.

Lemma flt_irrefl (a : pyfloat) : (a <? a)%F = false.
Proof. fcases a. qauto. Qed.

Lemma flt_asym (a b : pyfloat) : (a <? b)%F = true -> (b <? a)%F = false.
Proof. intros H. fcases a; fcases b. qauto. Qed.

Lemma flt_feq_l (a b c : pyfloat) : (a == b)%F -> (a <? c)%F = (b <? c)%F.
Proof.
  intros H. destruct a as [ | | |x], b as [ | | |y], c as [ | | |z];
    simpl in *; try tauto.
  destruct (Qltb x z) eqn:E1, (Qltb y z) eqn:E2; auto; qauto.
Qed.

Lemma flt_feq_r (a b c : pyfloat) : (a == b)%F -> (c <? a)%F = (c <? b)%F.
Proof.
  intros H. destruct a as [ | | |x], b as [ | | |y], c as [ | | |z];
    simpl in *; try tauto.
  destruct (Qltb z x) eqn:E1, (Qltb z y) eqn:E2; auto; qauto.
Qed.

(** The margin test of [calculate_bias] cannot hold in both directions. *)
Lemma margin_exclusive (l s : pyfloat) :
  (l >? s + Fin 1)%F = true -> (s >? l + Fin 1)%F = false.
Proof. unfold fgt. intros H. fcases l; fcases s. qauto. Qed.

End NumOrder.

(** ** The technical bias classifier *)

Section TechnicalBias.
Import technical.

(** The decision on given scores, branch by branch. *)
Lemma decide_bias_long (l s : pyfloat) :
  (l >? s + Fin 1)%F = true ->
  decide_bias l s = ("long"%string, pyround (pymin l (Fin 10)) 1).
Proof. intros H. unfold decide_bias. rewrite H. reflexivity. Qed.

Lemma decide_bias_short (l s : pyfloat) :
  (s >? l + Fin 1)%F = true ->
  decide_bias l s = ("short"%string, pyround (pymin s (Fin 10)) 1).
Proof.
  intros H. unfold decide_bias.
  destruct (l >? s + Fin 1)%F eqn:E.
  - apply margin_exclusive in E. congruence.
  - rewrite H. reflexivity.
Qed.

Lemma decide_bias_neutral (l s : pyfloat) :
  (l >? s + Fin 1)%F = false -> (s >? l + Fin 1)%F = false ->
  decide_bias l s = ("neutral"%string, pyround (Fin 0) 1).
Proof. intros H1 H2. unfold decide_bias. rewrite H1, H2. reflexivity. Qed.

Lemma pyround_zero : (pyround (Fin 0) 1 == Fin 0)%F.
Proof. vm_compute. reflexivity. Qed.

(** C2, as the code has it: with RSI = 25 under an oversold threshold
    of 30, no MACD and no EMA crossover, a positive MACD histogram,
    price_vs_ema = 0 and no volume spike, the histogram adds 0.5 to the
    long side, so long_score = 2 + (30-25)/30 + 0.5 = 2.667 and
    short_score = 0; the bias is 'long' and the strength, rounded to one
    decimal, is 2.7. *)
Theorem calculate_bias_rsi25 (h : pyfloat) :
  (h >? Fin 0)%F = true ->
  let scores :=
    bias_scores "oversold" (Fin 25) "none" h "none" (Fin 0) false
      (Fin 30) (Fin 70) in
  let result :=
    calculate_bias "oversold" (Fin 25) "none" h "none" (Fin 0) false
      (Fin 30) (Fin 70) in
  (fst scores == Fin (2 + 5 / 30 + 0.5))%F /\
  (snd scores == Fin 0)%F /\
  fst result = "long"%string /\
  (snd result == Fin 2.7)%F.
Proof.
  intros H. unfold calculate_bias, bias_scores. rewrite H.
  vm_compute. repeat split; congruence.
Qed.

Lemma calculate_bias_rsi25_witness :
  (Fin 1 >? Fin 0)%F = true /\
  fst (calculate_bias "oversold" (Fin 25) "none" (Fin 1) "none" (Fin 0)
         false (Fin 30) (Fin 70)) = "long"%string.
Proof.
  split; [reflexivity | apply (calculate_bias_rsi25 (Fin 1)); reflexivity].
Defined.

(** C2, as stated, fails: at a histogram of 1 the long score is not
    2.167 and the strength is not 2.2. *)
Lemma calculate_bias_rsi25_not_2_2 :
  ~ (fst (bias_scores "oversold" (Fin 25) "none" (Fin 1) "none" (Fin 0)
            false (Fin 30) (Fin 70)) == Fin (2 + 5 / 30))%F /\
  ~ (snd (calculate_bias "oversold" (Fin 25) "none" (Fin 1) "none" (Fin 0)
            false (Fin 30) (Fin 70)) == Fin 2.2)%F.
Proof. split; vm_compute; discriminate. Qed.


End TechnicalBias.

(** ** The funding rate classifier *)

Section Funding.
Import funding.

(** C1, as the code has it: with extreme_negative_threshold = -0.1 and
    the other thresholds at their defaults, a rate of -0.1 gives
    'long' / 'extreme' with score 5.0, a rate of -0.2 gives the capped
    score 10.0, and a rate of 0.03, which exceeds 0.01, gives
    'short' / 'moderate' with score 2. *)
Theorem analyze_funding_rate_examples (sym : string) (t : option Z) :
  let classify rate :=
    analyze_funding_rate sym rate t default_extreme_positive_threshold
      (Fin (-0.1)) default_high_positive_threshold
      default_high_negative_threshold in
  (exists r, classify (Fin (-0.1)) = Some r /\
     signal r = "long"%string /\ intensity r = "extreme"%string /\
     (score r == Fin 5.0)%F) /\
  (exists r, classify (Fin (-0.2)) = Some r /\
     signal r = "long"%string /\ intensity r = "extreme"%string /\
     (score r == Fin 10.0)%F) /\
  (exists r, classify (Fin 0.03) = Some r /\
     signal r = "short"%string /\ intensity r = "moderate"%string /\
     (score r == Fin 2)%F).
Proof.
  intros classify. subst classify. cbv beta.
  repeat split; eexists; (split; [vm_compute; reflexivity | ]);
    cbn [signal intensity score]; repeat split; vm_compute; reflexivity.
Qed.

(** C1, as stated, fails at the rate 0.03: the result is not neutral
    and its score is not 0. *)
Lemma analyze_funding_rate_0_03_not_neutral :
  exists r,
    analyze_funding_rate "BTCUSDT" (Fin 0.03) None
      default_extreme_positive_threshold (Fin (-0.1))
      default_high_positive_threshold default_high_negative_threshold
    = Some r /\
    signal r = "short"%string /\ signal r <> "neutral"%string /\
    ~ (score r == Fin 0)%F.
Proof.
  eexists. split; [vm_compute; reflexivity | ].
  cbn [signal score].
  split; [reflexivity | ]. split; [discriminate | ].
  vm_compute. discriminate.
Qed.

End Funding.

(** ** The liquidation classifier *)

Section Liquidation.
Import liquidation.

Lemma pydiv_nonzero (a b : pyfloat) :
  is_zero b = false -> pydiv a b = Some (a / b)%F.
Proof. intros H. unfold pydiv. rewrite H. reflexivity. Qed.

Lemma positive_nonzero (x : pyfloat) :
  (Fin 0 <? x)%F = true -> is_zero x = false.
Proof. intros H. destruct x as [ | | |q]; simpl in *; auto. qauto. Qed.

(** The divisor [max(x, 1)] is never zero. *)
Lemma pymax_one_nonzero (x : pyfloat) : is_zero (pymax x (Fin 1)) = false.
Proof.
  unfold pymax, fgt.
  destruct (flt x (Fin 1)) eqn:E; [reflexivity | ].
  destruct x as [ | | |q]; simpl in *; auto. qauto.
Qed.

(** With non-negative totals and a positive threshold, a side that
    reaches the threshold rules out the low-activity branch. *)
Lemma reaches_threshold_significant (a b T : pyfloat) :
  (Fin 0 <=? b)%F = true -> (Fin 0 <? T)%F = true -> (a >=? T)%F = true ->
  (a + b <? T / Fin 2)%F = false /\ (b + a <? T / Fin 2)%F = false.
Proof.
  unfold fge. intros Hb HT Ha.
  destruct a as [ | | |x], b as [ | | |y], T as [ | | |z];
    simpl in *; try discriminate; try (split; reflexivity).
  assert (E : z / 2 == z * (1 # 2)) by field.
  qprop. split; qprop; rewrite E; lra.
Qed.

(** Both sides cannot dominate by the 1.5 margin. *)
Lemma dominance_exclusive (a b : pyfloat) :
  (Fin 0 <=? a)%F = true -> (a >? b * Fin 1.5)%F = true ->
  (b >? a * Fin 1.5)%F = false.
Proof.
  unfold fgt. intros Ha H.
  destruct a as [ | | |x], b as [ | | |y];
    simpl in *; try discriminate; auto.
  qauto.
Qed.




End Liquidation.

(** ** The signal aggregator *)

Section Aggregator.
Import signals Text.






(** [aggregate_signals] in terms of the tally of its lenses. *)
Lemma aggregate_signals_eq (sym tf : string)
    (technical : option technical.TechnicalSignal)
    (funding : option funding.FundingSignal)
    (liquidation : option liquidation.LiquidationSignal)
    (weights : option (gmap string pyfloat))
    (tc fc lc : pyfloat) (t : Tally) :
  tally_lenses (default default_weights weights) technical funding liquidation
  = Some (tc, fc, lc, t) ->
  let direction := final_direction t in
  let bonus := confluence direction.2 in
  let total := pymin (direction.1.2 + bonus.1)%F (Fin 10) in
  aggregate_signals sym tf technical funding liquidation weights
  = Some {| symbol := sym;
            signal_type := direction.1.1;
            strength := calculate_signal_strength total;
            total_score := pyround total 1;
            technical_signal := technical;
            funding_signal := funding;
            liquidation_signal := liquidation;
            technical_score := pyround tc 1;
            funding_score := pyround fc 1;
            liquidation_score := pyround lc 1;
            confluence_count := direction.2;
            confluence_bonus := bonus.1;
            timeframe := tf;
            reasons := reasons_so_far t ++ bonus.2 |}.
Proof.
  intros H direction bonus total. unfold aggregate_signals.
  rewrite H. cbn.
  subst total bonus direction.
  destruct (final_direction t) as [[ty base] n]. cbn.
  destruct (confluence n) as [b rs]. reflexivity.
Qed.




End Aggregator.

Section AggregatorClaims.
Import signals Text.

Variables (sym tf : string).
Variable technical : option technical.TechnicalSignal.
Variable funding : option funding.FundingSignal.
Variable liquidation : option liquidation.LiquidationSignal.
Variable weights : option (gmap string pyfloat).

Let w := default default_weights weights.



End AggregatorClaims.

Section AggregatorExamples.
Import signals Samples.




End AggregatorExamples.

(** ** Filtering *)

Section Filter.
Import signals.

Implicit Types (s x y : AggregatedSignal) (l : list AggregatedSignal).

Lemma flt_fle (a b : pyfloat) : (a <? b)%F = true -> (a <=? b)%F = true.
Proof.
  destruct a as [ | | |x], b as [ | | |y]; simpl; try discriminate; auto.
  intros; qauto.
Qed.

Lemma fle_total (a b : pyfloat) :
  is_nan a = false -> is_nan b = false ->
  (a <? b)%F = false -> (b <=? a)%F = true.
Proof.
  destruct a as [ | | |x], b as [ | | |y]; simpl; try discriminate; auto.
  intros; qauto.
Qed.

Lemma fle_trans (a b c : pyfloat) :
  (a <=? b)%F = true -> (b <=? c)%F = true -> (a <=? c)%F = true.
Proof.
  destruct a as [ | | |x], b as [ | | |y], c as [ | | |z];
    simpl; try discriminate; auto.
  intros; qauto.
Qed.

Lemma fle_of_feq (a b : pyfloat) :
  (a == b)%F -> (b <? a)%F = false /\ (a <? b)%F = false.
Proof.
  intros H. rewrite (flt_feq_r _ _ _ H), (flt_feq_l _ _ _ H).
  split; apply flt_irrefl.
Qed.

Lemma passes_filter_iff (min_score : pyfloat)
    (signal_types : option (list SignalType)) s :
  passes_filter min_score signal_types s = true <->
  signal_type s <> NEUTRAL /\ (total_score s <? min_score)%F = false /\
  allowed signal_types (signal_type s).
Proof.
  unfold passes_filter, allowed.
  destruct (bool_decide (signal_type s = NEUTRAL)) eqn:EN.
  { apply bool_decide_eq_true in EN. split; [discriminate | tauto]. }
  apply bool_decide_eq_false in EN.
  destruct (total_score s <? min_score)%F.
  { split; [discriminate | ]. intros (_ & H & _). discriminate. }
  destruct signal_types as [[ |t ts]| ]; try tauto.
  rewrite bool_decide_eq_true. tauto.
Qed.

Lemma insert_desc_perm x l : insert_desc x l ≡ₚ x :: l.
Proof.
  induction l as [ |y t IH]; cbn; [reflexivity | ].
  destruct (total_score x <? total_score y)%F; [ | reflexivity].
  rewrite IH. apply perm_swap.
Qed.

Lemma sorted_desc_perm l : sorted_desc l ≡ₚ l.
Proof.
  induction l as [ |x t IH]; cbn; [reflexivity | ].
  rewrite insert_desc_perm. apply perm_skip, IH.
Qed.

Lemma insert_desc_sorted x l :
  has_score x -> Forall has_score l ->
  StronglySorted score_ge l -> StronglySorted score_ge (insert_desc x l).
Proof.
  intros Hx Hl Hs. induction Hs as [ |y t Hs IH Hy]; cbn.
  - constructor; constructor.
  - apply Forall_cons in Hl as [Hny Hnt].
    destruct (total_score x <? total_score y)%F eqn:E.
    + constructor; [apply IH, Hnt | ].
      rewrite insert_desc_perm. constructor; [ | exact Hy].
      apply flt_fle, E.
    + assert (Hxy : score_ge x y) by (apply fle_total; assumption).
      constructor; [constructor; assumption | ].
      constructor; [exact Hxy | ].
      eapply Forall_impl; [exact Hy | ].
      intros z Hz. unfold score_ge in *. eapply fle_trans; eassumption.
Qed.

Lemma sorted_desc_sorted l :
  Forall has_score l -> StronglySorted score_ge (sorted_desc l).
Proof.
  induction l as [ |x t IH]; cbn; intros H; [constructor | ].
  apply Forall_cons in H as [Hx Ht].
  apply insert_desc_sorted; [exact Hx | | apply IH, Ht].
  rewrite sorted_desc_perm. exact Ht.
Qed.


End Filter.

Section FilterExample.
Import signals Samples.


End FilterExample.

(** ** The crossover detectors *)

Section Crossover.
Import technical Pandas.

Lemma iloc_last_two (s : Series) (a b : pyfloat) :
  iloc_last (s ++ [a; b]) 2 = a /\ iloc_last (s ++ [a; b]) 1 = b.
Proof.
  unfold iloc_last, iloc_neg. rewrite !length_app. cbn [length].
  replace (length s + 2 <? 2)%nat with false
    by (symmetry; apply Nat.ltb_ge; lia).
  replace (length s + 2 <? 1)%nat with false
    by (symmetry; apply Nat.ltb_ge; lia).
  split.
  - rewrite lookup_app_r by lia.
    replace (length s + 2 - 2 - length s)%nat with 0%nat by lia. reflexivity.
  - rewrite lookup_app_r by lia.
    replace (length s + 2 - 1 - length s)%nat with 1%nat by lia. reflexivity.
Qed.

(** A zero difference is neither below nor above zero. *)
Lemma zero_diff_no_sign (d : pyfloat) :
  (d == Fin 0)%F -> (d <? Fin 0)%F = false /\ (d >? Fin 0)%F = false.
Proof. unfold fgt. intros H. apply fle_of_feq. symmetry. exact H. Qed.

(** C10: both crossover detectors compare with strict inequalities.
    When the difference of the two series at the second-to-last bar, or
    at the last bar, is exactly 0 the result is 'none'; and when either
    series has fewer than 2 elements the result is 'none'. *)
Theorem crossover_detectors_strict :
  (forall macd signal : Series,
     (length macd < 2)%nat \/ (length signal < 2)%nat ->
     detect_macd_crossover macd signal = "none"%string) /\
  (forall (m s : Series) (a b c d : pyfloat),
     (a - c == Fin 0)%F \/ (b - d == Fin 0)%F ->
     detect_macd_crossover (m ++ [a; b]) (s ++ [c; d]) = "none"%string) /\
  (forall ema_short ema_long : Series,
     (length ema_short < 2)%nat \/ (length ema_long < 2)%nat ->
     detect_ema_crossover ema_short ema_long = "none"%string) /\
  (forall (m s : Series) (a b c d : pyfloat),
     (a - c == Fin 0)%F \/ (b - d == Fin 0)%F ->
     detect_ema_crossover (m ++ [a; b]) (s ++ [c; d]) = "none"%string).
Proof.
  assert (Short : forall x y : Series,
            (length x < 2)%nat \/ (length y < 2)%nat ->
            ((length x <? 2) || (length y <? 2))%nat = true).
  { intros x y [H | H]; apply Bool.orb_true_iff; [left | right];
      apply Nat.ltb_lt; exact H. }
  assert (Zero : forall (m s : Series) (a b c d : pyfloat),
            (a - c == Fin 0)%F \/ (b - d == Fin 0)%F ->
            (if ((iloc_last (m ++ [a; b]) 2 - iloc_last (s ++ [c; d]) 2 <? Fin 0)%F
                 && (iloc_last (m ++ [a; b]) 1 - iloc_last (s ++ [c; d]) 1 >? Fin 0)%F)
             then "bullish"%string
             else if ((iloc_last (m ++ [a; b]) 2 - iloc_last (s ++ [c; d]) 2 >? Fin 0)%F
                      && (iloc_last (m ++ [a; b]) 1 - iloc_last (s ++ [c; d]) 1 <? Fin 0)%F)
             then "bearish"%string else "none"%string) = "none"%string).
  { intros m s a b c d H.
    destruct (iloc_last_two m a b) as [-> ->].
    destruct (iloc_last_two s c d) as [-> ->].
    destruct H as [H | H]; apply zero_diff_no_sign in H as [-> ->];
      rewrite ?Bool.andb_false_r; reflexivity. }
  repeat apply conj.
  - intros x y H. unfold detect_macd_crossover. rewrite (Short x y H).
    reflexivity.
  - intros m s a b c d H. unfold detect_macd_crossover.
    destruct ((length (m ++ [a; b]) <? 2) || (length (s ++ [c; d]) <? 2))%nat;
      [reflexivity | apply Zero, H].
  - intros x y H. unfold detect_ema_crossover. rewrite (Short x y H).
    reflexivity.
  - intros m s a b c d H. unfold detect_ema_crossover.
    destruct ((length (m ++ [a; b]) <? 2) || (length (s ++ [c; d]) <? 2))%nat;
      [reflexivity | apply Zero, H].
Qed.

Lemma crossover_detectors_strict_witness :
  (Fin 3 - Fin 3 == Fin 0)%F /\
  detect_macd_crossover ([Fin 1] ++ [Fin 3; Fin 5]) ([Fin 2] ++ [Fin 3; Fin 4])
  = "none"%string.
Proof.
  assert (H : (Fin 3 - Fin 3 == Fin 0)%F) by reflexivity.
  split; [exact H | ].
  apply crossover_detectors_strict. left. exact H.
Defined.

End Crossover.

(** ** Facts about the series operations *)

Section SeriesFacts.
Import Pandas.

Lemma is_finite_Fin (x : pyfloat) : is_finite x = true -> exists q, x = Fin q.
Proof. destruct x; try discriminate. eauto. Qed.

Lemma length_diff_from (prev : pyfloat) (s : Series) :
  length (diff_from prev s) = length s.
Proof. revert prev. induction s as [ |x t IH]; intros; cbn; auto. Qed.

Lemma length_diff (s : Series) : length (diff s) = length s.
Proof. destruct s; cbn; [ | rewrite length_diff_from]; reflexivity. Qed.

Lemma diff_from_finite (prev : pyfloat) (s : Series) :
  is_finite prev = true -> Forall (fun x => is_finite x = true) s ->
  Forall (fun x => is_finite x = true) (diff_from prev s).
Proof.
  intros Hp Hs. revert prev Hp.
  induction Hs as [ |x t Hx Ht IH]; intros prev Hp; cbn; constructor.
  - destruct x, prev; try discriminate; reflexivity.
  - apply IH, Hx.
Qed.

Lemma diff_finite_or_nan (s : Series) :
  Forall (fun x => is_finite x = true) s -> Forall finite_or_nan (diff s).
Proof.
  intros [ |x t Hx Ht]; cbn; constructor.
  - left; reflexivity.
  - eapply Forall_impl; [apply diff_from_finite; assumption | ].
    intros y Hy. right. exact Hy.
Qed.

(** The zero-filled gains and losses are finite and non-negative. *)
Lemma gains_nonneg (d : Series) :
  Forall finite_or_nan d ->
  Forall nonneg (where_ (fun x => (x >? Fin 0)%F) (Fin 0) d).
Proof.
  intros H. unfold where_. apply Forall_fmap.
  eapply Forall_impl; [exact H | ].
  intros x [-> | Hx]; cbn.
  - exists 0. split; [reflexivity | lra].
  - apply is_finite_Fin in Hx as [q ->]. unfold fgt. cbn.
    destruct (Qltb 0 q) eqn:E.
    + exists q. split; [reflexivity | qauto].
    + exists 0. split; [reflexivity | lra].
Qed.

Lemma losses_nonneg (d : Series) :
  Forall finite_or_nan d ->
  Forall nonneg (map fneg (where_ (fun x => (x <? Fin 0)%F) (Fin 0) d)).
Proof.
  intros H. unfold where_. apply Forall_fmap, Forall_fmap.
  eapply Forall_impl; [exact H | ].
  intros x [-> | Hx]; cbn.
  - exists (- 0). split; [reflexivity | lra].
  - apply is_finite_Fin in Hx as [q ->]. cbn.
    destruct (Qltb q 0) eqn:E; cbn.
    + exists (- q). split; [reflexivity | qauto].
    + exists (- 0). split; [reflexivity | lra].
Qed.

Lemma foldl_fadd_nonneg (l : Series) (acc : Q) :
  0 <= acc -> Forall nonneg l ->
  exists q, foldl fadd (Fin acc) l = Fin q /\ 0 <= q.
Proof.
  intros Ha Hl. revert acc Ha.
  induction Hl as [ |x t (q & -> & Hq) Ht IH]; intros acc Ha; cbn.
  - eauto.
  - apply IH. lra.
Qed.

Lemma sum_series_nonneg (l : Series) :
  Forall nonneg l -> nonneg (sum_series l).
Proof. intros H. apply foldl_fadd_nonneg; [lra | exact H]. Qed.

Lemma foldl_fadd_finite (l : Series) (acc : Q) :
  Forall (fun x => is_finite x = true) l ->
  exists q, foldl fadd (Fin acc) l = Fin q.
Proof.
  intros Hl. revert acc.
  induction Hl as [ |x t Hx Ht IH]; intros acc; cbn; [eauto | ].
  apply is_finite_Fin in Hx as [q ->]. apply IH.
Qed.

Lemma window_at_Forall (P : pyfloat -> Prop) (w i : nat) (s : Series) :
  Forall P s -> Forall P (window_at w i s).
Proof. intros H. unfold window_at. apply Forall_take, Forall_drop, H. Qed.

Lemma length_rolling_mean (w : nat) (s : Series) :
  length (rolling_mean w s) = length s.
Proof. unfold rolling_mean. rewrite length_map, length_seq. reflexivity. Qed.

Lemma rolling_mean_lookup (w i : nat) (s : Series) :
  (i < length s)%nat ->
  rolling_mean w s !! i
  = Some (if (i + 1 <? w)%nat then NaN
          else (sum_series (window_at w i s)
                / Fin (inject_Z (Z.of_nat w)))%F).
Proof.
  intros H. unfold rolling_mean.
  rewrite list_lookup_fmap, lookup_seq_lt by exact H. reflexivity.
Qed.

(** A full window of non-negative values has a non-negative mean. *)
Lemma rolling_mean_nonneg (w i : nat) (s : Series) :
  (1 <= w)%nat -> (w <= i + 1)%nat -> (i < length s)%nat ->
  Forall nonneg s ->
  exists q, rolling_mean w s !! i = Some (Fin q) /\ 0 <= q.
Proof.
  intros Hw Hi Hlen Hs.
  rewrite (rolling_mean_lookup w i s Hlen).
  replace (i + 1 <? w)%nat with false by (symmetry; apply Nat.ltb_ge; lia).
  destruct (sum_series_nonneg _ (window_at_Forall nonneg w i s Hs))
    as (q & -> & Hq).
  assert (P : 0 < inject_Z (Z.of_nat w)).
  { change 0 with (inject_Z 0). rewrite <- Zlt_Qlt. lia. }
  cbn. replace (Qzerob (inject_Z (Z.of_nat w))) with false
    by (symmetry; apply Qzerob_neq; lra).
  eexists. split; [reflexivity | ].
  apply Qle_shift_div_l; [exact P | lra].
Qed.

(** Before a full window is available the rolling mean is NaN. *)
Lemma rolling_mean_short (w : nat) (s : Series) :
  (length s < w)%nat -> Forall (fun x => x = NaN) (rolling_mean w s).
Proof.
  intros H. unfold rolling_mean. apply Forall_fmap, Forall_forall.
  intros i Hi. apply elem_of_seq in Hi. unfold compose.
  assert (E : (i + 1 <? w)%nat = true) by (apply Nat.ltb_lt; lia).
  rewrite E. reflexivity.
Qed.

Lemma length_ewm_from (alpha : Q) (prev : pyfloat) (s : Series) :
  length (ewm_from alpha prev s) = length s.
Proof. revert prev. induction s as [ |x t IH]; intros; cbn; auto. Qed.

Lemma ewm_from_finite (alpha : Q) (prev : pyfloat) (s : Series) :
  is_finite prev = true -> Forall (fun x => is_finite x = true) s ->
  Forall (fun x => is_finite x = true) (ewm_from alpha prev s).
Proof.
  intros Hp Hs. revert prev Hp.
  induction Hs as [ |x t Hx Ht IH]; intros prev Hp; cbn; constructor.
  - destruct x, prev; try discriminate; reflexivity.
  - apply IH. destruct x, prev; try discriminate; reflexivity.
Qed.

(** The exponential mean gives a finite value for every bar of a finite
    series, from the first bar on. *)
Lemma ewm_mean_finite (span : Z) (s : Series) :
  (1 <= span)%Z -> Forall (fun x => is_finite x = true) s ->
  exists e, ewm_mean span s = Some e /\ length e = length s /\
            Forall (fun x => is_finite x = true) e.
Proof.
  intros Hspan Hs. unfold ewm_mean.
  replace (span <? 1)%Z with false by (symmetry; apply Z.ltb_ge; lia).
  eexists. split; [reflexivity | ].
  destruct Hs as [ |x t Hx Ht]; cbn; [split; constructor | ].
  rewrite length_ewm_from. split; [reflexivity | ].
  constructor; [exact Hx | apply ewm_from_finite; assumption].
Qed.

Lemma zip_with_fsub_finite (a b : Series) :
  Forall (fun x => is_finite x = true) a ->
  Forall (fun x => is_finite x = true) b ->
  Forall (fun x => is_finite x = true) (zip_with fsub a b).
Proof.
  intros Ha. revert b.
  induction Ha as [ |x t Hx Ht IH]; intros b Hb; cbn; [constructor | ].
  destruct Hb as [ |y u Hy Hu]; constructor.
  - destruct x, y; try discriminate; reflexivity.
  - apply IH, Hu.
Qed.

End SeriesFacts.

(** ** The RSI *)

Section RSI.
Import technical Pandas.

Lemma calculate_rsi_lookup (df : DataFrame) (period i : nat) (g l : pyfloat) :
  rsi_gain df period !! i = Some g -> rsi_loss df period !! i = Some l ->
  calculate_rsi df period !! i = Some (rsi_of g l).
Proof.
  intros Hg Hl. unfold calculate_rsi.
  rewrite list_lookup_fmap, lookup_zip_with, Hg, Hl. reflexivity.
Qed.

Lemma rsi_of_positive_loss (g l : Q) :
  0 <= g -> 0 < l ->
  exists q, rsi_of (Fin g) (Fin l) = Fin q /\ 0 <= q /\ q <= 100.
Proof.
  intros Hg Hl. unfold rsi_of. cbn.
  replace (Qzerob l) with false by (symmetry; apply Qzerob_neq; lra).
  assert (R : 0 <= g / l) by (apply Qle_shift_div_l; lra).
  cbn.
  replace (Qzerob (1 + g / l)) with false
    by (symmetry; apply Qzerob_neq; lra).
  eexists. split; [reflexivity | ].
  assert (U : 100 / (1 + g / l) <= 100) by (apply Qle_shift_div_r; lra).
  assert (L : 0 <= 100 / (1 + g / l)) by (apply Qle_shift_div_l; lra).
  lra.
Qed.

Lemma rsi_of_zero_loss (g l : Q) :
  l == 0 -> 0 < g -> (rsi_of (Fin g) (Fin l) == Fin 100)%F.
Proof.
  intros Hl Hg. unfold rsi_of. cbn.
  replace (Qzerob l) with true by (symmetry; apply Qzerob_eq; exact Hl).
  replace (Qzerob g) with false by (symmetry; apply Qzerob_neq; lra).
  replace (Qltb 0 g) with true by (symmetry; apply Qltb_lt; exact Hg).
  cbn. lra.
Qed.

Lemma rsi_of_flat (g l : Q) :
  l == 0 -> g == 0 -> rsi_of (Fin g) (Fin l) = NaN.
Proof.
  intros Hl Hg. unfold rsi_of. cbn.
  replace (Qzerob l) with true by (symmetry; apply Qzerob_eq; exact Hl).
  replace (Qzerob g) with true by (symmetry; apply Qzerob_eq; exact Hg).
  reflexivity.
Qed.

(** C8, as the code has it: on a series of finite prices, at every bar
    that has a full window of [period] bars, the average gain and the
    average loss are finite and non-negative; when the average loss is
    positive the RSI lies in [0, 100]; when the average loss is 0 and
    the average gain is positive the RSI is exactly 100; and when both
    are 0 (a flat window) the quotient is 0/0 and the RSI is NaN. *)
Theorem calculate_rsi_range (df : DataFrame) (period i : nat) :
  finite_closes df ->
  (1 <= period)%nat -> (period <= i + 1)%nat -> (i < length df)%nat ->
  exists (g l : Q) (r : pyfloat),
    rsi_gain df period !! i = Some (Fin g) /\
    rsi_loss df period !! i = Some (Fin l) /\
    calculate_rsi df period !! i = Some r /\
    0 <= g /\ 0 <= l /\
    (0 < l -> exists q, r = Fin q /\ 0 <= q /\ q <= 100) /\
    (l == 0 -> 0 < g -> (r == Fin 100)%F) /\
    (l == 0 -> g == 0 -> r = NaN).
Proof.
  intros Hf Hp Hi Hlen.
  pose proof (diff_finite_or_nan _ Hf) as Hd.
  assert (Hl' : (i < length (rsi_delta df))%nat)
    by (unfold rsi_delta; rewrite length_diff, length_map; exact Hlen).
  destruct (rolling_mean_nonneg period i
              (where_ (fun d => (d >? Fin 0)%F) (Fin 0) (rsi_delta df)))
    as (g & Eg & Hg); auto.
  { unfold where_. rewrite length_map. exact Hl'. }
  { apply gains_nonneg, Hd. }
  destruct (rolling_mean_nonneg period i
              (map fneg (where_ (fun d => (d <? Fin 0)%F) (Fin 0)
                           (rsi_delta df))))
    as (l & El & Hl); auto.
  { unfold where_. rewrite !length_map. exact Hl'. }
  { apply losses_nonneg, Hd. }
  exists g, l, (rsi_of (Fin g) (Fin l)).
  split; [exact Eg | ]. split; [exact El | ].
  split; [apply calculate_rsi_lookup; assumption | ].
  split; [exact Hg | ]. split; [exact Hl | ].
  split; [intros H; apply rsi_of_positive_loss; assumption | ].
  split; [apply rsi_of_zero_loss | apply rsi_of_flat].
Qed.

End RSI.

Section RSIExamples.
Import technical Pandas Samples.

Lemma calculate_rsi_range_witness :
  finite_closes (frame [10; 11; 12; 11]) /\
  exists r, calculate_rsi (frame [10; 11; 12; 11]) 3 !! 3%nat = Some r /\
            (r == Fin (200 / 3))%F.
Proof.
  assert (F : finite_closes (frame [10; 11; 12; 11]))
    by (repeat constructor).
  split; [exact F | ].
  destruct (calculate_rsi_range (frame [10; 11; 12; 11]) 3 3 F)
    as (g & l & r & Hg & Hl & Hr & _); [lia | lia | cbn; lia | ].
  exists r. split; [exact Hr | ].
  vm_compute in Hr. injection Hr as <-. vm_compute. reflexivity.
Defined.

(** C8, as stated, fails on a flat window: over 15 bars at the same
    price the average loss of the 14-bar window is 0, and the RSI of the
    last bar is NaN, which is neither 100 nor a value of [0, 100]. *)
Lemma calculate_rsi_flat_is_nan :
  exists l,
    iloc_neg (rsi_loss (frame (repeat 100 15)) 14) 1 = Some (Fin l) /\
    l == 0 /\
    iloc_neg (calculate_rsi (frame (repeat 100 15)) 14) 1 = Some NaN /\
    ~ (NaN == Fin 100)%F /\
    ((Fin 0 <=? NaN)%F && (NaN <=? Fin 100)%F = false).
Proof.
  eexists. split; [vm_compute; reflexivity | ].
  split; [reflexivity | ].
  split; [vm_compute; reflexivity | ].
  split; [intros H; exact H | reflexivity].
Qed.

End RSIExamples.

(** ** Short series *)

Section ShortSeries.
Import technical Pandas.

Lemma zip_with_fdiv_nan (a b : Series) :
  Forall (fun x => x = NaN) a -> Forall (fun x => x = NaN) (zip_with fdiv a b).
Proof.
  intros Ha. revert b.
  induction Ha as [ |x t -> Ht IH]; intros [ |y u]; cbn; constructor; auto.
Qed.

Lemma calculate_rsi_short (df : DataFrame) (period : nat) :
  (length df < period)%nat ->
  Forall (fun x => x = NaN) (calculate_rsi df period).
Proof.
  intros H. unfold calculate_rsi. apply Forall_fmap.
  eapply Forall_impl.
  - apply zip_with_fdiv_nan. unfold rsi_gain. apply rolling_mean_short.
    unfold where_, rsi_delta. rewrite length_map, length_diff, length_map.
    exact H.
  - intros x ->. reflexivity.
Qed.

Lemma iloc_neg_last_finite (s : Series) :
  s <> [] -> Forall (fun x => is_finite x = true) s ->
  exists q, iloc_neg s 1 = Some (Fin q).
Proof.
  intros Hne Hs. unfold iloc_neg.
  assert (L : (0 < length s)%nat) by (destruct s; cbn; [congruence | lia]).
  replace (length s <? 1)%nat with false by (symmetry; apply Nat.ltb_ge; lia).
  destruct (lookup_lt_is_Some_2 s (length s - 1)) as [x Hx]; [lia | ].
  rewrite Hx. rewrite Forall_lookup in Hs.
  destruct (is_finite_Fin x (Hs _ _ Hx)) as [q ->]. eauto.
Qed.

(** The mean of finite values is a finite value, or NaN when there is
    nothing to average. *)
Lemma mean_finite (s : Series) :
  Forall (fun x => is_finite x = true) s ->
  mean s = NaN \/ exists q, mean s = Fin q.
Proof.
  intros Hs. unfold mean.
  set (present := filter _ s).
  assert (Hp : Forall (fun x => is_finite x = true) present).
  { apply Forall_forall. intros x Hx.
    apply list_elem_of_filter in Hx as [_ Hx].
    rewrite Forall_forall in Hs. auto. }
  destruct (foldl_fadd_finite present 0 Hp) as [q Hq].
  unfold sum_series, count. rewrite Hq.
  destruct present as [ |x t].
  - left. cbn in Hq. injection Hq as <-. reflexivity.
  - right. cbn [fdiv].
    replace (Qzerob (inject_Z (Z.of_nat (length (x :: t))))) with false;
      [eauto | ].
    symmetry. apply Qzerob_neq. intros E.
    assert (P : 0 < inject_Z (Z.of_nat (length (x :: t)))).
    { change 0 with (inject_Z 0). rewrite <- Zlt_Qlt. cbn [length]. lia. }
    lra.
Qed.

Lemma calculate_volume_ratio_value (df : DataFrame) (period : nat) :
  df <> [] -> finite_volumes df ->
  exists q, calculate_volume_ratio df period = Some (Fin q).
Proof.
  intros Hne Hv. unfold calculate_volume_ratio.
  destruct (iloc_neg_last_finite (map volume df)) as [c ->];
    [destruct df; cbn; congruence | exact Hv | ].
  cbn [mbind option_bind].
  destruct (mean_finite (tail period (map volume df))) as [-> | [a ->]].
  { unfold tail. apply Forall_drop, Hv. }
  - cbn. eauto.
  - unfold fgt. cbn [flt].
    destruct (Qltb 0 a) eqn:E; [ | eauto].
    cbn [fdiv].
    replace (Qzerob a) with false by (symmetry; apply Qzerob_neq; qauto).
    eauto.
Qed.

Lemma calculate_macd_finite (df : DataFrame) :
  finite_closes df ->
  exists m s h,
    calculate_macd df 12 26 9 = Some (m, s, h) /\
    length m = length df /\ length s = length df /\ length h = length df /\
    Forall (fun x => is_finite x = true) m /\
    Forall (fun x => is_finite x = true) s /\
    Forall (fun x => is_finite x = true) h.
Proof.
  intros Hf. unfold calculate_macd.
  destruct (ewm_mean_finite 12 (map close df)) as (ef & -> & Lf & Ff);
    [lia | exact Hf | ].
  destruct (ewm_mean_finite 26 (map close df)) as (es & -> & Ls & Fs);
    [lia | exact Hf | ].
  cbn [mbind option_bind].
  pose proof (zip_with_fsub_finite ef es Ff Fs) as Fm.
  destruct (ewm_mean_finite 9 (zip_with fsub ef es)) as (sg & -> & Lg & Fg);
    [lia | exact Fm | ].
  cbn [mbind option_bind].
  rewrite length_map in Lf, Ls.
  assert (Lm : length (zip_with fsub ef es) = length df)
    by (rewrite length_zip_with; lia).
  do 3 eexists. split; [reflexivity | ].
  repeat split; auto.
  - lia.
  - rewrite length_zip_with; lia.
  - apply zip_with_fsub_finite; assumption.
Qed.

(** C7, as the code has it: only the entry point guards against a short
    series: [analyze_technicals] produces no signal when the frame has
    fewer than max(ema_long_period, 26) + 10 bars.  Of the indicator
    functions, the RSI is NaN at every bar when there are fewer than
    [period] bars; the EMA and the MACD give a finite value for every
    bar of any series of finite prices, however short; and the volume
    ratio of a non-empty frame is a finite number computed from the bars
    that are there. *)
Theorem indicators_on_short_series :
  (forall (df : DataFrame) (symbol timeframe : string)
          (rsi_oversold rsi_overbought : pyfloat)
          (ema_short_period ema_long_period : Z)
          (volume_spike_threshold : pyfloat),
     (Z.of_nat (length df) < Z.max ema_long_period 26 + 10)%Z ->
     analyze_technicals df symbol timeframe rsi_oversold rsi_overbought
       ema_short_period ema_long_period volume_spike_threshold = None) /\
  (forall (df : DataFrame) (period : nat),
     (length df < period)%nat ->
     Forall (fun x => x = NaN) (calculate_rsi df period)) /\
  (forall (df : DataFrame) (period : Z),
     (1 <= period)%Z -> finite_closes df ->
     exists e, calculate_ema df period = Some e /\
               length e = length df /\
               Forall (fun x => is_finite x = true) e) /\
  (forall df : DataFrame,
     finite_closes df ->
     exists m s h,
       calculate_macd df 12 26 9 = Some (m, s, h) /\
       length m = length df /\ length s = length df /\
       length h = length df /\
       Forall (fun x => is_finite x = true) m /\
       Forall (fun x => is_finite x = true) s /\
       Forall (fun x => is_finite x = true) h) /\
  (forall (df : DataFrame) (period : nat),
     df <> [] -> finite_volumes df ->
     exists q, calculate_volume_ratio df period = Some (Fin q)).
Proof.
  split.
  { intros df symbol timeframe os ob esp elp vst H. unfold analyze_technicals.
    replace (Z.of_nat (length df) <? Z.max elp 26 + 10)%Z with true
      by (symmetry; apply Z.ltb_lt; exact H).
    reflexivity. }
  split; [exact calculate_rsi_short | ].
  split.
  { intros df period Hp Hf. unfold calculate_ema.
    destruct (ewm_mean_finite period (map close df) Hp Hf) as (e & -> & L & F).
    rewrite length_map in L. eauto. }
  split; [exact calculate_macd_finite | exact calculate_volume_ratio_value].
Qed.

End ShortSeries.

Section ShortSeriesExamples.
Import technical Pandas Samples.

Lemma indicators_on_short_series_witness :
  (Z.of_nat (length two_bars) < Z.max 26 26 + 10)%Z /\
  analyze_technicals two_bars "BTCUSDT" "1h" (Fin 30) (Fin 70)
    12 26 (Fin 2) = None.
Proof.
  assert (H : (Z.of_nat (length two_bars) < Z.max 26 26 + 10)%Z)
    by (cbn; lia).
  split; [exact H | ].
  apply indicators_on_short_series, H.
Defined.

(** C7, as stated, fails for the indicator functions: on a frame of two
    bars the 26-bar EMA, the MACD and the 20-bar volume ratio return
    ordinary finite numbers and nothing marks the data as
    insufficient. *)
Lemma indicators_silent_on_two_bars :
  (exists y, calculate_ema two_bars 26 = Some [Fin 100; Fin y]) /\
  (exists m s h, calculate_macd two_bars 12 26 9
                 = Some ([Fin 0; Fin m], [Fin 0; Fin s], [Fin 0; Fin h])) /\
  (exists q, calculate_volume_ratio two_bars 20 = Some (Fin q) /\
             q == 1).
Proof.
  split; [eexists; vm_compute; reflexivity | ].
  split; [do 3 eexists; vm_compute; reflexivity | ].
  eexists. split; [vm_compute; reflexivity | reflexivity].
Qed.

End ShortSeriesExamples.

(** * Further properties *)

(** ** Rounding *)

Section Rounding.

Lemma round_half_even_cases (x : Q) :
  round_half_even x = Qfloor x \/
  (round_half_even x = (Qfloor x + 1)%Z /\ 1 # 2 <= x - inject_Z (Qfloor x)).
Proof.
  unfold round_half_even.
  destruct (Qcompare (x - inject_Z (Qfloor x)) (1 # 2)) eqn:E.
  - apply Qeq_alt in E. destruct (Z.even (Qfloor x)); [left; reflexivity | ].
    right. split; [reflexivity | lra].
  - left; reflexivity.
  - apply Qgt_alt in E. right. split; [reflexivity | lra].
Qed.

Lemma round_half_even_ge (x : Q) (n : Z) :
  inject_Z n <= x -> (n <= round_half_even x)%Z.
Proof.
  intros H.
  assert (F : (n <= Qfloor x)%Z).
  { rewrite <- (Qfloor_Z n). apply Qfloor_resp_le, H. }
  destruct (round_half_even_cases x) as [-> | [-> _]]; lia.
Qed.

Lemma round_half_even_le (x : Q) (n : Z) :
  x <= inject_Z n -> (round_half_even x <= n)%Z.
Proof.
  intros H. pose proof (Qfloor_le x) as F.
  destruct (round_half_even_cases x) as [-> | [-> G]].
  - rewrite Zle_Qle. lra.
  - assert (L : inject_Z (Qfloor x) < inject_Z n) by lra.
    rewrite <- Zlt_Qlt in L. lia.
Qed.

Lemma pyround1_value (q : Q) :
  pyround (Fin q) 1 = Fin (inject_Z (round_half_even (q * 10)) / 10).
Proof. reflexivity. Qed.

(** Rounding to one decimal stays between any two tenths that enclose
    the value. *)
Lemma pyround1_between (q : Q) (a b : Z) :
  inject_Z a / 10 <= q -> q <= inject_Z b / 10 ->
  exists r, pyround (Fin q) 1 = Fin r /\
            inject_Z a / 10 <= r /\ r <= inject_Z b / 10.
Proof.
  intros Ha Hb. rewrite pyround1_value. eexists. split; [reflexivity | ].
  assert (D : forall x : Q, x / 10 == x * (1 # 10)) by (intros; field).
  rewrite !D in *.
  assert (A : inject_Z a <= q * 10) by lra.
  assert (B : q * 10 <= inject_Z b) by lra.
  apply round_half_even_ge in A. apply round_half_even_le in B.
  rewrite Zle_Qle in A, B. lra.
Qed.

Lemma pyround1_range (q lo hi : Q) (a b : Z) :
  lo == inject_Z a / 10 -> hi == inject_Z b / 10 ->
  lo <= q -> q <= hi ->
  exists r, pyround (Fin q) 1 = Fin r /\ lo <= r /\ r <= hi.
Proof.
  intros Ea Eb Hl Hh.
  destruct (pyround1_between q a b) as (r & E & L & H); [lra | lra | ].
  exists r. split; [exact E | lra].
Qed.

End Rounding.

(** ** More on the funding classifier *)

Section FundingBounds.
Import funding.

(** A capped, scaled ratio is finite and lies between the scaled lower
    bound (or the cap) and the cap. *)
Lemma capped_ratio (x : pyfloat) (lo k cap : Q) :
  at_least lo x -> 0 < k -> 
  exists s, pymin (x * Fin k)%F (Fin cap) = Fin s /\ s <= cap /\
            forall m, m <= lo * k -> m <= cap -> m <= s.
Proof.
  intros [-> | (q & -> & Hq)] Hk.
  - cbn. unfold scale_inf.
    replace (Qzerob k) with false by (symmetry; apply Qzerob_neq; lra).
    replace (Qltb 0 k) with true by (symmetry; apply Qltb_lt; lra).
    cbn. exists cap. split; [reflexivity | ]. split; [lra | auto].
  - cbn. unfold pymin. cbn.
    destruct (Qltb cap (q * k)) eqn:E.
    + exists cap. split; [reflexivity | ]. split; [lra | auto].
    + exists (q * k). split; [reflexivity | ]. qprop.
      split; [lra | ]. intros m Hm _. 
      assert (lo * k <= q * k) by (apply Qmult_le_compat_r; lra). lra.
Qed.

Lemma abs_ratio_at_least (rate : pyfloat) (en : Q) :
  en < 0 -> is_nan rate = false ->
  is_zero (fabs (Fin en)) = false /\
  at_least 0 (fabs rate / fabs (Fin en))%F /\
  ((rate <=? Fin en)%F = true -> at_least 1 (fabs rate / fabs (Fin en))%F).
Proof.
  intros Hen Hn.
  assert (A : Qabs en == - en) by (apply Qabs_neg; lra).
  assert (Z : Qzerob (Qabs en) = false) by (apply Qzerob_neq; lra).
  split; [exact Z | ].
  destruct rate as [ | | |r]; try discriminate; cbn.
  - destruct (Qltb (Qabs en) 0) eqn:E; [qprop; lra | ].
    split; [left; reflexivity | intros _; left; reflexivity].
  - destruct (Qltb (Qabs en) 0) eqn:E; [qprop; lra | ].
    split; [left; reflexivity | intros _; left; reflexivity].
  - rewrite Z. pose proof (Qabs_nonneg r) as Hr. split.
    + right. eexists. split; [reflexivity | ].
      apply Qle_shift_div_l; lra.
    + intros H. qprop. right. eexists. split; [reflexivity | ].
      assert (R : Qabs r == - r) by (apply Qabs_neg; lra).
      apply Qle_shift_div_l; lra.
Qed.

Lemma pos_ratio_at_least (rate : pyfloat) (ep : Q) :
  0 < ep ->
  is_zero (Fin ep) = false /\
  ((Fin 0 <=? rate)%F = true -> at_least 0 (rate / Fin ep)%F) /\
  ((rate >=? Fin ep)%F = true -> at_least 1 (rate / Fin ep)%F).
Proof.
  intros Hep.
  assert (Z : Qzerob ep = false) by (apply Qzerob_neq; lra).
  split; [exact Z | ]. unfold fge.
  destruct rate as [ | | |r]; cbn; try (split; discriminate).
  - destruct (Qltb ep 0) eqn:E; [qprop; lra | ].
    split; intros _; left; reflexivity.
  - rewrite Z. split; intros H; qprop; right; eexists;
      (split; [reflexivity | ]); apply Qle_shift_div_l; lra.
Qed.

Lemma fle_trans_zero (hp rate : pyfloat) :
  (Fin 0 <=? hp)%F = true -> (rate >=? hp)%F = true ->
  (Fin 0 <=? rate)%F = true.
Proof. unfold fge. apply fle_trans. Qed.

Lemma fle_not_nan (a b : pyfloat) : (a <=? b)%F = true -> is_nan a = false.
Proof. destruct a, b; cbn; congruence. Qed.

(** What the cascade yields, branch by branch. *)
Lemma classify_funding_facts (rate hp hn : pyfloat) (ep en : Q) :
  en < 0 -> 0 < ep -> (Fin 0 <=? hp)%F = true ->
  exists sg it s d,
    classify_funding rate (Fin ep) (Fin en) hp hn = Some (sg, it, Fin s, d) /\
    0 <= s /\ s <= 10 /\
    ((sg = "neutral" /\ it = "low" /\ s == 0) \/
     (sg <> "neutral" /\
      ((it = "extreme" /\ 5 <= s) \/ (it = "high" /\ s <= 7) \/
       (it = "moderate" /\ s == 2))))%string.
Proof.
  intros Hen Hep Hhp. unfold classify_funding.
  destruct (pos_ratio_at_least rate ep Hep) as (Zp & P0 & P1).
  destruct (rate <=? Fin en)%F eqn:C1.
  { destruct (abs_ratio_at_least rate en Hen (fle_not_nan _ _ C1))
      as (Z & _ & A1).
    rewrite (pydiv_nonzero _ _ Z). cbn [mbind option_bind].
    destruct (capped_ratio _ 1 5 10 (A1 C1)) as (s & -> & U & L); [lra | ].
    do 4 eexists. split; [reflexivity | ].
    assert (5 <= s) by (apply L; lra).
    split; [lra | ]. split; [lra | ]. right. split; [discriminate | ].
    left. split; [reflexivity | lra]. }
  destruct (rate <=? hn)%F eqn:C2.
  { destruct (abs_ratio_at_least rate en Hen (fle_not_nan _ _ C2))
      as (Z & A0 & _).
    rewrite (pydiv_nonzero _ _ Z). cbn [mbind option_bind].
    destruct (capped_ratio _ 0 4 7 A0) as (s & -> & U & L); [lra | ].
    do 4 eexists. split; [reflexivity | ].
    assert (0 <= s) by (apply L; lra).
    split; [lra | ]. split; [lra | ]. right. split; [discriminate | ].
    right; left. split; [reflexivity | lra]. }
  destruct (rate >=? Fin ep)%F eqn:C3.
  { rewrite (pydiv_nonzero _ _ Zp). cbn [mbind option_bind].
    destruct (capped_ratio _ 1 5 10 (P1 eq_refl)) as (s & -> & U & L); [lra | ].
    do 4 eexists. split; [reflexivity | ].
    assert (5 <= s) by (apply L; lra).
    split; [lra | ]. split; [lra | ]. right. split; [discriminate | ].
    left. split; [reflexivity | lra]. }
  destruct (rate >=? hp)%F eqn:C4.
  { rewrite (pydiv_nonzero _ _ Zp). cbn [mbind option_bind].
    destruct (capped_ratio _ 0 4 7 (P0 (fle_trans_zero _ _ Hhp C4)))
      as (s & -> & U & L); [lra | ].
    do 4 eexists. split; [reflexivity | ].
    assert (0 <= s) by (apply L; lra).
    split; [lra | ]. split; [lra | ]. right. split; [discriminate | ].
    right; left. split; [reflexivity | lra]. }
  destruct (rate >? Fin 0.01)%F eqn:C5.
  { do 4 eexists. split; [reflexivity | ].
    split; [lra | ]. split; [lra | ]. right. split; [discriminate | ].
    right; right. split; reflexivity. }
  destruct (rate <? Fin (-0.01))%F eqn:C6.
  { do 4 eexists. split; [reflexivity | ].
    split; [lra | ]. split; [lra | ]. right. split; [discriminate | ].
    right; right. split; reflexivity. }
  do 4 eexists. split; [reflexivity | ].
  split; [lra | ]. split; [lra | ]. left. repeat split.
Qed.

(** X1: with a negative extreme-negative and a positive
    extreme-positive threshold (and a non-negative high-positive one),
    [analyze_funding_rate] returns a signal for every rate, NaN and the
    infinities included; its score is a finite value of [0, 10]; a
    neutral signal has intensity 'low' and score 0; 'extreme' scores at
    least 5, 'high' at most 7, and 'moderate' exactly 2. *)
Theorem analyze_funding_rate_score_range (sym : string) (t : option Z)
    (rate hp hn : pyfloat) (ep en : Q) :
  en < 0 -> 0 < ep -> (Fin 0 <=? hp)%F = true ->
  exists r s,
    analyze_funding_rate sym rate t (Fin ep) (Fin en) hp hn = Some r /\
    score r = Fin s /\ 0 <= s /\ s <= 10 /\
    (signal r = "neutral"%string -> intensity r = "low"%string /\ s == 0) /\
    (intensity r = "low"%string -> signal r = "neutral"%string) /\
    (intensity r = "extreme"%string -> 5 <= s) /\
    (intensity r = "high"%string -> s <= 7) /\
    (intensity r = "moderate"%string -> s == 2).
Proof.
  intros Hen Hep Hhp. unfold analyze_funding_rate.
  destruct (classify_funding_facts rate hp hn ep en Hen Hep Hhp)
    as (sg & it & s & d & -> & L & U & C).
  cbn [mbind option_bind].
  assert (R : forall (a b : Z) lo hi, lo == inject_Z a / 10 ->
             hi == inject_Z b / 10 -> lo <= s -> s <= hi ->
             exists r, pyround (Fin s) 1 = Fin r /\ lo <= r /\ r <= hi).
  { intros a b lo hi. apply pyround1_range. }
  destruct (R 0%Z 100%Z 0 10) as (r & Er & Lr & Ur);
    [reflexivity | reflexivity | lra | lra | ].
  eexists. exists r. split; [reflexivity | ].
  cbn [score signal intensity]. split; [exact Er | ].
  split; [exact Lr | ]. split; [exact Ur | ].
  destruct C as [(-> & -> & Z) | (N & C)].
  - destruct (R 0%Z 0%Z 0 0) as (r' & Er' & Lr' & Ur');
      [reflexivity | reflexivity | lra | lra | ].
    assert (r' = r) by congruence. subst r'.
    repeat split; try discriminate; lra.
  - destruct C as [(-> & C) | [(-> & C) | (-> & C)]].
    + destruct (R 50%Z 100%Z 5 10) as (r' & Er' & Lr' & Ur');
        [reflexivity | reflexivity | lra | lra | ].
      assert (r' = r) by congruence. subst r'.
      repeat split; try discriminate; try lra; try tauto.
    + destruct (R 0%Z 70%Z 0 7) as (r' & Er' & Lr' & Ur');
        [reflexivity | reflexivity | lra | lra | ].
      assert (r' = r) by congruence. subst r'.
      repeat split; try discriminate; try lra; try tauto.
    + destruct (R 20%Z 20%Z 2 2) as (r' & Er' & Lr' & Ur');
        [reflexivity | reflexivity | lra | lra | ].
      assert (r' = r) by congruence. subst r'.
      repeat split; try discriminate; try lra; try tauto.
Qed.

Lemma fle_flt_trans (a b c : pyfloat) :
  (a <=? b)%F = true -> (b <? c)%F = true -> (a <? c)%F = true.
Proof.
  destruct a as [ | | |x], b as [ | | |y], c as [ | | |z];
    cbn; try discriminate; auto.
  intros; qauto.
Qed.

Lemma flt_fle_trans (a b c : pyfloat) :
  (a <? b)%F = true -> (b <=? c)%F = true -> (a <? c)%F = true.
Proof.
  destruct a as [ | | |x], b as [ | | |y], c as [ | | |z];
    cbn; try discriminate; auto.
  intros; qauto.
Qed.

(** X2: the classifier is contrarian.  With negative negative
    thresholds and positive positive thresholds it returns a signal for
    every rate; 'long' is only given for a negative rate and 'short'
    only for a positive one; a rate below -0.01 is always 'long', a
    rate above 0.01 always 'short', and a neutral result means that the
    rate lies within [-0.01, 0.01] or is NaN. *)
Theorem analyze_funding_rate_direction (sym : string) (t : option Z)
    (rate ep en hp hn : pyfloat) :
  (en <? Fin 0)%F = true -> (hn <? Fin 0)%F = true ->
  (Fin 0 <? hp)%F = true -> (Fin 0 <? ep)%F = true ->
  exists r,
    analyze_funding_rate sym rate t ep en hp hn = Some r /\
    (signal r = "long" \/ signal r = "short" \/ signal r = "neutral")%string /\
    (signal r = "long"%string -> (rate <? Fin 0)%F = true) /\
    (signal r = "short"%string -> (rate >? Fin 0)%F = true) /\
    (signal r = "neutral"%string ->
     is_nan rate = true \/
     ((Fin (-0.01) <=? rate)%F = true /\ (rate <=? Fin 0.01)%F = true)) /\
    ((rate <? Fin (-0.01))%F = true -> signal r = "long"%string) /\
    ((rate >? Fin 0.01)%F = true -> signal r = "short"%string).
Proof.
  intros Hen Hhn Hhp Hep.
  assert (Zn : is_zero (fabs en) = false).
  { destruct en as [ | | |x]; simpl in *; try discriminate; auto.
    apply Qltb_lt in Hen. apply Qzerob_neq.
    assert (A : Qabs x == - x) by (apply Qabs_neg; lra). lra. }
  pose proof (positive_nonzero _ Hep) as Zp.
  unfold analyze_funding_rate, classify_funding, fgt, fge.
  rewrite (pydiv_nonzero _ _ Zn), (pydiv_nonzero _ _ Zp).
  assert (Neg : (rate <? Fin 0)%F = true ->
            (Fin 0 <? rate)%F = false /\ (Fin 0.01 <? rate)%F = false /\
            is_nan rate = false).
  { destruct rate as [ | | |x]; cbn; try discriminate; auto.
    intros; repeat split; qauto. }
  assert (Pos : (Fin 0 <? rate)%F = true ->
            (rate <? Fin 0)%F = false /\ (rate <? Fin (-0.01))%F = false /\
            is_nan rate = false).
  { destruct rate as [ | | |x]; cbn; try discriminate; auto.
    intros; repeat split; qauto. }
  destruct (rate <=? en)%F eqn:C1.
  { pose proof (fle_flt_trans _ _ _ C1 Hen) as S.
    destruct (Neg S) as (N1 & N2 & N3).
    eexists. split; [reflexivity | ]. cbn [signal].
    repeat split; auto; try discriminate; congruence. }
  destruct (rate <=? hn)%F eqn:C2.
  { pose proof (fle_flt_trans _ _ _ C2 Hhn) as S.
    destruct (Neg S) as (N1 & N2 & N3).
    eexists. split; [reflexivity | ]. cbn [signal].
    repeat split; auto; try discriminate; congruence. }
  destruct (ep <=? rate)%F eqn:C3.
  { pose proof (flt_fle_trans _ _ _ Hep C3) as S.
    destruct (Pos S) as (N1 & N2 & N3).
    eexists. split; [reflexivity | ]. cbn [signal].
    repeat split; auto; try discriminate; congruence. }
  destruct (hp <=? rate)%F eqn:C4.
  { pose proof (flt_fle_trans _ _ _ Hhp C4) as S.
    destruct (Pos S) as (N1 & N2 & N3).
    eexists. split; [reflexivity | ]. cbn [signal].
    repeat split; auto; try discriminate; congruence. }
  destruct (Fin 0.01 <? rate)%F eqn:C5.
  { assert (S : (Fin 0 <? rate)%F = true).
    { destruct rate as [ | | |x]; cbn in *; auto. qauto. }
    destruct (Pos S) as (N1 & N2 & N3).
    eexists. split; [reflexivity | ]. cbn [signal].
    repeat split; auto; try discriminate; congruence. }
  destruct (rate <? Fin (-0.01))%F eqn:C6.
  { assert (S : (rate <? Fin 0)%F = true).
    { destruct rate as [ | | |x]; cbn in *; auto. qauto. }
    eexists. split; [reflexivity | ]. cbn [signal].
    repeat split; auto; try discriminate; congruence. }
  eexists. split; [reflexivity | ]. cbn [signal].
  repeat split; auto; try discriminate.
  intros _. destruct rate as [ | | |x]; cbn in *; auto; try discriminate.
  right. split; qauto.
Qed.

Lemma is_zero_fabs (x : pyfloat) : is_zero (fabs x) = is_zero x.
Proof.
  destruct x as [ | | |q]; cbn; auto.
  assert (A : Qabs q == 0 <-> q == 0)
    by (apply Qabs_case; intros; split; lra).
  destruct (Qzerob q) eqn:E.
  - apply Qzerob_eq in E. apply Qzerob_eq. tauto.
  - apply Qzerob_neq in E. apply Qzerob_neq. tauto.
Qed.

(** X3: [analyze_funding_rate] raises ([ZeroDivisionError]) exactly
    when a branch that divides is reached with a zero divisor: one of
    the two negative tests holds and extreme_negative_threshold is 0,
    or neither holds, one of the two positive tests holds and
    extreme_positive_threshold is 0.  It never raises when both extreme
    thresholds are non-zero. *)
Theorem analyze_funding_rate_raises (sym : string) (t : option Z)
    (rate ep en hp hn : pyfloat) :
  analyze_funding_rate sym rate t ep en hp hn = None <->
  (((rate <=? en)%F = true \/ (rate <=? hn)%F = true) /\
   is_zero en = true) \/
  ((rate <=? en)%F = false /\ (rate <=? hn)%F = false /\
   ((rate >=? ep)%F = true \/ (rate >=? hp)%F = true) /\
   is_zero ep = true).
Proof.
  unfold analyze_funding_rate, classify_funding, pydiv.
  rewrite is_zero_fabs.
  destruct (rate <=? en)%F, (rate <=? hn)%F, (rate >=? ep)%F,
    (rate >=? hp)%F, (is_zero en), (is_zero ep);
    cbn [mbind option_bind];
    repeat match goal with
      | |- context [if ?c then _ else _] => destruct c
      end;
    cbn [mbind option_bind]; split; intros H; try discriminate;
    try tauto; try (exfalso; intuition discriminate).
Qed.

End FundingBounds.

Section FundingBoundsExamples.
Import funding.

Lemma analyze_funding_rate_score_range_witness :
  exists r s,
    analyze_funding_rate "BTCUSDT" (Fin (-0.07)) None (Fin 0.1) (Fin (-0.1))
      default_high_positive_threshold default_high_negative_threshold
    = Some r /\ score r = Fin s /\ 0 <= s /\ s <= 10.
Proof.
  destruct (analyze_funding_rate_score_range "BTCUSDT" None (Fin (-0.07))
              default_high_positive_threshold default_high_negative_threshold
              0.1 (-0.1))
    as (r & s & E & Es & L & U & _);
    [first [lra | reflexivity] .. | ].
  exists r, s. auto.
Defined.

Lemma analyze_funding_rate_direction_witness :
  exists r,
    analyze_funding_rate "BTCUSDT" (Fin (-0.07)) None
      default_extreme_positive_threshold default_extreme_negative_threshold
      default_high_positive_threshold default_high_negative_threshold
    = Some r /\ signal r = "long"%string.
Proof.
  destruct (analyze_funding_rate_direction "BTCUSDT" None (Fin (-0.07))
              default_extreme_positive_threshold
              default_extreme_negative_threshold
              default_high_positive_threshold default_high_negative_threshold)
    as (r & E & _ & _ & _ & _ & L & _);
    [reflexivity | reflexivity | reflexivity | reflexivity | ].
  exists r. split; [exact E | apply L; reflexivity].
Defined.

End FundingBoundsExamples.

(** ** More on the liquidation classifier *)

Section LiquidationBounds.
Import liquidation.

Lemma capped_value (x : pyfloat) (lo cap : Q) :
  at_least lo x -> lo <= cap ->
  exists s, pymin x (Fin cap) = Fin s /\ lo <= s /\ s <= cap.
Proof.
  intros [-> | (q & -> & Hq)] Hc; unfold pymin; cbn.
  - exists cap. split; [reflexivity | lra].
  - destruct (Qltb cap q) eqn:E; qprop.
    + exists cap. split; [reflexivity | lra].
    + exists q. split; [reflexivity | lra].
Qed.

Lemma at_least_minus_one (x : pyfloat) :
  at_least 1 x -> at_least 0 (x - Fin 1)%F.
Proof.
  intros [-> | (q & -> & Hq)]; [left; reflexivity | ].
  right. eexists. split; [reflexivity | lra].
Qed.

(** The magnitude ratio of a side that reaches the threshold. *)
Lemma magnitude_at_least (a : pyfloat) (T : Q) :
  1 <= T -> (a >=? Fin T)%F = true -> at_least 1 (a / Fin T)%F.
Proof.
  unfold fge. intros HT H.
  destruct a as [ | | |x]; cbn in *; try discriminate.
  - replace (Qltb T 0) with false by (symmetry; apply Qltb_ge; lra).
    left; reflexivity.
  - replace (Qzerob T) with false by (symmetry; apply Qzerob_neq; lra).
    qprop. right. eexists. split; [reflexivity | ].
    apply Qle_shift_div_l; lra.
Qed.

(** The imbalance ratio of a side that dominates. *)
Lemma imbalance_at_least (a b : pyfloat) (T : Q) :
  1 <= T -> (Fin 0 <=? b)%F = true ->
  (a >=? Fin T)%F = true -> (a >? b * Fin 1.5)%F = true ->
  at_least 1 (a / pymax b (Fin 1))%F.
Proof.
  unfold fge, fgt, pymax. intros HT Hb Ha Hd.
  destruct b as [ | | |y]; cbn in Hb; try discriminate.
  - destruct a; cbn in Hd; discriminate.
  - destruct (Qltb y 1) eqn:E.
    + destruct a as [ | | |x]; cbn in *; try discriminate;
        rewrite E; cbn.
      * left; reflexivity.
      * qprop. right. eexists. split; [reflexivity | ].
        apply Qle_shift_div_l; lra.
    + destruct a as [ | | |x]; cbn in *; try discriminate;
        rewrite E; cbn.
      * replace (Qltb y 0) with false by (symmetry; apply Qltb_ge; qauto).
        left; reflexivity.
      * qprop.
        replace (Qzerob y) with false by (symmetry; apply Qzerob_neq; lra).
        right. eexists. split; [reflexivity | ].
        apply Qle_shift_div_l; lra.
Qed.

(** The score of a dominant side lies in [1, 10]. *)
Lemma dominance_score_range (a b : pyfloat) (T : Q) :
  1 <= T -> (Fin 0 <=? b)%F = true ->
  (a >=? Fin T)%F = true -> (a >? b * Fin 1.5)%F = true ->
  exists s, dominance_score a b (Fin T) = Fin s /\ 1 <= s /\ s <= 10.
Proof.
  intros HT Hb Ha Hd. unfold dominance_score.
  destruct (capped_value _ 1 5 (magnitude_at_least a T HT Ha))
    as (m & -> & Lm & Um); [lra | ].
  destruct (capped_value _ 0 5
              (at_least_minus_one _ (imbalance_at_least a b T HT Hb Ha Hd)))
    as (i & -> & Li & Ui); [lra | ].
  cbn [fadd].
  destruct (capped_value (Fin (m + i)) 1 10) as (s & -> & Ls & Us);
    [right; eexists; split; [reflexivity | lra] | lra | ].
  eauto.
Qed.

(** The class and the score before rounding. *)
Lemma classify_liquidations_facts (long short : pyfloat) (T : Q) :
  (Fin 0 <=? long)%F = true -> (Fin 0 <=? short)%F = true -> 1 <= T ->
  exists sg s d,
    classify_liquidations long short (Fin T) = Some (sg, Fin s, d) /\
    (sg = "long"%string <->
     (long >=? Fin T)%F = true /\ (long >? short * Fin 1.5)%F = true) /\
    (sg = "short"%string <->
     (short >=? Fin T)%F = true /\ (short >? long * Fin 1.5)%F = true) /\
    (sg = "long" \/ sg = "short" \/ sg = "neutral")%string /\
    (sg = "neutral"%string -> s == 0) /\
    (sg <> "neutral"%string -> 1 <= s /\ s <= 10).
Proof.
  intros Hl Hs HT.
  assert (HT0 : (Fin 0 <? Fin T)%F = true) by (cbn; apply Qltb_lt; lra).
  unfold classify_liquidations.
  destruct (long + short <? Fin T / Fin 2)%F eqn:C0.
  { (* low activity: neither side reaches the threshold *)
    assert (NL : (long >=? Fin T)%F = false).
    { destruct (long >=? Fin T)%F eqn:E; [ | reflexivity].
      destruct (reaches_threshold_significant long short (Fin T) Hs HT0 E).
      congruence. }
    assert (NS : (short >=? Fin T)%F = false).
    { destruct (short >=? Fin T)%F eqn:E; [ | reflexivity].
      destruct (reaches_threshold_significant short long (Fin T) Hl HT0 E).
      congruence. }
    do 3 eexists. split; [reflexivity | ]. rewrite NL, NS.
    repeat split; auto; try discriminate; try tauto; try lra;
      intros []; discriminate. }
  destruct ((long >=? Fin T)%F && (long >? short * Fin 1.5)%F) eqn:C1.
  { apply andb_prop in C1 as [Ha Hd].
    rewrite (pydiv_nonzero _ _ (positive_nonzero _ HT0)).
    rewrite (pydiv_nonzero _ _ (pymax_one_nonzero short)).
    cbn [mbind option_bind].
    destruct (dominance_score_range long short T HT Hs Ha Hd)
      as (s & Es & Ls & Us).
    unfold dominance_score in Es. rewrite Es.
    do 3 eexists. split; [reflexivity | ].
    rewrite Ha, Hd, (dominance_exclusive long short Hl Hd).
    repeat split; auto; try discriminate; try tauto; try lra;
      intros []; discriminate. }
  destruct ((short >=? Fin T)%F && (short >? long * Fin 1.5)%F) eqn:C2.
  { apply andb_prop in C2 as [Ha Hd].
    rewrite (pydiv_nonzero _ _ (positive_nonzero _ HT0)).
    rewrite (pydiv_nonzero _ _ (pymax_one_nonzero long)).
    cbn [mbind option_bind].
    destruct (dominance_score_range short long T HT Hl Ha Hd)
      as (s & Es & Ls & Us).
    unfold dominance_score in Es. rewrite Es.
    do 3 eexists. split; [reflexivity | ].
    rewrite Ha, Hd, (dominance_exclusive short long Hs Hd).
    repeat split; auto; try discriminate; try tauto; try lra;
      intros []; discriminate. }
  apply Bool.andb_false_iff in C1, C2.
  destruct (long + short >=? Fin T)%F;
    (do 3 eexists; split; [reflexivity | ];
     repeat split; auto; try discriminate; try tauto; try lra;
     try (intros [A B]; destruct C1, C2; congruence)).
Qed.

(** The rounded score of a class. *)
Lemma rounded_class_score (sg : string) (s : Q) :
  (sg = "neutral"%string -> s == 0) ->
  (sg <> "neutral"%string -> 1 <= s /\ s <= 10) ->
  exists r, pyround (Fin s) 1 = Fin r /\
            (sg = "neutral"%string -> r == 0) /\
            (sg <> "neutral"%string -> 1 <= r /\ r <= 10).
Proof.
  intros Z D. destruct (String.eqb_spec sg "neutral") as [E | N].
  - destruct (pyround1_range s 0 0 0 0) as (r & Er & Lr & Ur);
      [reflexivity | reflexivity | rewrite (Z E); lra | rewrite (Z E); lra | ].
    exists r. split; [exact Er | ]. split; [intros _; lra | tauto].
  - destruct (D N) as [L U].
    destruct (pyround1_range s 1 10 10 100) as (r & Er & Lr & Ur);
      [reflexivity | reflexivity | exact L | exact U | ].
    exists r. split; [exact Er | ]. split; [tauto | auto].
Qed.


End LiquidationBounds.

Section LiquidationBoundsExamples.
Import liquidation.


End LiquidationBoundsExamples.

(** ** The liquidation estimator *)

Section Estimator.
Import liquidation.

Implicit Types (x y : Trade) (l : list Trade).

Lemma insert_by_time_perm x l : insert_by_time x l ≡ₚ x :: l.
Proof.
  induction l as [ |y t IH]; cbn; [reflexivity | ].
  destruct (time y <? time x)%Z; [ | reflexivity].
  rewrite IH. apply perm_swap.
Qed.

Lemma sorted_by_time_perm l : sorted_by_time l ≡ₚ l.
Proof.
  induction l as [ |x t IH]; cbn; [reflexivity | ].
  rewrite insert_by_time_perm. apply perm_skip, IH.
Qed.

Lemma insert_by_time_strict x l :
  Forall (fun y => time x <> time y) l ->
  StronglySorted earlier l -> StronglySorted earlier (insert_by_time x l).
Proof.
  intros Hx Hs. induction Hs as [ |y t Hs IH Hy]; cbn.
  - constructor; constructor.
  - apply Forall_cons in Hx as [Hxy Hxt].
    destruct (time y <? time x)%Z eqn:E.
    + apply Z.ltb_lt in E.
      constructor; [apply IH, Hxt | ].
      rewrite insert_by_time_perm. constructor; [exact E | exact Hy].
    + apply Z.ltb_ge in E.
      assert (Hlt : earlier x y) by (unfold earlier; lia).
      constructor; [constructor; assumption | ].
      constructor; [exact Hlt | ].
      eapply Forall_impl; [exact Hy | ].
      intros z Hz. unfold earlier in *. lia.
Qed.

Lemma sorted_by_time_strict l :
  NoDup (map time l) -> StronglySorted earlier (sorted_by_time l).
Proof.
  induction l as [ |x t IH]; cbn; intros H; [constructor | ].
  apply NoDup_cons in H as [Hx Ht].
  apply insert_by_time_strict; [ | apply IH, Ht].
  rewrite sorted_by_time_perm. apply Forall_forall. intros y Hy E.
  apply Hx. rewrite E. apply list_elem_of_fmap. eauto.
Qed.

(** Two strictly sorted lists with the same elements are equal. *)
Lemma strictly_sorted_unique l1 l2 :
  StronglySorted earlier l1 -> StronglySorted earlier l2 ->
  l1 ≡ₚ l2 -> l1 = l2.
Proof.
  intros H1. revert l2.
  induction H1 as [ |x t1 Hs1 IH Hx]; intros l2 H2 P.
  - apply Permutation_nil_l in P. congruence.
  - destruct H2 as [ |y t2 Hs2 Hy].
    { apply Permutation_nil_r in P. discriminate. }
    assert (E : x = y).
    { assert (Ix : x ∈ y :: t2) by (rewrite <- P; left).
      assert (Iy : y ∈ x :: t1) by (rewrite P; left).
      apply elem_of_cons in Ix as [ | Ix]; [assumption | ].
      apply elem_of_cons in Iy as [ | Iy]; [congruence | ].
      rewrite Forall_forall in Hx, Hy.
      pose proof (Hx _ Iy). pose proof (Hy _ Ix).
      unfold earlier in *. lia. }
    subst y. f_equal. apply IH; [exact Hs2 | ].
    eapply Permutation_cons_inv. exact P.
Qed.

(** X5: the estimator sorts the trades by time first, so for trades
    with pairwise distinct times the order in which they are passed
    does not matter. *)
Theorem estimate_liquidations_order_independent (trades trades' : list Trade)
    (price_threshold_percent : pyfloat) :
  trades ≡ₚ trades' -> NoDup (map time trades) ->
  estimate_liquidations_from_trades trades price_threshold_percent
  = estimate_liquidations_from_trades trades' price_threshold_percent.
Proof.
  intros P N.
  assert (N' : NoDup (map time trades')) by (rewrite <- P; exact N).
  assert (E : sorted_by_time trades = sorted_by_time trades').
  { apply strictly_sorted_unique; try (apply sorted_by_time_strict; assumption).
    rewrite !sorted_by_time_perm. exact P. }
  unfold estimate_liquidations_from_trades. rewrite E.
  destruct trades as [ |a t], trades' as [ |b u]; try reflexivity.
  all: try (apply Permutation_nil_l in P; discriminate).
  all: try (apply Permutation_nil_r in P; discriminate).
Qed.

Lemma quote_total_cons x l :
  quote_total (x :: l) = quote_of x + quote_total l.
Proof. reflexivity. Qed.



(** The loop only ever adds the notional of the trade at hand, to one
    side. *)
Lemma scan_trades_bounds (thr : pyfloat) (rest : list Trade) :
  Forall (fun t => nonneg (quote_qty t)) rest ->
  forall (prev : Trade) (a b : Q),
  exists a' b',
    scan_trades thr prev rest (Fin a, Fin b) = (Fin a', Fin b') /\
    a <= a' /\ b <= b' /\ a' + b' <= a + b + quote_total rest.
Proof.
  induction 1 as [ |x t (q & E & Hq) Ht IH]; intros prev a b.
  - exists a, b. split; [reflexivity | cbn; lra].
  - rewrite quote_total_cons. cbn [scan_trades]. unfold quote_of. rewrite E.
    cbn [fadd].
    destruct (price prev >? Fin 0)%F.
    + destruct (_ && is_buyer_maker x).
      * destruct (IH x (a + q) b) as (a' & b' & -> & ?).
        exists a', b'. split; [reflexivity | lra].
      * destruct (_ && negb (is_buyer_maker x)).
        -- destruct (IH x a (b + q)) as (a' & b' & -> & ?).
           exists a', b'. split; [reflexivity | lra].
        -- destruct (IH x a b) as (a' & b' & -> & ?).
           exists a', b'. split; [reflexivity | lra].
    + destruct (IH x a b) as (a' & b' & -> & ?).
      exists a', b'. split; [reflexivity | lra].
Qed.


End Estimator.

Section EstimatorExamples.
Import liquidation MoreSamples.

Lemma estimate_liquidations_order_independent_witness :
  estimate_liquidations_from_trades tape default_price_threshold_percent
  = estimate_liquidations_from_trades (rev tape)
      default_price_threshold_percent.
Proof.
  apply estimate_liquidations_order_independent.
  - apply Permutation_rev.
  - apply (bool_decide_unpack _). reflexivity.
Defined.


End EstimatorExamples.

(** ** The batch functions *)

Section Batches.

Lemma analyze_liquidations_total (sym : string) (long short T : pyfloat) :
  is_zero T = false ->
  is_Some (liquidation.analyze_liquidations sym long short T).
Proof.
  intros Z.
  unfold liquidation.analyze_liquidations, liquidation.classify_liquidations.
  rewrite !(pydiv_nonzero _ _ Z), !(pydiv_nonzero _ _ (pymax_one_nonzero _)).
  cbn [mbind option_bind].
  repeat match goal with
    | |- context [if ?c then _ else _] => destruct c
    end; cbn [mbind option_bind]; eauto.
Qed.

(** Without any liquidation the result is neutral with score 0, for
    every threshold, and nothing is divided. *)
Lemma analyze_liquidations_nothing (sym : string) (T : pyfloat) :
  exists r,
    liquidation.analyze_liquidations sym (Fin 0) (Fin 0) T = Some r /\
    liquidation.signal r = "neutral"%string /\
    (liquidation.score r == Fin 0)%F.
Proof.
  unfold liquidation.analyze_liquidations, liquidation.classify_liquidations.
  assert (N : (Fin 0 >? Fin 0 * Fin 1.5)%F = false) by reflexivity.
  rewrite N, !Bool.andb_false_r.
  destruct (_ <? _)%F; [ | destruct (_ >=? _)%F];
    cbn [mbind option_bind]; eexists;
    (split; [reflexivity | split; reflexivity]).
Qed.

Lemma liquidations_batch_fold
    (data : gmap string (pyfloat * pyfloat)) (T : pyfloat)
    (symbols : list string) :
  is_zero T = false ->
  forall acc : gmap string liquidation.LiquidationSignal,
  exists m,
    foldl (fun results symbol =>
             results ← results;
             let '(long_liqs, short_liqs) :=
               default (Fin 0, Fin 0) (data !! symbol) in
             r ← liquidation.analyze_liquidations symbol long_liqs
                    short_liqs T;
             Some (<[symbol := r]> results))
          (Some acc) symbols = Some m /\
    forall k, m !! k = if decide (k ∈ symbols) then liquidation_entry data T k
                       else acc !! k.
Proof.
  intros Z. induction symbols as [ |x t IH]; intros acc; cbn [foldl].
  - exists acc. split; [reflexivity | ]. intros k.
    destruct (decide (k ∈ [])) as [H | _]; [inversion H | reflexivity].
  - cbn [mbind option_bind].
    destruct (default (Fin 0, Fin 0) (data !! x)) as [lq sq] eqn:D.
    destruct (analyze_liquidations_total x lq sq T Z) as [r Er].
    rewrite Er. cbn [mbind option_bind].
    destruct (IH (<[x := r]> acc)) as (m & -> & Hm).
    exists m. split; [reflexivity | ]. intros k. rewrite Hm.
    assert (X : liquidation_entry data T x = Some r)
      by (unfold liquidation_entry; rewrite D; exact Er).
    destruct (decide (k ∈ t)) as [Ht | Ht].
    + rewrite decide_True by (right; exact Ht). reflexivity.
    + destruct (decide (k = x)) as [-> | Hne].
      * rewrite decide_True by left. rewrite lookup_insert_eq. congruence.
      * rewrite decide_False by (rewrite elem_of_cons; tauto).
        apply lookup_insert_ne. congruence.
Qed.

(** X7: with a non-zero threshold [analyze_liquidations_batch] never
    raises; its result has an entry for exactly the listed symbols,
    each the analysis of that symbol's totals; and a listed symbol
    without data is analysed as (0, 0), which is neutral with score
    0. *)
Theorem analyze_liquidations_batch_entries (symbols : list string)
    (liquidation_data : gmap string (pyfloat * pyfloat))
    (threshold_usd : pyfloat) :
  is_zero threshold_usd = false ->
  exists m,
    liquidation.analyze_liquidations_batch symbols liquidation_data
      threshold_usd = Some m /\
    (forall k, is_Some (m !! k) <-> k ∈ symbols) /\
    (forall k, k ∈ symbols ->
       m !! k = liquidation_entry liquidation_data threshold_usd k) /\
    (forall k, k ∈ symbols -> liquidation_data !! k = None ->
       exists r, m !! k = Some r /\
         liquidation.total_long_liquidations_usd r = Fin 0 /\
         liquidation.total_short_liquidations_usd r = Fin 0 /\
         liquidation.signal r = "neutral"%string /\
         (liquidation.score r == Fin 0)%F).
Proof.
  intros Z. unfold liquidation.analyze_liquidations_batch.
  destruct (liquidations_batch_fold liquidation_data threshold_usd symbols
              Z ∅) as (m & -> & Hm).
  exists m. split; [reflexivity | ].
  assert (In : forall k, k ∈ symbols ->
            m !! k = liquidation_entry liquidation_data threshold_usd k).
  { intros k Hk. rewrite Hm, decide_True by exact Hk. reflexivity. }
  split; [ | split; [exact In | ]].
  - intros k. rewrite Hm. destruct (decide (k ∈ symbols)) as [Hk | Hk].
    + split; [auto | intros _].
      apply analyze_liquidations_total, Z.
    + rewrite lookup_empty. split; [intros [? ?]; discriminate | tauto].
  - intros k Hk Hd. rewrite (In k Hk). unfold liquidation_entry.
    rewrite Hd. cbn [default fst snd].
    destruct (analyze_liquidations_nothing k threshold_usd)
      as (r & E & S & C).
    exists r. split; [exact E | ].
    unfold liquidation.analyze_liquidations in E.
    destruct (liquidation.classify_liquidations _ _ _) as [[[sg sc] d]| ];
      cbn in E; [ | discriminate].
    injection E as <-. cbn in *. auto.
Qed.

Lemma analyze_funding_rate_total (sym : string) (t : option Z)
    (rate ep en hp hn : pyfloat) :
  is_zero ep = false -> is_zero en = false ->
  is_Some (funding.analyze_funding_rate sym rate t ep en hp hn).
Proof.
  intros Zp Zn.
  unfold funding.analyze_funding_rate, funding.classify_funding, pydiv.
  rewrite is_zero_fabs, Zp, Zn.
  destruct (rate <=? en)%F, (rate <=? hn)%F, (rate >=? ep)%F,
    (rate >=? hp)%F; cbn [mbind option_bind];
    repeat match goal with
      | |- context [if ?c then _ else _] => destruct c
      end;
    cbn [mbind option_bind]; eauto.
Qed.

Lemma analyze_funding_entry_total (sym : string) (d : funding.FundingData)
    (ep en : pyfloat) :
  is_zero ep = false -> is_zero en = false ->
  is_Some (funding.analyze_funding_entry sym d ep en).
Proof.
  intros Zp Zn. unfold funding.analyze_funding_entry.
  apply analyze_funding_rate_total; assumption.
Qed.

Lemma funding_batch_fold (ep en : pyfloat)
    (items : list (string * funding.FundingData)) :
  is_zero ep = false -> is_zero en = false -> NoDup items.*1 ->
  forall acc : gmap string funding.FundingSignal,
  exists m,
    foldl (fun results item =>
             results ← results;
             r ← funding.analyze_funding_entry item.1 item.2 ep en;
             Some (<[item.1 := r]> results))
          (Some acc) items = Some m /\
    forall k, m !! k = match list_to_map (M := gmap string funding.FundingData)
                               items !! k with
                       | Some d => funding.analyze_funding_entry k d ep en
                       | None => acc !! k
                       end.
Proof.
  intros Zp Zn. induction items as [ |[x d] t IH]; intros N acc; cbn [foldl].
  - exists acc. split; [reflexivity | ]. intros k.
    cbn. rewrite lookup_empty. reflexivity.
  - cbn [fst snd mbind option_bind].
    cbn in N. apply NoDup_cons in N as [Nx Nt].
    destruct (analyze_funding_entry_total x d ep en Zp Zn) as [r Er].
    rewrite Er. cbn [mbind option_bind].
    destruct (IH Nt (<[x := r]> acc)) as (m & -> & Hm).
    exists m. split; [reflexivity | ]. intros k. rewrite Hm.
    cbn [list_to_map foldr]. 
    destruct (decide (k = x)) as [-> | Hne].
    + rewrite (not_elem_of_list_to_map_1 t x Nx), !lookup_insert_eq.
      symmetry. exact Er.
    + cbn [fst snd]. rewrite !lookup_insert_ne by congruence.
      reflexivity.
Qed.

(** X8: with non-zero extreme thresholds [analyze_funding_rates_batch]
    never raises and maps every symbol of the input to the analysis of
    its own entry, with nothing added; an entry without a
    'funding_rate' is analysed at rate 0.0. *)
Theorem analyze_funding_rates_batch_entries
    (funding_data : gmap string funding.FundingData) (ep en : pyfloat) :
  is_zero ep = false -> is_zero en = false ->
  exists m,
    funding.analyze_funding_rates_batch funding_data ep en = Some m /\
    (forall k, m !! k
               = d ← funding_data !! k;
                 funding.analyze_funding_entry k d ep en) /\
    (forall k d r, funding_data !! k = Some d ->
       funding.data_funding_rate d = None -> m !! k = Some r ->
       funding.funding_rate r = Fin 0).
Proof.
  intros Zp Zn. unfold funding.analyze_funding_rates_batch.
  destruct (funding_batch_fold ep en (map_to_list funding_data) Zp Zn
              (NoDup_fst_map_to_list funding_data) ∅) as (m & -> & Hm).
  exists m. split; [reflexivity | ].
  assert (L : forall k, m !! k
               = d ← funding_data !! k;
                 funding.analyze_funding_entry k d ep en).
  { intros k. rewrite Hm, list_to_map_to_list.
    destruct (funding_data !! k); [reflexivity | apply lookup_empty]. }
  split; [exact L | ].
  intros k d r Hk Hd Hr. rewrite L, Hk in Hr. cbn in Hr.
  unfold funding.analyze_funding_entry, funding.analyze_funding_rate in Hr.
  rewrite Hd in Hr.
  destruct (funding.classify_funding _ _ _ _ _) as [[[[sg it] sc] ds]| ];
    cbn in Hr; [ | discriminate].
  injection Hr as <-. reflexivity.
Qed.

End Batches.

(** ** Sorting, ranking and selection *)

Section SortFacts.
Context {A : Type} (key : A -> pyfloat).
Import PyList.

Implicit Types (x y : A) (l : list A).

Lemma insert_desc_by_perm x l : insert_desc_by key x l ≡ₚ x :: l.
Proof.
  induction l as [ |y t IH]; cbn; [reflexivity | ].
  destruct (key x <? key y)%F; [ | reflexivity].
  rewrite IH. apply perm_swap.
Qed.

Lemma sorted_desc_by_cons x l :
  sorted_desc_by key (x :: l) = insert_desc_by key x (sorted_desc_by key l).
Proof. reflexivity. Qed.

Lemma sorted_desc_by_perm l : sorted_desc_by key l ≡ₚ l.
Proof.
  induction l as [ |x t IH]; [reflexivity | ].
  rewrite sorted_desc_by_cons, insert_desc_by_perm. apply perm_skip, IH.
Qed.

Lemma insert_desc_by_sorted x l :
  is_nan (key x) = false -> Forall (fun y => is_nan (key y) = false) l ->
  StronglySorted (key_ge key) l ->
  StronglySorted (key_ge key) (insert_desc_by key x l).
Proof.
  intros Hx Hl Hs. induction Hs as [ |y t Hs IH Hy]; cbn.
  - constructor; constructor.
  - apply Forall_cons in Hl as [Hny Hnt].
    destruct (key x <? key y)%F eqn:E.
    + constructor; [apply IH, Hnt | ].
      rewrite insert_desc_by_perm. constructor; [ | exact Hy].
      apply flt_fle, E.
    + assert (Hxy : key_ge key x y) by (apply fle_total; assumption).
      constructor; [constructor; assumption | ].
      constructor; [exact Hxy | ].
      eapply Forall_impl; [exact Hy | ].
      intros z Hz. unfold key_ge in *. eapply fle_trans; eassumption.
Qed.

Lemma sorted_desc_by_sorted l :
  Forall (fun y => is_nan (key y) = false) l ->
  StronglySorted (key_ge key) (sorted_desc_by key l).
Proof.
  induction l as [ |x t IH]; intros H; [constructor | ].
  rewrite sorted_desc_by_cons.
  apply Forall_cons in H as [Hx Ht].
  apply insert_desc_by_sorted; [exact Hx | | apply IH, Ht].
  rewrite sorted_desc_by_perm. exact Ht.
Qed.

Lemma fle_not_flt (a b : pyfloat) :
  (a <=? b)%F = true -> (b <? a)%F = false.
Proof.
  destruct a as [ | | |p], b as [ | | |q]; cbn; try discriminate; auto.
  intros; qauto.
Qed.

Lemma flt_not_feqb (a b k : pyfloat) :
  (a <? b)%F = true -> feqb a k = true -> feqb b k = false.
Proof.
  destruct a as [ | | |p], b as [ | | |q], k as [ | | |r];
    cbn; try discriminate; auto.
  intros H E. apply Qeq_bool_iff in E.
  destruct (Qeq_bool q r) eqn:F; [ | reflexivity].
  apply Qeq_bool_iff in F. qprop. lra.
Qed.

(** Sorting a list that is in descending order changes nothing. *)
Lemma sorted_desc_by_fixpoint l :
  StronglySorted (key_ge key) l -> sorted_desc_by key l = l.
Proof.
  induction 1 as [ |x t Hs IH Hx]; [reflexivity | ].
  rewrite sorted_desc_by_cons, IH.
  destruct Hx as [ |y u Hy Hu]; cbn; [reflexivity | ].
  rewrite (fle_not_flt _ _ Hy). reflexivity.
Qed.

(** The sort is stable: the elements of one key keep their order. *)
Lemma insert_desc_by_stable (k : pyfloat) x l :
  List.filter (fun y => feqb (key y) k) (insert_desc_by key x l)
  = List.filter (fun y => feqb (key y) k) (x :: l).
Proof.
  induction l as [ |y t IH]; [reflexivity | ].
  cbn [insert_desc_by]. destruct (key x <? key y)%F eqn:E; [ | reflexivity].
  cbn [List.filter] in *. rewrite IH.
  destruct (feqb (key x) k) eqn:Ex; [ | reflexivity].
  rewrite (flt_not_feqb _ _ _ E Ex). reflexivity.
Qed.

Lemma sorted_desc_by_stable (k : pyfloat) l :
  List.filter (fun y => feqb (key y) k) (sorted_desc_by key l)
  = List.filter (fun y => feqb (key y) k) l.
Proof.
  induction l as [ |x t IH]; [reflexivity | ].
  rewrite sorted_desc_by_cons, insert_desc_by_stable.
  cbn [List.filter]. rewrite IH. reflexivity.
Qed.

Lemma StronglySorted_filter (R : A -> A -> Prop) (p : A -> bool) l :
  StronglySorted R l -> StronglySorted R (List.filter p l).
Proof.
  induction 1 as [ |x t Hs IH Hx]; cbn; [constructor | ].
  destruct (p x); [ | exact IH].
  constructor; [exact IH | ].
  apply Forall_forall. intros y Hy.
  apply list_elem_of_In, List.filter_In in Hy as [Hy _].
  rewrite Forall_forall in Hx. apply Hx, list_elem_of_In, Hy.
Qed.

Lemma StronglySorted_app_inv (R : A -> A -> Prop) l1 l2 :
  StronglySorted R (l1 ++ l2) ->
  StronglySorted R l1 /\ StronglySorted R l2 /\
  forall a b, a ∈ l1 -> b ∈ l2 -> R a b.
Proof.
  induction l1 as [ |x t IH]; cbn; intros H.
  - split; [constructor | ]. split; [exact H | ].
    intros a b Ha. inversion Ha.
  - apply StronglySorted_inv in H as [Hs Hx].
    destruct (IH Hs) as (H1 & H2 & H3).
    apply Forall_app in Hx as [Hx1 Hx2].
    split; [constructor; assumption | ]. split; [exact H2 | ].
    intros a b Ha Hb. apply elem_of_cons in Ha as [-> | Ha].
    + rewrite Forall_forall in Hx2. auto.
    + auto.
Qed.

End SortFacts.

Section SignalSort.
Import signals PyList.

Lemma sorted_desc_generic (l : list AggregatedSignal) :
  sorted_desc l = sorted_desc_by total_score l.
Proof.
  unfold sorted_desc, sorted_desc_by. induction l as [ |x t IH]; cbn;
    [reflexivity | ].
  rewrite IH. generalize (foldr (insert_desc_by total_score) [] t).
  intros u. induction u as [ |y u IHu]; cbn; [reflexivity | ].
  rewrite IHu. reflexivity.
Qed.

(** X9: sorting by score is stable.  On signals whose scores are not
    NaN (the order that a sort gives to NaN keys is not specified), the
    signals of any one score stand in the result of [filter_signals] in
    the order in which they were passed in: ties are never
    reordered. *)
Theorem filter_signals_stable (signals : list AggregatedSignal)
    (min_score : pyfloat) (signal_types : option (list SignalType))
    (k : pyfloat) :
  Forall has_score signals ->
  List.filter (fun s => feqb (total_score s) k)
    (filter_signals signals min_score signal_types)
  = List.filter (fun s => feqb (total_score s) k)
      (List.filter (passes_filter min_score signal_types) signals).
Proof.
  intros _. unfold filter_signals. rewrite sorted_desc_generic.
  apply sorted_desc_by_stable.
Qed.

Lemma passes_filter_has_score (min_score : pyfloat)
    (tys : option (list SignalType)) (l : list AggregatedSignal) :
  Forall has_score l -> Forall has_score (List.filter (passes_filter min_score tys) l).
Proof.
  intros H. apply Forall_forall. intros s Hs.
  apply list_elem_of_In, List.filter_In in Hs as [Hs _].
  rewrite Forall_forall in H. apply H, list_elem_of_In, Hs.
Qed.

Lemma filter_all_true {B : Type} (p : B -> bool) (l : list B) :
  Forall (fun x => p x = true) l -> List.filter p l = l.
Proof.
  induction 1 as [ |x t Hx Ht IH]; cbn; [reflexivity | ].
  rewrite Hx, IH. reflexivity.
Qed.

Lemma filter_signals_members (signals : list AggregatedSignal)
    (min_score : pyfloat) (signal_types : option (list SignalType))
    (s : AggregatedSignal) :
  s ∈ filter_signals signals min_score signal_types <->
  s ∈ signals /\ signal_type s <> NEUTRAL /\
  (total_score s <? min_score)%F = false /\
  allowed signal_types (signal_type s).
Proof.
  unfold filter_signals.
  rewrite sorted_desc_perm, !list_elem_of_In, List.filter_In, passes_filter_iff.
  reflexivity.
Qed.

Lemma filter_signals_sorted (signals : list AggregatedSignal)
    (min_score : pyfloat) (signal_types : option (list SignalType)) :
  Forall has_score signals ->
  StronglySorted score_ge (filter_signals signals min_score signal_types).
Proof.
  intros H. apply sorted_desc_sorted.
  rewrite Forall_forall in *. intros s Hs.
  apply H. apply list_elem_of_In, List.filter_In in Hs.
  apply list_elem_of_In. tauto.
Qed.

(** X10: filtering is idempotent.  On signals whose scores are not NaN,
    applying [filter_signals] with the same arguments to its own result
    returns that result unchanged. *)
Theorem filter_signals_idempotent (signals : list AggregatedSignal)
    (min_score : pyfloat) (signal_types : option (list SignalType)) :
  Forall has_score signals ->
  filter_signals (filter_signals signals min_score signal_types)
    min_score signal_types
  = filter_signals signals min_score signal_types.
Proof.
  intros H.
  pose proof (filter_signals_sorted signals min_score signal_types H) as S.
  pose proof (filter_signals_members signals min_score signal_types) as M.
  set (out := filter_signals signals min_score signal_types) in *.
  unfold filter_signals at 1.
  rewrite filter_all_true.
  - rewrite sorted_desc_generic. apply sorted_desc_by_fixpoint. exact S.
  - apply Forall_forall. intros s Hs. apply passes_filter_iff.
    apply M in Hs. tauto.
Qed.

End SignalSort.

Section Ranking.
Import signals PyList.

Lemma slice_to_take {B : Type} (l : list B) (n : Z) :
  exists m, slice_to l n = take m l /\
            ((0 <= n)%Z -> m = Z.to_nat n) /\
            ((n < 0)%Z -> m = (length l - Z.to_nat (- n))%nat).
Proof.
  unfold slice_to. destruct (0 <=? n)%Z eqn:E.
  - apply Z.leb_le in E. eexists. split; [reflexivity | ]. split; [auto | lia].
  - apply Z.leb_gt in E. eexists. split; [reflexivity | ]. split; [lia | auto].
Qed.

(** One side of [rank_signals]: the signals of type [ty], sorted and
    cut. *)
Lemma ranked_side (ty : SignalType) (signals : list AggregatedSignal)
    (top_n : Z) :
  let side := List.filter (fun s => bool_decide (signal_type s = ty)) signals in
  let kept := slice_to (sorted_desc side) top_n in
  Forall (fun s => signal_type s = ty /\ s ∈ signals) kept /\
  ((0 <= top_n)%Z -> length kept = Nat.min (Z.to_nat top_n) (length side)) /\
  ((top_n < 0)%Z -> length kept = (length side - Z.to_nat (- top_n))%nat) /\
  (Forall has_score signals ->
   StronglySorted score_ge kept /\
   exists rest, kept ++ rest ≡ₚ side /\
                forall a b, a ∈ kept -> b ∈ rest -> score_ge a b).
Proof.
  intros side kept.
  assert (P : sorted_desc side ≡ₚ side)
    by (rewrite sorted_desc_generic; apply sorted_desc_by_perm).
  destruct (slice_to_take (sorted_desc side) top_n) as (m & Em & Hp & Hn).
  fold kept in Em. rewrite (Permutation_length P) in Hn.
  assert (L : length kept = Nat.min m (length side)).
  { rewrite Em, length_take, (Permutation_length P). reflexivity. }
  split; [ | split; [ | split]].
  - apply Forall_forall. intros s Hs. rewrite Em in Hs.
    apply elem_of_take in Hs as (i & Hs & _).
    apply list_elem_of_lookup_2 in Hs. rewrite P in Hs.
    apply list_elem_of_In, List.filter_In in Hs as [Hs Ht].
    apply bool_decide_eq_true in Ht. split; [exact Ht | ].
    apply list_elem_of_In, Hs.
  - intros H. rewrite L, (Hp H). reflexivity.
  - intros H. rewrite L, (Hn H). lia.
  - intros H.
    assert (Hside : Forall has_score side).
    { apply Forall_forall. intros s Hs.
      apply list_elem_of_In, List.filter_In in Hs as [Hs _].
      rewrite Forall_forall in H. apply H, list_elem_of_In, Hs. }
    assert (S : StronglySorted score_ge (sorted_desc side))
      by (rewrite sorted_desc_generic; apply sorted_desc_by_sorted, Hside).
    rewrite <- (take_drop m (sorted_desc side)) in S.
    apply StronglySorted_app_inv in S as (S1 & _ & S3).
    rewrite Em. split; [exact S1 | ].
    exists (drop m (sorted_desc side)). split; [ | exact S3].
    rewrite take_drop. exact P.
Qed.

(** X11: [rank_signals] returns exactly the two entries 'long' and
    'short'.  The 'long' list holds only LONG signals of the input and
    the 'short' list only SHORT ones, so a neutral signal is never
    ranked.  For top_n >= 0 each list has min(top_n, number of signals
    of that type) elements; a negative top_n does not give an empty
    list but drops that many signals from the weak end.  When no score
    is NaN each list is in descending order of score and no signal that
    was cut scores higher than one that was kept. *)
Theorem rank_signals_lists (signals : list AggregatedSignal) (top_n : Z) :
  let longs := List.filter (fun s => bool_decide (signal_type s = LONG)) signals in
  let shorts := List.filter (fun s => bool_decide (signal_type s = SHORT)) signals in
  exists long short,
    rank_signals signals top_n !! "long"%string = Some long /\
    rank_signals signals top_n !! "short"%string = Some short /\
    (forall k, k <> "long"%string -> k <> "short"%string ->
       rank_signals signals top_n !! k = None) /\
    Forall (fun s => signal_type s = LONG /\ s ∈ signals) long /\
    Forall (fun s => signal_type s = SHORT /\ s ∈ signals) short /\
    ((0 <= top_n)%Z ->
     length long = Nat.min (Z.to_nat top_n) (length longs) /\
     length short = Nat.min (Z.to_nat top_n) (length shorts)) /\
    ((top_n < 0)%Z ->
     length long = (length longs - Z.to_nat (- top_n))%nat /\
     length short = (length shorts - Z.to_nat (- top_n))%nat) /\
    (Forall has_score signals ->
     StronglySorted score_ge long /\ StronglySorted score_ge short /\
     (exists rest, long ++ rest ≡ₚ longs /\
        forall a b, a ∈ long -> b ∈ rest -> score_ge a b) /\
     (exists rest, short ++ rest ≡ₚ shorts /\
        forall a b, a ∈ short -> b ∈ rest -> score_ge a b)).
Proof.
  intros longs shorts.
  destruct (ranked_side LONG signals top_n) as (L1 & L2 & L3 & L4).
  destruct (ranked_side SHORT signals top_n) as (S1 & S2 & S3 & S4).
  do 2 eexists. unfold rank_signals.
  split; [apply lookup_insert_eq | ].
  split; [rewrite lookup_insert_ne by discriminate; apply lookup_insert_eq | ].
  split.
  { intros k H1 H2. rewrite !lookup_insert_ne by congruence.
    apply lookup_empty. }
  split; [exact L1 | ]. split; [exact S1 | ].
  split; [intros H; split; auto | ].
  split; [intros H; split; auto | ].
  intros H. destruct (L4 H) as [A B], (S4 H) as [C D]. auto.
Qed.

(** X12: [get_extreme_funding_symbols] keeps exactly the signals whose
    score is at least min_score (a NaN score is dropped), each as often
    as it occurs, and returns them in descending order of score. *)
Theorem get_extreme_funding_symbols_spec
    (signals : list funding.FundingSignal) (min_score : pyfloat) :
  let out := funding.get_extreme_funding_symbols signals min_score in
  out ≡ₚ List.filter (fun s => (funding.score s >=? min_score)%F) signals /\
  (forall s, s ∈ out <->
     s ∈ signals /\ (funding.score s >=? min_score)%F = true) /\
  (forall s, is_nan (funding.score s) = true -> s ∉ out) /\
  StronglySorted (key_ge funding.score) out.
Proof.
  intros out.
  assert (P : out ≡ₚ List.filter
                       (fun s => (funding.score s >=? min_score)%F) signals)
    by apply sorted_desc_by_perm.
  assert (M : forall s, s ∈ out <->
     s ∈ signals /\ (funding.score s >=? min_score)%F = true).
  { intros s. rewrite P, !list_elem_of_In, List.filter_In. reflexivity. }
  split; [exact P | ]. split; [exact M | ]. split.
  - intros s Hn Hs. apply M in Hs as [_ Hs]. unfold fge in Hs.
    destruct (funding.score s), min_score; discriminate.
  - apply sorted_desc_by_sorted. apply Forall_forall. intros s Hs.
    apply list_elem_of_In, List.filter_In in Hs as [_ Hs]. unfold fge in Hs.
    destruct (funding.score s), min_score; cbn in *; congruence.
Qed.

Lemma filter_filter_same {B : Type} (p q : B -> bool) (l : list B) :
  (forall x, q x = true -> p x = true) ->
  List.filter q (List.filter p l) = List.filter q l.
Proof.
  intros H. induction l as [ |x t IH]; cbn; [reflexivity | ].
  destruct (p x) eqn:Ep; cbn; rewrite IH; [reflexivity | ].
  destruct (q x) eqn:Eq; [ | reflexivity].
  rewrite (H x Eq) in Ep. discriminate.
Qed.

(** X13: the selection at the end of [run_analysis].  When no score is
    NaN, the long list that is returned is the first five LONG signals
    of [filter_signals(results, min_signal_score)], and likewise for
    the short list: dropping the neutral signals beforehand and sorting
    again in [rank_signals] change nothing.  Each list has at most five
    signals, all of its own type, none with a score below
    min_signal_score. *)
Theorem select_signals_spec (results : list AggregatedSignal)
    (cfg : config.Config) :
  Forall has_score results ->
  let filtered :=
    filter_signals results (config.min_signal_score cfg) None in
  exists long short,
    main.select_signals results cfg = Some (long, short) /\
    long = take 5 (List.filter (fun s => bool_decide (signal_type s = LONG))
                     filtered) /\
    short = take 5 (List.filter (fun s => bool_decide (signal_type s = SHORT))
                      filtered) /\
    (length long <= 5)%nat /\ (length short <= 5)%nat /\
    Forall (fun s => signal_type s = LONG /\ s ∈ results /\
              (total_score s <? config.min_signal_score cfg)%F = false) long /\
    Forall (fun s => signal_type s = SHORT /\ s ∈ results /\
              (total_score s <? config.min_signal_score cfg)%F = false) short.
Proof.
  intros H filtered.
  pose proof (filter_signals_sorted results (config.min_signal_score cfg)
                None H) as S.
  pose proof (filter_signals_members results (config.min_signal_score cfg)
                None) as M.
  fold filtered in M, S.
  assert (Pre : filter_signals
                  (List.filter
                     (fun signal =>
                        negb (bool_decide (signal_type signal = NEUTRAL)))
                     results) (config.min_signal_score cfg) None
                = filtered).
  { unfold filtered, filter_signals. f_equal. apply filter_filter_same.
    intros x Hx. unfold passes_filter in Hx.
    destruct (bool_decide (signal_type x = NEUTRAL)); [discriminate | ].
    reflexivity. }
  assert (Side : forall ty,
            sorted_desc (List.filter
                           (fun s => bool_decide (signal_type s = ty))
                           filtered)
            = List.filter (fun s => bool_decide (signal_type s = ty)) filtered).
  { intros ty. rewrite sorted_desc_generic. apply sorted_desc_by_fixpoint.
    apply StronglySorted_filter, S. }
  assert (Mem : forall ty s,
            s ∈ take 5 (List.filter
                          (fun s => bool_decide (signal_type s = ty)) filtered) ->
            signal_type s = ty /\ s ∈ results /\
            (total_score s <? config.min_signal_score cfg)%F = false).
  { intros ty s Hs. apply elem_of_take in Hs as (i & Hs & _).
    apply list_elem_of_lookup_2, list_elem_of_In, List.filter_In in Hs
      as [Hs Ht].
    apply bool_decide_eq_true in Ht. apply list_elem_of_In, M in Hs. tauto. }
  assert (Five : forall l : list AggregatedSignal, slice_to l 5 = take 5 l)
    by reflexivity.
  unfold main.select_signals. rewrite Pre.
  unfold rank_signals. rewrite !Side, !Five.
  rewrite lookup_insert_eq, lookup_insert_ne by discriminate.
  rewrite lookup_insert_eq. cbn [mbind option_bind].
  do 2 eexists. split; [reflexivity | ].
  split; [reflexivity | ]. split; [reflexivity | ].
  split; [rewrite length_take; lia | ].
  split; [rewrite length_take; lia | ].
  split; apply Forall_forall; intros s Hs; eapply Mem; exact Hs.
Qed.

(** X14: the strength category is monotone in the score: a score that
    is at least as large never gets a weaker category. *)
Theorem calculate_signal_strength_monotone (a b : pyfloat) :
  (a <=? b)%F = true ->
  (strength_rank (calculate_signal_strength a)
   <= strength_rank (calculate_signal_strength b))%nat.
Proof.
  intros H. unfold calculate_signal_strength, fge.
  destruct a as [ | | |x], b as [ | | |y]; cbn in *; try discriminate;
    try lia.
  all: repeat match goal with
         | |- context [Qle_bool ?u ?v] => destruct (Qle_bool u v) eqn:?
         end; cbn; try lia; exfalso; qprop; lra.
Qed.

End Ranking.

Section FurtherExamples.
Import signals Samples MoreSamples.

Lemma analyze_liquidations_batch_entries_witness :
  exists m,
    liquidation.analyze_liquidations_batch ["BTCUSDT"; "ETHUSDT"]%string
      liquidation_data liquidation.default_threshold_usd = Some m /\
    (forall k, is_Some (m !! k) <-> k ∈ ["BTCUSDT"; "ETHUSDT"]%string).
Proof.
  destruct (analyze_liquidations_batch_entries ["BTCUSDT"; "ETHUSDT"]%string
              liquidation_data liquidation.default_threshold_usd)
    as (m & E & D & _); [reflexivity | ].
  exists m. split; [exact E | exact D].
Defined.

Lemma analyze_funding_rates_batch_entries_witness :
  exists m,
    funding.analyze_funding_rates_batch funding_data
      funding.default_extreme_positive_threshold
      funding.default_extreme_negative_threshold = Some m /\
    (forall k, m !! k
               = d ← funding_data !! k;
                 funding.analyze_funding_entry k d
                   funding.default_extreme_positive_threshold
                   funding.default_extreme_negative_threshold).
Proof.
  destruct (analyze_funding_rates_batch_entries funding_data
              funding.default_extreme_positive_threshold
              funding.default_extreme_negative_threshold)
    as (m & E & L & _); [reflexivity | reflexivity | ].
  exists m. split; [exact E | exact L].
Defined.

Lemma filter_signals_stable_witness :
  List.filter (fun s => feqb (total_score s) (Fin 7))
    (filter_signals [aggregated LONG 5; aggregated SHORT 7; aggregated LONG 7]
       (Fin 6) None)
  = List.filter (fun s => feqb (total_score s) (Fin 7))
      (List.filter (passes_filter (Fin 6) None)
         [aggregated LONG 5; aggregated SHORT 7; aggregated LONG 7]).
Proof.
  apply (filter_signals_stable
           [aggregated LONG 5; aggregated SHORT 7; aggregated LONG 7]).
  repeat constructor.
Defined.

Lemma filter_signals_idempotent_witness :
  filter_signals
    (filter_signals [aggregated LONG 5; aggregated SHORT 7; aggregated LONG 7]
       (Fin 6) None) (Fin 6) None
  = filter_signals [aggregated LONG 5; aggregated SHORT 7; aggregated LONG 7]
      (Fin 6) None.
Proof.
  apply (filter_signals_idempotent
           [aggregated LONG 5; aggregated SHORT 7; aggregated LONG 7]).
  repeat constructor.
Defined.

Lemma select_signals_spec_witness :
  exists long short,
    main.select_signals
      [aggregated LONG 8; aggregated NEUTRAL 9; aggregated SHORT 7.5]
      (loaded "token" "chat") = Some (long, short) /\
    (length long <= 5)%nat /\ (length short <= 5)%nat.
Proof.
  destruct (select_signals_spec
              [aggregated LONG 8; aggregated NEUTRAL 9; aggregated SHORT 7.5]
              (loaded "token" "chat"))
    as (long & short & E & _ & _ & L & S & _); [repeat constructor | ].
  exists long, short. split; [exact E | ]. split; [exact L | exact S].
Defined.

Lemma calculate_signal_strength_monotone_witness :
  (strength_rank (calculate_signal_strength (Fin 3))
   <= strength_rank (calculate_signal_strength (Fin 8)))%nat.
Proof.
  apply (calculate_signal_strength_monotone (Fin 3) (Fin 8)). reflexivity.
Defined.

End FurtherExamples.

(** ** More on the aggregator *)

Section AggregatorMore.
Import signals.

Lemma process_lens_neutral (w : gmap string pyfloat) (key : string)
    (lens : string * pyfloat * Text.fstring * Text.fstring) (t : Tally) :
  String.eqb lens.1.1.1 "neutral" = true ->
  process_lens w key (Some lens) t = process_lens w key None t.
Proof.
  destruct lens as [[[d s] rl] rs]. cbn. intros ->. reflexivity.
Qed.

Lemma process_technical_active (w : gmap string pyfloat)
    (x : option technical.TechnicalSignal) (t : Tally) :
  process_lens w "technical" (technical_lens <$> x) t
  = process_lens w "technical" (technical_lens <$> active_technical x) t.
Proof.
  destruct x as [s| ]; [ | reflexivity]. cbn [active_technical mbind option_bind].
  destruct (String.eqb (technical.bias s) "neutral") eqn:E; [ | reflexivity].
  apply process_lens_neutral. exact E.
Qed.

Lemma process_funding_active (w : gmap string pyfloat)
    (x : option funding.FundingSignal) (t : Tally) :
  process_lens w "funding" (funding_lens <$> x) t
  = process_lens w "funding" (funding_lens <$> active_funding x) t.
Proof.
  destruct x as [s| ]; [ | reflexivity]. cbn [active_funding mbind option_bind].
  destruct (String.eqb (funding.signal s) "neutral") eqn:E; [ | reflexivity].
  apply process_lens_neutral. exact E.
Qed.

Lemma process_liquidation_active (w : gmap string pyfloat)
    (x : option liquidation.LiquidationSignal) (t : Tally) :
  process_lens w "liquidation" (liquidation_lens <$> x) t
  = process_lens w "liquidation" (liquidation_lens <$> active_liquidation x) t.
Proof.
  destruct x as [s| ]; [ | reflexivity].
  cbn [active_liquidation mbind option_bind].
  destruct (String.eqb (liquidation.signal s) "neutral") eqn:E;
    [ | reflexivity].
  apply process_lens_neutral. exact E.
Qed.

Lemma tally_lenses_active (w : gmap string pyfloat)
    (technical : option technical.TechnicalSignal)
    (funding : option funding.FundingSignal)
    (liquidation : option liquidation.LiquidationSignal) :
  tally_lenses w technical funding liquidation
  = tally_lenses w (active_technical technical) (active_funding funding)
      (active_liquidation liquidation).
Proof.
  unfold tally_lenses. rewrite process_technical_active.
  destruct (process_lens w "technical" _ _) as [[c1 t1]| ]; [ | reflexivity].
  cbn [mbind option_bind]. rewrite process_funding_active.
  destruct (process_lens w "funding" _ _) as [[c2 t2]| ]; [ | reflexivity].
  cbn [mbind option_bind]. rewrite process_liquidation_active.
  reflexivity.
Qed.

(** X15: a lens that is present but neutral counts exactly like a lens
    that is absent.  Replacing every neutral component by None changes
    nothing in the aggregated signal (direction, scores, confluence,
    reasons, and whether a missing weight raises) except the three
    component fields themselves, which always hold the signals as they
    were passed in. *)
Theorem aggregate_signals_neutral_is_absent (sym tf : string)
    (technical : option technical.TechnicalSignal)
    (funding : option funding.FundingSignal)
    (liquidation : option liquidation.LiquidationSignal)
    (weights : option (gmap string pyfloat)) :
  aggregate_signals sym tf technical funding liquidation weights
  = with_components technical funding liquidation
    <$> aggregate_signals sym tf (active_technical technical)
          (active_funding funding) (active_liquidation liquidation) weights.
Proof.
  unfold aggregate_signals.
  rewrite (tally_lenses_active _ technical funding liquidation).
  destruct (tally_lenses _ _ _ _) as [[[[tc fc] lc] t]| ]; [ | reflexivity].
  cbn [mbind option_bind].
  destruct (final_direction t) as [[ty base] n].
  destruct (confluence n) as [b rs]. reflexivity.
Qed.

Lemma process_lens_nonneg (w : gmap string pyfloat) (key : string)
    (lens : option (string * pyfloat * Text.fstring * Text.fstring))
    (t : Tally) (wk : Q) :
  w !! key = Some (Fin wk) -> 0 <= wk ->
  (forall x, lens = Some x -> nonneg x.1.1.2) ->
  tally_nonneg t ->
  exists c t', process_lens w key lens t = Some (c, t') /\
               nonneg c /\ tally_nonneg t'.
Proof.
  intros Hw Hk Hs [(a & Ea & Ha) (b & Eb & Hb)].
  assert (Z : nonneg (Fin 0)) by (exists 0; split; [reflexivity | lra]).
  assert (T : tally_nonneg t)
    by (split; [exists a | exists b]; split; assumption).
  unfold process_lens.
  destruct lens as [[[[d s] rl] rs]| ];
    [ | do 2 eexists; split; [reflexivity | split; assumption]].
  destruct (Hs _ eq_refl) as (q & Eq & Hq). cbn in Eq. subst s.
  destruct (negb (String.eqb d "neutral"));
    [ | do 2 eexists; split; [reflexivity | split; assumption]].
  rewrite Hw. cbn [mbind option_bind fmul].
  assert (P : 0 <= q * wk) by (apply Qmult_le_0_compat; lra).
  assert (C : nonneg (Fin (q * wk))) by (eexists; split; [reflexivity | lra]).
  assert (La : nonneg (long_score t + Fin (q * wk))%F).
  { rewrite Ea. cbn. eexists. split; [reflexivity | lra]. }
  assert (Sb : nonneg (short_score t + Fin (q * wk))%F).
  { rewrite Eb. cbn. eexists. split; [reflexivity | lra]. }
  destruct T as [Tl Ts].
  destruct (String.eqb d "long").
  { do 2 eexists. split; [reflexivity | ]. split; [exact C | ].
    split; [exact La | exact Ts]. }
  destruct (String.eqb d "short").
  { do 2 eexists. split; [reflexivity | ]. split; [exact C | ].
    split; [exact Tl | exact Sb]. }
  do 2 eexists. split; [reflexivity | ]. split; [exact C | ].
  split; assumption.
Qed.

(** The three lenses of non-negative scores leave a non-negative
    tally. *)
Lemma tally_lenses_nonneg
    (technical : option technical.TechnicalSignal)
    (funding : option funding.FundingSignal)
    (liquidation : option liquidation.LiquidationSignal)
    (weights : gmap string pyfloat) (wt wf wl : Q) :
  weights !! "technical"%string = Some (Fin wt) ->
  weights !! "funding"%string = Some (Fin wf) ->
  weights !! "liquidation"%string = Some (Fin wl) ->
  0 <= wt -> 0 <= wf -> 0 <= wl ->
  (forall s, technical = Some s -> nonneg (technical.strength s)) ->
  (forall s, funding = Some s -> nonneg (funding.score s)) ->
  (forall s, liquidation = Some s -> nonneg (liquidation.score s)) ->
  exists c1 c2 c3 t,
    tally_lenses weights technical funding liquidation
    = Some (c1, c2, c3, t) /\ tally_nonneg t.
Proof.
  intros Wt Wf Wl Ht Hf Hl St Sf Sl.
  assert (T0 : tally_nonneg initial_tally).
  { split; exists 0; (split; [reflexivity | lra]). }
  destruct (process_lens_nonneg _ "technical" (technical_lens <$> technical)
              initial_tally wt Wt Ht) as (c1 & t1 & E1 & _ & T1); [ | exact T0 | ].
  { intros x Hx. destruct technical as [s| ]; [ | discriminate].
    injection Hx as <-. apply St. reflexivity. }
  destruct (process_lens_nonneg _ "funding" (funding_lens <$> funding)
              t1 wf Wf Hf) as (c2 & t2 & E2 & _ & T2); [ | exact T1 | ].
  { intros x Hx. destruct funding as [s| ]; [ | discriminate].
    injection Hx as <-. apply Sf. reflexivity. }
  destruct (process_lens_nonneg _ "liquidation"
              (liquidation_lens <$> liquidation) t2 wl Wl Hl)
    as (c3 & t3 & E3 & _ & T3); [ | exact T2 | ].
  { intros x Hx. destruct liquidation as [s| ]; [ | discriminate].
    injection Hx as <-. apply Sl. reflexivity. }
  exists c1, c2, c3, t3. split; [ | exact T3].
  unfold tally_lenses. rewrite E1. cbn [mbind option_bind].
  rewrite E2. cbn [mbind option_bind]. rewrite E3. reflexivity.
Qed.

(** The capped and rounded total of a non-negative tally. *)
Lemma rounded_total_range (t : Tally) :
  tally_nonneg t ->
  exists r,
    pyround (pymin ((final_direction t).1.2
                    + (confluence (final_direction t).2).1)%F (Fin 10)) 1
    = Fin r /\ 0 <= r /\ r <= 10.
Proof.
  intros T3.
  assert (B : exists b, (final_direction t).1.2 = Fin b /\ 0 <= b).
  { destruct T3 as [(a & Ea & Ha) (b & Eb & Hb)]. unfold final_direction.
    destruct (_ >? _)%F; [eauto | ].
    destruct (_ >? _)%F; [eauto | ]. exists 0. split; [reflexivity | lra]. }
  destruct B as (b & -> & Hb).
  assert (C : exists c, (confluence (final_direction t).2).1 = Fin c /\ 0 <= c).
  { unfold confluence. destruct (3 <=? _)%nat; [eexists; split; [reflexivity | lra] | ].
    destruct (_ =? 2)%nat; eexists; (split; [reflexivity | lra]). }
  destruct C as (c & -> & Hc). cbn [fadd].
  destruct (capped_value (Fin (b + c)) 0 10) as (u & -> & Lu & Uu);
    [right; eexists; split; [reflexivity | lra] | lra | ].
  apply (pyround1_range u 0 10 0 100);
    [reflexivity | reflexivity | lra | lra].
Qed.


End AggregatorMore.

Section AggregatorMoreExamples.
Import signals Samples.


End AggregatorMoreExamples.

(** ** More on the indicators *)

Section IndicatorsMore.
Import technical Pandas.

Lemma diff_sign_swap (x y : pyfloat) :
  ((x - y <? Fin 0)%F = (y - x >? Fin 0)%F) /\
  ((x - y >? Fin 0)%F = (y - x <? Fin 0)%F).
Proof.
  unfold fgt. destruct x as [ | | |p], y as [ | | |q]; cbn; auto.
  split.
  - destruct (Qltb (p + - q) 0) eqn:A, (Qltb 0 (q + - p)) eqn:B; auto;
      exfalso; qprop; lra.
  - destruct (Qltb 0 (p + - q)) eqn:A, (Qltb (q + - p) 0) eqn:B; auto;
      exfalso; qprop; lra.
Qed.

(** X17: the two crossover detectors are one and the same function of
    their two series; the result is always 'bullish', 'bearish' or
    'none'; and exchanging the two series exchanges 'bullish' and
    'bearish' and keeps 'none'. *)
Theorem crossover_detectors_antisymmetric (a b : Series) :
  detect_macd_crossover a b = detect_ema_crossover a b /\
  (detect_ema_crossover a b = "bullish" \/
   detect_ema_crossover a b = "bearish" \/
   detect_ema_crossover a b = "none")%string /\
  (detect_ema_crossover a b = "bullish"%string <->
   detect_ema_crossover b a = "bearish"%string) /\
  (detect_ema_crossover a b = "bearish"%string <->
   detect_ema_crossover b a = "bullish"%string) /\
  (detect_ema_crossover a b = "none"%string <->
   detect_ema_crossover b a = "none"%string).
Proof.
  split; [reflexivity | ].
  unfold detect_ema_crossover.
  rewrite (Bool.orb_comm (length b <? 2)%nat).
  destruct ((length a <? 2) || (length b <? 2))%nat.
  { repeat split; auto; discriminate. }
  destruct (diff_sign_swap (iloc_last a 2) (iloc_last b 2)) as [P1 P2].
  destruct (diff_sign_swap (iloc_last a 1) (iloc_last b 1)) as [C1 C2].
  rewrite P1, P2, C1, C2.
  set (pa := (iloc_last b 2 - iloc_last a 2)%F).
  set (ca := (iloc_last b 1 - iloc_last a 1)%F).
  assert (X : (pa >? Fin 0)%F = true -> (pa <? Fin 0)%F = false)
    by (unfold fgt; apply flt_asym).
  destruct (pa >? Fin 0)%F eqn:E1; [rewrite (X eq_refl) | ];
    destruct (ca <? Fin 0)%F eqn:E2; cbn [andb];
    destruct (pa <? Fin 0)%F eqn:E3; cbn [andb];
    destruct (ca >? Fin 0)%F eqn:E4; cbn [andb];
    try (unfold fgt in E4; rewrite (flt_asym _ _ E2) in E4; discriminate);
    repeat split; auto; try discriminate.
Qed.

(** One step of the exponential mean stays between the bounds. *)
Lemma ewm_from_within (alpha lo hi : Q) (prev : pyfloat) (s : Series) :
  0 <= alpha -> alpha <= 1 -> within lo hi prev ->
  Forall (within lo hi) s -> Forall (within lo hi) (ewm_from alpha prev s).
Proof.
  intros A0 A1 Hp Hs. revert prev Hp.
  induction Hs as [ |x t (q & -> & L & U) Ht IH];
    intros prev (p & -> & Lp & Up); cbn; constructor.
  - eexists. split; [reflexivity | ].
    assert (0 <= (1 - alpha) * (p - lo)) by (apply Qmult_le_0_compat; lra).
    assert (0 <= alpha * (q - lo)) by (apply Qmult_le_0_compat; lra).
    assert (0 <= (1 - alpha) * (hi - p)) by (apply Qmult_le_0_compat; lra).
    assert (0 <= alpha * (hi - q)) by (apply Qmult_le_0_compat; lra).
    lra.
  - apply IH. eexists. split; [reflexivity | ].
    assert (0 <= (1 - alpha) * (p - lo)) by (apply Qmult_le_0_compat; lra).
    assert (0 <= alpha * (q - lo)) by (apply Qmult_le_0_compat; lra).
    assert (0 <= (1 - alpha) * (hi - p)) by (apply Qmult_le_0_compat; lra).
    assert (0 <= alpha * (hi - q)) by (apply Qmult_le_0_compat; lra).
    lra.
Qed.

Lemma ewm_mean_within (span : Z) (lo hi : Q) (s : Series) :
  (1 <= span)%Z -> Forall (within lo hi) s ->
  exists e, ewm_mean span s = Some e /\ length e = length s /\
            Forall (within lo hi) e /\ e !! 0%nat = s !! 0%nat.
Proof.
  intros Hspan Hs. unfold ewm_mean.
  replace (span <? 1)%Z with false by (symmetry; apply Z.ltb_ge; lia).
  eexists. split; [reflexivity | ].
  destruct Hs as [ |x t Hx Ht]; cbn; [repeat split; constructor | ].
  rewrite length_ewm_from. split; [reflexivity | ].
  split; [ | reflexivity].
  constructor; [exact Hx | ].
  assert (P : 2 <= inject_Z span + 1).
  { assert (1 <= inject_Z span) by (change 1 with (inject_Z 1);
                                    rewrite <- Zle_Qle; exact Hspan). lra. }
  apply ewm_from_within; try assumption.
  - apply Qle_shift_div_l; lra.
  - apply Qle_shift_div_r; lra.
Qed.

(** X18: the exponential moving average never leaves the range of the
    prices.  For a period of at least 1 and closes that are finite and
    lie in [lo, hi], [calculate_ema] gives one finite value per bar,
    every one of them in [lo, hi], and the first is the first close. *)
Theorem calculate_ema_within (df : DataFrame) (period : Z) (lo hi : Q) :
  (1 <= period)%Z -> Forall (within lo hi) (map close df) ->
  exists e, calculate_ema df period = Some e /\
            length e = length df /\
            Forall (within lo hi) e /\
            e !! 0%nat = close <$> df !! 0%nat.
Proof.
  intros Hp Hc. unfold calculate_ema.
  destruct (ewm_mean_within period lo hi (map close df) Hp Hc)
    as (e & -> & L & W & F).
  exists e. split; [reflexivity | ]. rewrite length_map in L.
  split; [exact L | ]. split; [exact W | ].
  rewrite F. apply list_lookup_fmap.
Qed.

End IndicatorsMore.

Section IndicatorsMoreExamples.
Import technical Pandas Samples.

Lemma calculate_ema_within_witness :
  exists e, calculate_ema two_bars 26 = Some e /\
            Forall (within 100 110) e.
Proof.
  destruct (calculate_ema_within two_bars 26 100 110)
    as (e & E & _ & W & _).
  - lia.
  - repeat constructor; eexists; (split; [reflexivity | split; lra]).
  - exists e. split; [exact E | exact W].
Defined.

End IndicatorsMoreExamples.

Section VolumeAndSpike.
Import technical Pandas.

Lemma foldl_fadd_sum (l : Series) (acc : Q) :
  Forall nonneg l ->
  exists q, foldl fadd (Fin acc) l = Fin q /\ acc <= q /\
            (Forall (fun x => (x == Fin 0)%F) l -> q == acc).
Proof.
  intros Hl. revert acc.
  induction Hl as [ |x t (p & -> & Hp) Ht IH]; intros acc; cbn.
  - exists acc. split; [reflexivity | ]. split; [lra | reflexivity].
  - destruct (IH (acc + p)) as (q & -> & L & Z).
    exists q. split; [reflexivity | ]. split; [lra | ].
    intros H. apply Forall_cons in H as [Hx Hr]. cbn in Hx.
    rewrite (Z Hr). lra.
Qed.

Lemma filter_present_nonneg (s : Series) :
  Forall nonneg s -> filter (fun x => is_nan x = false) s = s.
Proof.
  induction 1 as [ |x t (q & -> & Hq) Ht IH]; [reflexivity | ].
  rewrite filter_cons_True by reflexivity. rewrite IH. reflexivity.
Qed.

(** The volume ratio on a non-empty frame of finite, non-negative
    volumes. *)
Lemma calculate_volume_ratio_nonneg (df : DataFrame) (period : nat) :
  df <> [] -> Forall nonneg (map volume df) ->
  (exists q, calculate_volume_ratio df period = Some (Fin q) /\ 0 <= q) /\
  (Forall (fun x => (x == Fin 0)%F) (tail period (map volume df)) ->
   calculate_volume_ratio df period = Some (Fin 1)).
Proof.
  intros Hne Hv.
  assert (Hf : Forall (fun x => is_finite x = true) (map volume df)).
  { eapply Forall_impl; [exact Hv | ]. intros x (q & -> & _). reflexivity. }
  unfold calculate_volume_ratio.
  destruct (iloc_neg_last_finite (map volume df)) as [c Ec];
    [destruct df; cbn; congruence | exact Hf | ].
  assert (Hc : 0 <= c).
  { unfold iloc_neg in Ec.
    destruct (length (map volume df) <? 1)%nat; [discriminate | ].
    apply list_elem_of_lookup_2 in Ec. rewrite Forall_forall in Hv.
    destruct (Hv _ Ec) as (q & E & Hq). congruence. }
  rewrite Ec. cbn [mbind option_bind].
  assert (Ht : Forall nonneg (tail period (map volume df)))
    by (unfold tail; apply Forall_drop, Hv).
  unfold mean. rewrite (filter_present_nonneg _ Ht).
  destruct (foldl_fadd_sum _ 0 Ht) as (sm & Es & Ls & Zs).
  unfold sum_series, count. rewrite Es.
  set (n := inject_Z (Z.of_nat (length (tail period (map volume df))))).
  assert (Hn : 0 <= n).
  { unfold n. change 0 with (inject_Z 0). rewrite <- Zle_Qle. lia. }
  assert (Avg : (Fin sm / Fin n)%F = NaN \/
                exists a, (Fin sm / Fin n)%F = Fin a /\ 0 <= a /\
                          (sm == 0 -> a == 0)).
  { cbn. destruct (Qzerob n) eqn:Zn.
    - apply Qzerob_eq in Zn. left.
      assert (E : tail period (map volume df) = []).
      { apply length_zero_iff_nil. unfold n in Zn.
        apply (proj1 (inject_Z_injective _ 0%Z)) in Zn. lia. }
      rewrite E in Es. cbn in Es. injection Es as <-. reflexivity.
    - right. apply Qzerob_neq in Zn. eexists. split; [reflexivity | ].
      split.
      + apply Qle_shift_div_l; lra.
      + intros Z0. rewrite Z0. field. exact Zn. }
  destruct Avg as [-> | (a & -> & A0 & A1)].
  { split; [exists 1; split; [reflexivity | lra] | reflexivity]. }
  split.
  - destruct (Fin a >? Fin 0)%F eqn:G; [ | exists 1; split; [reflexivity | lra]].
    unfold fgt in G. cbn in G. apply Qltb_lt in G.
    cbn [fdiv].
    replace (Qzerob a) with false by (symmetry; apply Qzerob_neq; lra).
    eexists. split; [reflexivity | ]. apply Qle_shift_div_l; lra.
  - intros Hz. specialize (Zs Hz).
    assert (G : (Fin a >? Fin 0)%F = false).
    { unfold fgt. cbn. apply Qltb_ge. rewrite A1; lra. }
    rewrite G. reflexivity.
Qed.

(** X19: the volume ratio and its fallback.  On an empty frame
    [calculate_volume_ratio] raises ([IndexError]).  On a non-empty
    frame of finite, non-negative volumes it returns a finite,
    non-negative ratio, and when the average of the trailing bars is
    zero (all of them have zero volume, or period is 0) it returns
    exactly 1.0 instead of dividing. *)
Theorem calculate_volume_ratio_fallback (df : DataFrame) (period : nat) :
  (df = [] -> calculate_volume_ratio df period = None) /\
  (df <> [] -> Forall nonneg (map volume df) ->
   (exists q, calculate_volume_ratio df period = Some (Fin q) /\ 0 <= q) /\
   (Forall (fun x => (x == Fin 0)%F) (tail period (map volume df)) ->
    calculate_volume_ratio df period = Some (Fin 1))).
Proof.
  split; [intros ->; reflexivity | ].
  apply calculate_volume_ratio_nonneg.
Qed.

(** The direction of the decision, read off the two scores. *)
Lemma decide_bias_direction (l s : pyfloat) :
  (fst (decide_bias l s) = "long"%string <-> (l >? s + Fin 1)%F = true) /\
  (fst (decide_bias l s) = "short"%string <-> (s >? l + Fin 1)%F = true).
Proof.
  destruct (l >? s + Fin 1)%F eqn:E1.
  - rewrite (decide_bias_long _ _ E1). cbn.
    rewrite (margin_exclusive _ _ E1). split; split; congruence.
  - destruct (s >? l + Fin 1)%F eqn:E2.
    + rewrite (decide_bias_short _ _ E2). cbn. split; split; congruence.
    + rewrite (decide_bias_neutral _ _ E1 E2). cbn. split; split; congruence.
Qed.

Lemma lead_keeps_margin (l s : pyfloat) :
  (l >? s + Fin 1)%F = true ->
  (l >? s)%F = true /\ (l + Fin 1 >? s + Fin 1)%F = true.
Proof.
  unfold fgt. destruct l as [ | | |x], s as [ | | |y]; cbn;
    try discriminate; auto.
  intros H. qprop. split; apply Qltb_lt; lra.
Qed.

(** The scores with a volume spike, from the scores without. *)
Lemma bias_scores_spike (rsi_signal : string) (current_rsi : pyfloat)
    (macd_crossover : string) (current_histogram : pyfloat)
    (ema_crossover : string) (price_vs_ema : pyfloat)
    (rsi_oversold rsi_overbought : pyfloat) :
  bias_scores rsi_signal current_rsi macd_crossover current_histogram
    ema_crossover price_vs_ema true rsi_oversold rsi_overbought
  = (let '(l, s) :=
       bias_scores rsi_signal current_rsi macd_crossover current_histogram
         ema_crossover price_vs_ema false rsi_oversold rsi_overbought in
     if (l >? s)%F then ((l + Fin 1)%F, s)
     else if (s >? l)%F then (l, (s + Fin 1)%F) else (l, s)).
Proof.
  unfold bias_scores.
  repeat match goal with
    | |- context [if String.eqb ?a ?b then _ else _] =>
        destruct (String.eqb a b)
    end;
  destruct (current_histogram >? Fin 0)%F, (current_histogram <? Fin 0)%F,
    (price_vs_ema >? Fin 2)%F, (price_vs_ema <? Fin (-2))%F; reflexivity.
Qed.

(** X20: a volume spike amplifies and never reverses.  Whatever the
    other inputs are, if the bias without the spike is 'long' it is
    'long' with the spike, and if it is 'short' it stays 'short'; so
    the spike can turn a neutral bias into a directional one but never
    changes or cancels a direction. *)
Theorem volume_spike_never_reverses (rsi_signal : string)
    (current_rsi : pyfloat) (macd_crossover : string)
    (current_histogram : pyfloat) (ema_crossover : string)
    (price_vs_ema : pyfloat) (rsi_oversold rsi_overbought : pyfloat) :
  let calm :=
    calculate_bias rsi_signal current_rsi macd_crossover current_histogram
      ema_crossover price_vs_ema false rsi_oversold rsi_overbought in
  let spike :=
    calculate_bias rsi_signal current_rsi macd_crossover current_histogram
      ema_crossover price_vs_ema true rsi_oversold rsi_overbought in
  (fst calm = "long"%string -> fst spike = "long"%string) /\
  (fst calm = "short"%string -> fst spike = "short"%string) /\
  (fst spike = "long"%string -> fst calm <> "short"%string) /\
  (fst spike = "short"%string -> fst calm <> "long"%string).
Proof.
  intros calm spike. subst calm spike. unfold calculate_bias.
  rewrite bias_scores_spike.
  destruct (bias_scores rsi_signal current_rsi macd_crossover
              current_histogram ema_crossover price_vs_ema false
              rsi_oversold rsi_overbought) as [l s].
  pose proof (decide_bias_direction l s) as [L0 S0].
  assert (A : fst (decide_bias l s) = "long"%string ->
              (l >? s)%F = true /\
              fst (decide_bias (l + Fin 1) s) = "long"%string).
  { intros H. apply L0 in H. destruct (lead_keeps_margin _ _ H) as [G M].
    split; [exact G | ].
    apply (proj1 (decide_bias_direction (l + Fin 1) s)). exact M. }
  assert (B : fst (decide_bias l s) = "short"%string ->
              (l >? s)%F = false /\ (s >? l)%F = true /\
              fst (decide_bias l (s + Fin 1)) = "short"%string).
  { intros H. apply S0 in H. destruct (lead_keeps_margin _ _ H) as [G M].
    split; [exact (flt_asym _ _ G) | ]. split; [exact G | ].
    apply (proj2 (decide_bias_direction l (s + Fin 1))). exact M. }
  assert (A' : fst (decide_bias l s) = "long"%string ->
    fst (let '(l0, s0) :=
           if (l >? s)%F then ((l + Fin 1)%F, s)
           else if (s >? l)%F then (l, (s + Fin 1)%F) else (l, s) in
         decide_bias l0 s0) = "long"%string).
  { intros H. destruct (A H) as [-> E]. exact E. }
  assert (B' : fst (decide_bias l s) = "short"%string ->
    fst (let '(l0, s0) :=
           if (l >? s)%F then ((l + Fin 1)%F, s)
           else if (s >? l)%F then (l, (s + Fin 1)%F) else (l, s) in
         decide_bias l0 s0) = "short"%string).
  { intros H. destruct (B H) as (-> & -> & E). exact E. }
  split; [exact A' | ]. split; [exact B' | ].
  split; intros H C; [apply B' in C | apply A' in C]; congruence.
Qed.

End VolumeAndSpike.

Section VolumeExamples.
Import technical Pandas Samples.

Lemma calculate_volume_ratio_fallback_witness :
  exists q, calculate_volume_ratio two_bars 20 = Some (Fin q) /\ 0 <= q.
Proof.
  apply (calculate_volume_ratio_fallback two_bars 20).
  - discriminate.
  - repeat constructor; eexists; (split; [reflexivity | lra]).
Defined.

End VolumeExamples.

(** ** The bias score *)

Section BiasRange.
Import technical Pandas.

Lemma pymin_within (x : pyfloat) (lo cap : Q) :
  at_least lo x -> lo <= cap -> within lo cap (pymin x (Fin cap)).
Proof.
  intros [-> | (q & -> & Hq)] Hc; unfold pymin; cbn.
  - exists cap. split; [reflexivity | lra].
  - destruct (Qltb cap q) eqn:E; qprop.
    + exists cap. split; [reflexivity | lra].
    + exists q. split; [reflexivity | lra].
Qed.

Lemma within_shift (k lo hi : Q) (x : pyfloat) :
  within lo hi x -> within (k + lo) (k + hi) (Fin k + x)%F.
Proof.
  intros (q & -> & L & H). exists (k + q). split; [reflexivity | lra].
Qed.

Lemma within_weaken (lo hi lo' hi' : Q) (x : pyfloat) :
  within lo hi x -> lo' <= lo -> hi <= hi' -> within lo' hi' x.
Proof.
  intros (q & -> & L & H) A B. exists q. split; [reflexivity | lra].
Qed.

Lemma within_const (lo hi q : Q) : lo <= q -> q <= hi -> within lo hi (Fin q).
Proof. intros A B. exists q. split; [reflexivity | lra]. Qed.

(** The points of an oversold RSI. *)
Lemma rsi_points_oversold (r o : Q) :
  0 <= r -> r <= o -> 0 < o ->
  within 0 3 (Fin 2 + pymin ((Fin o - Fin r) / Fin o) (Fin 1))%F.
Proof.
  intros A B C.
  apply (within_weaken (2 + 0) (2 + 1)); [ | lra | lra].
  apply within_shift, pymin_within; [ | lra].
  right. cbn.
  replace (Qzerob o) with false by (symmetry; apply Qzerob_neq; lra).
  eexists. split; [reflexivity | ]. apply Qle_shift_div_l; lra.
Qed.

(** The points of an overbought RSI. *)
Lemma rsi_points_overbought (r o : Q) :
  o <= r -> r <= 100 -> o < 100 ->
  within 0 3 (Fin 2 + pymin ((Fin r - Fin o) / (Fin 100 - Fin o)) (Fin 1))%F.
Proof.
  intros A B C.
  apply (within_weaken (2 + 0) (2 + 1)); [ | lra | lra].
  apply within_shift, pymin_within; [ | lra].
  right. cbn.
  replace (Qzerob (100 + - o)) with false
    by (symmetry; apply Qzerob_neq; lra).
  eexists. split; [reflexivity | ]. apply Qle_shift_div_l; lra.
Qed.

(** The points of a price far above, or far below, the long EMA. *)
Lemma price_points_above (p : pyfloat) :
  (p >? Fin 2)%F = true -> within 0 1.5 (pymin (p / Fin 4) (Fin 1.5)).
Proof.
  intros H. apply (within_weaken (1 # 2) 1.5); [ | lra | lra].
  apply pymin_within; [ | lra].
  unfold fgt in H. destruct p as [ | | |x]; cbn in H; try discriminate.
  - left. reflexivity.
  - right. qprop. cbn. eexists. split; [reflexivity | ].
    apply Qle_shift_div_l; lra.
Qed.

Lemma price_points_below (p : pyfloat) :
  (p <? Fin (-2))%F = true -> within 0 1.5 (pymin (fabs p / Fin 4) (Fin 1.5)).
Proof.
  intros H. apply (within_weaken (1 # 2) 1.5); [ | lra | lra].
  apply pymin_within; [ | lra].
  destruct p as [ | | |x]; cbn in H; try discriminate.
  - left. reflexivity.
  - right. qprop. cbn. eexists. split; [reflexivity | ].
    assert (A : Qabs x == - x) by (apply Qabs_neg; lra).
    rewrite A. apply Qle_shift_div_l; lra.
Qed.

(** Points given to one side. *)
Lemma scores_long (b k : Q) (l s c : pyfloat) :
  scores_within b (l, s) -> within 0 k c -> scores_within (b + k) ((l + c)%F, s).
Proof.
  intros (x & y & E & X & Y & B) (q & -> & L & H). injection E as -> ->.
  exists (x + q), y. split; [reflexivity | lra].
Qed.

Lemma scores_short (b k : Q) (l s c : pyfloat) :
  scores_within b (l, s) -> within 0 k c -> scores_within (b + k) (l, (s + c)%F).
Proof.
  intros (x & y & E & X & Y & B) (q & -> & L & H). injection E as -> ->.
  exists x, (y + q). split; [reflexivity | lra].
Qed.

Lemma scores_keep (b b' : Q) (p : pyfloat * pyfloat) :
  scores_within b p -> b <= b' -> scores_within b' p.
Proof.
  intros (x & y & -> & X & Y & B) H. exists x, y. split; [reflexivity | lra].
Qed.

(** The scores that [calculate_bias] accumulates. *)
Lemma bias_scores_within (rsi_signal : string) (current_rsi : pyfloat)
    (macd_crossover : string) (current_histogram : pyfloat)
    (ema_crossover : string) (price_vs_ema : pyfloat) (volume_spike : bool)
    (rsi_oversold rsi_overbought : pyfloat) :
  rsi_classified rsi_signal current_rsi rsi_oversold rsi_overbought ->
  scores_within 10
    (bias_scores rsi_signal current_rsi macd_crossover current_histogram
       ema_crossover price_vs_ema volume_spike rsi_oversold rsi_overbought).
Proof.
  intros [Hos Hob].
  assert (Z : scores_within 0 (Fin 0, Fin 0)).
  { exists 0, 0. split; [reflexivity | lra]. }
  unfold bias_scores.
  (* RSI *)
  match goal with
  | |- scores_within _ (let '(_, _) := ?X in _) =>
      assert (H1 : scores_within 3 X); [ | destruct X as [l1 s1]]
  end.
  { destruct (String.eqb rsi_signal "oversold") eqn:E1.
    - apply String.eqb_eq in E1.
      destruct (Hos E1) as (r & o & -> & -> & A & B & C).
      apply (scores_long 0 3); [exact Z | ].
      apply rsi_points_oversold; assumption.
    - destruct (String.eqb rsi_signal "overbought") eqn:E2.
      + apply String.eqb_eq in E2.
        destruct (Hob E2) as (r & o & -> & -> & A & B & C).
        apply (scores_short 0 3); [exact Z | ].
        apply rsi_points_overbought; assumption.
      + apply (scores_keep 0); [exact Z | lra]. }
  (* MACD *)
  match goal with
  | |- scores_within _ (let '(_, _) := ?X in _) =>
      assert (H2 : scores_within (3 + 2.5) X); [ | destruct X as [l2 s2]]
  end.
  { destruct (String.eqb macd_crossover "bullish");
      [apply scores_long; [exact H1 | apply within_const; lra] | ].
    destruct (String.eqb macd_crossover "bearish");
      [apply scores_short; [exact H1 | apply within_const; lra] | ].
    destruct (current_histogram >? Fin 0)%F;
      [apply scores_long; [exact H1 | apply within_const; lra] | ].
    destruct (current_histogram <? Fin 0)%F;
      [apply scores_short; [exact H1 | apply within_const; lra] | ].
    apply (scores_keep 3); [exact H1 | lra]. }
  (* EMA *)
  match goal with
  | |- scores_within _ (let '(_, _) := ?X in _) =>
      assert (H3 : scores_within (3 + 2.5 + 2) X); [ | destruct X as [l3 s3]]
  end.
  { destruct (String.eqb ema_crossover "bullish");
      [apply scores_long; [exact H2 | apply within_const; lra] | ].
    destruct (String.eqb ema_crossover "bearish");
      [apply scores_short; [exact H2 | apply within_const; lra] | ].
    apply (scores_keep (3 + 2.5)); [exact H2 | lra]. }
  (* price against the long EMA *)
  match goal with
  | |- scores_within _ (let '(_, _) := ?X in _) =>
      assert (H4 : scores_within (3 + 2.5 + 2 + 1.5) X);
        [ | destruct X as [l4 s4]]
  end.
  { destruct (price_vs_ema >? Fin 2)%F eqn:P1;
      [apply scores_long; [exact H3 | apply price_points_above, P1] | ].
    destruct (price_vs_ema <? Fin (-2))%F eqn:P2;
      [apply scores_short; [exact H3 | apply price_points_below, P2] | ].
    apply (scores_keep (3 + 2.5 + 2)); [exact H3 | lra]. }
  (* volume spike *)
  destruct volume_spike; [ | apply (scores_keep _ _ _ H4); lra].
  destruct (l4 >? s4)%F.
  { apply (scores_keep (3 + 2.5 + 2 + 1.5 + 1)); [ | lra].
    apply scores_long; [exact H4 | apply within_const; lra]. }
  destruct (s4 >? l4)%F.
  { apply (scores_keep (3 + 2.5 + 2 + 1.5 + 1)); [ | lra].
    apply scores_short; [exact H4 | apply within_const; lra]. }
  apply (scores_keep _ _ _ H4); lra.
Qed.

(** The decision on scores that add up to at most 10. *)
Lemma decide_bias_within (l s : pyfloat) :
  scores_within 10 (l, s) ->
  (fst (decide_bias l s) = "neutral"%string /\
   (snd (decide_bias l s) == Fin 0)%F) \/
  (fst (decide_bias l s) = "long"%string /\
   snd (decide_bias l s) = pyround l 1 /\
   within 1 10 (snd (decide_bias l s))) \/
  (fst (decide_bias l s) = "short"%string /\
   snd (decide_bias l s) = pyround s 1 /\
   within 1 10 (snd (decide_bias l s))).
Proof.
  intros (x & y & E & X & Y & B). injection E as -> ->.
  assert (R : forall q, 1 <= q -> q <= 10 ->
            pymin (Fin q) (Fin 10) = Fin q /\
            within 1 10 (pyround (Fin q) 1)).
  { intros q A C. split.
    - unfold pymin. cbn.
      replace (Qltb 10 q) with false by (symmetry; apply Qltb_ge; lra).
      reflexivity.
    - apply (pyround1_range q 1 10 10 100); [reflexivity | reflexivity | | ];
        assumption. }
  destruct (Fin x >? Fin y + Fin 1)%F eqn:E1.
  - right; left. rewrite (decide_bias_long _ _ E1). cbn [fst snd].
    unfold fgt in E1. cbn in E1. qprop.
    destruct (R x) as [-> W]; [lra | lra | ]. auto.
  - destruct (Fin y >? Fin x + Fin 1)%F eqn:E2.
    + right; right. rewrite (decide_bias_short _ _ E2). cbn [fst snd].
      unfold fgt in E2. cbn in E2. qprop.
      destruct (R y) as [-> W]; [lra | lra | ]. auto.
    + left. rewrite (decide_bias_neutral _ _ E1 E2). cbn [fst snd].
      split; [reflexivity | apply pyround_zero].
Qed.


End BiasRange.

Section BiasRangeExample.
Import technical.


End BiasRangeExample.

(** ** The technical analysis as a whole *)

Section TechnicalResult.
Import technical Pandas.

Lemma length_calculate_rsi (df : DataFrame) (period : nat) :
  length (calculate_rsi df period) = length df.
Proof.
  unfold calculate_rsi, rsi_gain, rsi_loss, rsi_delta, where_.
  rewrite length_map, length_zip_with, !length_rolling_mean, !length_map,
    length_diff, length_map.
  lia.
Qed.

(** The latest RSI of a frame with at least [period] bars. *)
Lemma calculate_rsi_last (df : DataFrame) (period : nat) :
  finite_closes df -> (1 <= period)%nat -> (period <= length df)%nat ->
  exists r, iloc_neg (calculate_rsi df period) 1 = Some r /\
            (r = NaN \/ within 0 100 r).
Proof.
  intros Hf Hp Hlen.
  pose proof (diff_finite_or_nan _ Hf) as Hd.
  set (i := (length df - 1)%nat).
  assert (Hi : (i < length df)%nat) by lia.
  assert (Hl' : (i < length (rsi_delta df))%nat)
    by (unfold rsi_delta; rewrite length_diff, length_map; exact Hi).
  destruct (rolling_mean_nonneg period i
              (where_ (fun d => (d >? Fin 0)%F) (Fin 0) (rsi_delta df)))
    as (g & Eg & Hg); [lia | lia | | | ].
  { unfold where_. rewrite length_map. exact Hl'. }
  { apply gains_nonneg, Hd. }
  destruct (rolling_mean_nonneg period i
              (map fneg (where_ (fun d => (d <? Fin 0)%F) (Fin 0)
                           (rsi_delta df))))
    as (l & El & Hl); [lia | lia | | | ].
  { unfold where_. rewrite !length_map. exact Hl'. }
  { apply losses_nonneg, Hd. }
  exists (rsi_of (Fin g) (Fin l)). split.
  - unfold iloc_neg. rewrite length_calculate_rsi.
    replace (length df <? 1)%nat with false
      by (symmetry; apply Nat.ltb_ge; lia).
    apply calculate_rsi_lookup; assumption.
  - destruct (Qlt_le_dec 0 l) as [Pl | Zl].
    + right. apply rsi_of_positive_loss; assumption.
    + assert (L0 : l == 0) by lra.
      destruct (Qlt_le_dec 0 g) as [Pg | Zg].
      * right. pose proof (rsi_of_zero_loss g l L0 Pg) as E.
        destruct (rsi_of (Fin g) (Fin l)) as [ | | |q]; cbn in E;
          try contradiction.
        exists q. split; [reflexivity | lra].
      * left. apply rsi_of_flat; lra.
Qed.

(** The RSI class chosen by [analyze_technicals] agrees with the RSI. *)
Lemma rsi_signal_classified (r : pyfloat) (o b : Q) :
  r = NaN \/ within 0 100 r -> 0 < o -> b < 100 ->
  rsi_classified
    (if (r <=? Fin o)%F then "oversold"%string
     else if (r >=? Fin b)%F then "overbought"%string
     else "neutral"%string) r (Fin o) (Fin b).
Proof.
  intros [-> | (q & -> & L & H)] Ho Hb.
  - cbn. split; discriminate.
  - unfold fge. cbn.
    destruct (Qle_bool q o) eqn:E1; [ | destruct (Qle_bool b q) eqn:E2];
      qprop; (split; intros X; [ | ]); try discriminate.
    + exists q, o. split; [reflexivity | split; [reflexivity | ]].
      split; [lra | split; lra].
    + exists q, b. split; [reflexivity | split; [reflexivity | ]].
      split; [lra | split; lra].
Qed.

Lemma iloc_neg_in_range {A : Type} (s : list A) (k : nat) :
  (1 <= k)%nat -> (k <= length s)%nat -> is_Some (iloc_neg s k).
Proof.
  intros H1 H2. unfold iloc_neg.
  replace (length s <? k)%nat with false by (symmetry; apply Nat.ltb_ge; lia).
  apply lookup_lt_is_Some. lia.
Qed.

(** The signal of a frame that is long enough. *)
Lemma analyze_technicals_signal (df : DataFrame) (sym tf : string)
    (o b : Q) (sp lp : Z) (vt : pyfloat) :
  finite_closes df -> Forall nonneg (map volume df) ->
  (1 <= sp)%Z -> (1 <= lp)%Z -> 0 < o -> b < 100 ->
  (Z.max lp 26 + 10 <= Z.of_nat (length df))%Z ->
  exists sig,
    analyze_technicals df sym tf (Fin o) (Fin b) sp lp vt = Some sig /\
    symbol sig = sym /\ timeframe sig = tf /\
    (rsi sig = NaN \/ within 0 100 (rsi sig)) /\
    is_finite (macd sig) = true /\ is_finite (macd_signal sig) = true /\
    is_finite (macd_histogram sig) = true /\
    is_finite (ema_short sig) = true /\ is_finite (ema_long sig) = true /\
    is_finite (current_price sig) = true /\
    nonneg (volume_ratio sig) /\
    ((bias sig = "neutral"%string /\ (strength sig == Fin 0)%F) \/
     ((bias sig = "long"%string \/ bias sig = "short"%string) /\
      within 1 10 (strength sig))).
Proof.
  intros Hc Hv Hsp Hlp Ho Hb Hlen.
  assert (Hne : df <> []) by (intros ->; cbn in Hlen; lia).
  assert (Hn : (36 <= length df)%nat) by lia.
  unfold analyze_technicals.
  replace (Z.of_nat (length df) <? Z.max lp 26 + 10)%Z with false
    by (symmetry; apply Z.ltb_ge; lia).
  destruct (calculate_macd_finite df Hc)
    as (m & s & h & -> & Lm & Ls & Lh & Fm & Fs & Fh).
  cbn [mbind option_bind]. unfold calculate_ema.
  destruct (ewm_mean_finite sp (map close df) Hsp Hc)
    as (es & -> & Les & Fes).
  destruct (ewm_mean_finite lp (map close df) Hlp Hc)
    as (el & -> & Lel & Fel).
  cbn [mbind option_bind].
  destruct (calculate_volume_ratio_nonneg df 20 Hne Hv)
    as [(vr & -> & Hvr) _].
  cbn [mbind option_bind].
  destruct (calculate_rsi_last df 14 Hc) as (r & -> & Hr); [lia | lia | ].
  cbn [mbind option_bind].
  assert (NE : forall x : Series, length x = length df -> x <> []).
  { intros x E ->. cbn in E. lia. }
  rewrite length_map in Les, Lel.
  destruct (iloc_neg_last_finite m (NE _ Lm) Fm) as (cm & ->).
  destruct (iloc_neg_last_finite s (NE _ Ls) Fs) as (cs & ->).
  destruct (iloc_neg_last_finite h (NE _ Lh) Fh) as (ch & ->).
  destruct (iloc_neg_last_finite es (NE _ Les) Fes) as (ces & ->).
  destruct (iloc_neg_last_finite el (NE _ Lel) Fel) as (cel & ->).
  destruct (iloc_neg_last_finite (map close df)) as (cp & ->);
    [apply NE, length_map | exact Hc | ].
  cbn [mbind option_bind].
  replace (2 <=? length df)%nat with true
    by (symmetry; apply Nat.leb_le; lia).
  destruct (iloc_neg_in_range (map close df) 2) as [pc ->];
    [lia | rewrite length_map; lia | ].
  cbn [mbind option_bind].
  pose proof (rsi_signal_classified r o b Hr Ho Hb) as Hcl.
  set (rs := if (r <=? Fin o)%F then "oversold"%string
             else if (r >=? Fin b)%F then "overbought"%string
             else "neutral"%string) in *.
  set (pve := ((Fin cp - Fin cel) / Fin cel * Fin 100)%F).
  set (spike := (Fin vr >=? vt)%F).
  unfold calculate_bias.
  pose proof (bias_scores_within rs r (detect_macd_crossover m s) (Fin ch)
                (detect_ema_crossover es el) pve spike (Fin o) (Fin b) Hcl)
    as W.
  destruct (bias_scores rs r (detect_macd_crossover m s) (Fin ch)
              (detect_ema_crossover es el) pve spike (Fin o) (Fin b))
    as [ls ss].
  pose proof (decide_bias_within ls ss W) as D.
  destruct (decide_bias ls ss) as [bias strength]. cbn [fst snd] in D.
  eexists. split; [reflexivity | ]. cbn.
  split; [reflexivity | ]. split; [reflexivity | ].
  split; [exact Hr | ].
  do 6 (split; [reflexivity | ]).
  split; [exists vr; split; [reflexivity | exact Hvr] | ].
  destruct D as [[D1 D2] | [(D1 & _ & D2) | (D1 & _ & D2)]]; auto.
Qed.

(** X22: what [analyze_technicals] returns.  With an EMA period below
    1 it returns None for every frame (the ValueError of the moving
    average is caught).  On a frame of at least max(ema_long_period,
    26) + 10 bars with finite closes and finite, non-negative volumes,
    with EMA periods of at least 1, an oversold threshold above 0 and
    an overbought threshold below 100, it returns a signal: its RSI is
    NaN or a value of [0, 100], the MACD and EMA values are finite, the
    volume ratio is finite and non-negative, and the bias is 'neutral'
    with strength 0, or 'long' or 'short' with a strength in
    [1, 10]. *)
Theorem analyze_technicals_result (df : DataFrame) (sym tf : string)
    (o b : Q) (sp lp : Z) (vt : pyfloat) :
  (((sp < 1)%Z \/ (lp < 1)%Z) ->
   analyze_technicals df sym tf (Fin o) (Fin b) sp lp vt = None) /\
  (finite_closes df -> Forall nonneg (map volume df) ->
   (1 <= sp)%Z -> (1 <= lp)%Z -> 0 < o -> b < 100 ->
   (Z.max lp 26 + 10 <= Z.of_nat (length df))%Z ->
   exists sig,
     analyze_technicals df sym tf (Fin o) (Fin b) sp lp vt = Some sig /\
     symbol sig = sym /\ timeframe sig = tf /\
     (rsi sig = NaN \/ within 0 100 (rsi sig)) /\
     is_finite (macd sig) = true /\ is_finite (macd_signal sig) = true /\
     is_finite (macd_histogram sig) = true /\
     is_finite (ema_short sig) = true /\ is_finite (ema_long sig) = true /\
     is_finite (current_price sig) = true /\
     nonneg (volume_ratio sig) /\
     ((bias sig = "neutral"%string /\ (strength sig == Fin 0)%F) \/
      ((bias sig = "long"%string \/ bias sig = "short"%string) /\
       within 1 10 (strength sig)))).
Proof.
  split.
  - intros Hbad. unfold analyze_technicals.
    destruct (Z.of_nat (length df) <? Z.max lp 26 + 10)%Z; [reflexivity | ].
    destruct (calculate_macd df 12 26 9) as [[[m s] h]| ];
      [ | reflexivity].
    cbn [mbind option_bind]. unfold calculate_ema, ewm_mean.
    destruct Hbad as [H | H].
    + replace (sp <? 1)%Z with true by (symmetry; apply Z.ltb_lt; exact H).
      reflexivity.
    + destruct (sp <? 1)%Z; [reflexivity | ]. cbn [mbind option_bind].
      replace (lp <? 1)%Z with true by (symmetry; apply Z.ltb_lt; exact H).
      reflexivity.
  - apply analyze_technicals_signal.
Qed.

End TechnicalResult.

(** ** A flat market *)

Section FlatMarket.
Import technical Pandas.

Lemma unsigned_no_sign (x : pyfloat) :
  unsigned x -> (x <? Fin 0)%F = false /\ (x >? Fin 0)%F = false.
Proof.
  intros [-> | (q & -> & L & H)]; [split; reflexivity | ].
  unfold fgt. cbn. split; apply Qltb_ge; lra.
Qed.

Lemma level_difference (k : Q) (x y : pyfloat) :
  x = NaN \/ within k k x -> y = NaN \/ within k k y -> unsigned (x - y)%F.
Proof.
  intros [-> | (p & -> & Lp & Hp)] [-> | (q & -> & Lq & Hq)];
    try (left; reflexivity).
  right. cbn. eexists. split; [reflexivity | lra].
Qed.

Lemma zip_with_fsub_level (k : Q) (a b : Series) :
  Forall (within k k) a -> Forall (within k k) b ->
  Forall (within 0 0) (zip_with fsub a b).
Proof.
  intros Ha. revert b.
  induction Ha as [ |x t (p & -> & Lp & Hp) Ht IH]; intros b Hb; cbn;
    [constructor | ].
  destruct Hb as [ |y u (q & -> & Lq & Hq) Hu]; constructor.
  - cbn. eexists. split; [reflexivity | lra].
  - apply IH, Hu.
Qed.

Lemma iloc_last_cases (P : pyfloat -> Prop) (s : Series) (k : nat) :
  Forall P s -> iloc_last s k = NaN \/ P (iloc_last s k).
Proof.
  intros H. unfold iloc_last, iloc_neg.
  destruct (length s <? k)%nat; [left; reflexivity | ].
  destruct (s !! (length s - k)%nat) as [x| ] eqn:E; [ | left; reflexivity].
  right. cbn. rewrite Forall_forall in H.
  apply H, list_elem_of_lookup_2 with (1 := E).
Qed.

(** Two series on one level never cross. *)
Lemma level_crossover_none (k : Q) (a b : Series) :
  Forall (within k k) a -> Forall (within k k) b ->
  detect_macd_crossover a b = "none"%string /\
  detect_ema_crossover a b = "none"%string.
Proof.
  intros Ha Hb.
  assert (U : forall n, unsigned (iloc_last a n - iloc_last b n)%F).
  { intros n. apply (level_difference k); apply iloc_last_cases; assumption. }
  unfold detect_macd_crossover, detect_ema_crossover.
  destruct ((length a <? 2) || (length b <? 2))%nat; [split; reflexivity | ].
  destruct (unsigned_no_sign _ (U 2%nat)) as [-> ->].
  split; reflexivity.
Qed.

Lemma diff_from_level (k : Q) (prev : pyfloat) (s : Series) :
  within k k prev -> Forall (within k k) s ->
  Forall unsigned (diff_from prev s).
Proof.
  intros Hp Hs. revert prev Hp.
  induction Hs as [ |x t Hx Ht IH]; intros prev Hp; cbn; constructor.
  - apply (level_difference k); right; assumption.
  - apply IH, Hx.
Qed.

Lemma diff_level (k : Q) (s : Series) :
  Forall (within k k) s -> Forall unsigned (diff s).
Proof.
  intros [ |x t Hx Ht]; cbn; constructor.
  - left; reflexivity.
  - apply (diff_from_level k); assumption.
Qed.

(** Neither gains nor losses on differences without a sign. *)
Lemma no_gains (d : Series) :
  Forall unsigned d ->
  Forall (fun x => (x == Fin 0)%F)
    (where_ (fun x => (x >? Fin 0)%F) (Fin 0) d).
Proof.
  intros H. unfold where_. apply Forall_fmap.
  eapply Forall_impl; [exact H | ]. intros x Hx. unfold compose.
  destruct (unsigned_no_sign x Hx) as [_ ->]. reflexivity.
Qed.

Lemma no_losses (d : Series) :
  Forall unsigned d ->
  Forall (fun x => (x == Fin 0)%F)
    (map fneg (where_ (fun x => (x <? Fin 0)%F) (Fin 0) d)).
Proof.
  intros H. unfold where_. apply Forall_fmap, Forall_fmap.
  eapply Forall_impl; [exact H | ]. intros x Hx. unfold compose.
  destruct (unsigned_no_sign x Hx) as [-> _]. reflexivity.
Qed.

Lemma rolling_mean_zero (w i : nat) (s : Series) :
  (1 <= w)%nat -> (w <= i + 1)%nat -> (i < length s)%nat ->
  Forall (fun x => (x == Fin 0)%F) s ->
  exists q, rolling_mean w s !! i = Some (Fin q) /\ q == 0.
Proof.
  intros Hw Hi Hlen Hs.
  rewrite (rolling_mean_lookup w i s Hlen).
  replace (i + 1 <? w)%nat with false by (symmetry; apply Nat.ltb_ge; lia).
  pose proof (window_at_Forall _ w i s Hs) as Hz.
  assert (Hn : Forall nonneg (window_at w i s)).
  { eapply Forall_impl; [exact Hz | ]. intros x Hx.
    destruct x as [ | | |q]; cbn in Hx; try contradiction.
    exists q. split; [reflexivity | lra]. }
  destruct (foldl_fadd_sum _ 0 Hn) as (sm & Es & _ & Zs).
  unfold sum_series. rewrite Es. cbn.
  assert (W : ~ inject_Z (Z.of_nat w) == 0).
  { intros E. apply (proj1 (inject_Z_injective _ 0%Z)) in E. lia. }
  replace (Qzerob (inject_Z (Z.of_nat w))) with false
    by (symmetry; apply Qzerob_neq; exact W).
  eexists. split; [reflexivity | ]. rewrite (Zs Hz). field. exact W.
Qed.

(** The latest RSI of a flat frame is NaN. *)
Lemma calculate_rsi_flat_last (c : Q) (df : DataFrame) (period : nat) :
  flat_at c df -> (1 <= period)%nat -> (period <= length df)%nat ->
  iloc_neg (calculate_rsi df period) 1 = Some NaN.
Proof.
  intros Hf Hp Hlen.
  pose proof (diff_level c _ Hf) as Hd.
  set (i := (length df - 1)%nat).
  assert (Hl' : (i < length (rsi_delta df))%nat)
    by (unfold rsi_delta; rewrite length_diff, length_map; lia).
  destruct (rolling_mean_zero period i
              (where_ (fun d => (d >? Fin 0)%F) (Fin 0) (rsi_delta df)))
    as (g & Eg & Hg); [lia | lia | | | ].
  { unfold where_. rewrite length_map. exact Hl'. }
  { apply no_gains, Hd. }
  destruct (rolling_mean_zero period i
              (map fneg (where_ (fun d => (d <? Fin 0)%F) (Fin 0)
                           (rsi_delta df))))
    as (l & El & Hl); [lia | lia | | | ].
  { unfold where_. rewrite !length_map. exact Hl'. }
  { apply no_losses, Hd. }
  unfold iloc_neg. rewrite length_calculate_rsi.
  replace (length df <? 1)%nat with false
    by (symmetry; apply Nat.ltb_ge; lia).
  fold i. rewrite (calculate_rsi_lookup df period i (Fin g) (Fin l) Eg El).
  f_equal. apply rsi_of_flat; assumption.
Qed.

(** The MACD of a flat frame is zero throughout. *)
Lemma calculate_macd_flat (c : Q) (df : DataFrame) :
  flat_at c df ->
  exists m s h,
    calculate_macd df 12 26 9 = Some (m, s, h) /\
    length m = length df /\ length s = length df /\ length h = length df /\
    Forall (within 0 0) m /\ Forall (within 0 0) s /\ Forall (within 0 0) h.
Proof.
  intros Hf. unfold calculate_macd.
  destruct (ewm_mean_within 12 c c (map close df)) as (ef & -> & Lf & Wf & _);
    [lia | exact Hf | ].
  destruct (ewm_mean_within 26 c c (map close df)) as (es & -> & Ls & Ws & _);
    [lia | exact Hf | ].
  cbn [mbind option_bind].
  pose proof (zip_with_fsub_level c ef es Wf Ws) as Wm.
  destruct (ewm_mean_within 9 0 0 (zip_with fsub ef es))
    as (sg & -> & Lg & Wg & _); [lia | exact Wm | ].
  cbn [mbind option_bind]. do 3 eexists. split; [reflexivity | ].
  rewrite length_map in Lf, Ls.
  assert (Lm : length (zip_with fsub ef es) = length df)
    by (rewrite length_zip_with; lia).
  split; [exact Lm | ]. split; [lia | ].
  split; [rewrite length_zip_with; lia | ].
  split; [exact Wm | ]. split; [exact Wg | ].
  apply (zip_with_fsub_level 0); assumption.
Qed.

Lemma iloc_neg_last_within (lo hi : Q) (s : Series) :
  s <> [] -> Forall (within lo hi) s ->
  exists q, iloc_neg s 1 = Some (Fin q) /\ lo <= q /\ q <= hi.
Proof.
  intros Hne Hs.
  destruct (iloc_neg_in_range s 1) as [x E];
    [lia | destruct s; [congruence | cbn; lia] | ].
  assert (Hx : within lo hi x).
  { unfold iloc_neg in E. destruct (length s <? 1)%nat; [discriminate | ].
    rewrite Forall_forall in Hs.
    apply Hs, list_elem_of_lookup_2 with (1 := E). }
  destruct Hx as (q & -> & L & H). exists q. auto.
Qed.

Lemma calculate_volume_ratio_some (df : DataFrame) (period : nat) :
  df <> [] -> is_Some (calculate_volume_ratio df period).
Proof.
  intros Hne. unfold calculate_volume_ratio.
  destruct (iloc_neg_in_range (map volume df) 1) as [x ->];
    [lia | destruct df; [congruence | cbn; lia] | ].
  cbn [mbind option_bind]. destruct (_ >? _)%F; eauto.
Qed.

(** The price against an EMA on its own level. *)
Lemma level_price_vs_ema (c p e : Q) :
  p == c -> e == c ->
  unsigned ((Fin p - Fin e) / Fin e * Fin 100)%F.
Proof.
  intros Hp He. cbn.
  replace (Qzerob (p + - e)) with true by (symmetry; apply Qzerob_eq; lra).
  destruct (Qzerob e) eqn:Z; [left; reflexivity | ].
  right. cbn. apply Qzerob_neq in Z. eexists. split; [reflexivity | ].
  assert (E : (p + - e) / e * 100 == 0).
  { assert (N : p + - e == 0) by lra. rewrite N. field. exact Z. }
  rewrite E. lra.
Qed.

Lemma unsigned_not_far (x : pyfloat) :
  unsigned x -> (x >? Fin 2)%F = false /\ (x <? Fin (-2))%F = false.
Proof.
  intros [-> | (q & -> & L & H)]; [split; reflexivity | ].
  unfold fgt. cbn. split; apply Qltb_ge; lra.
Qed.

Lemma fle_nan (x : pyfloat) : (NaN <=? x)%F = false /\ (NaN >=? x)%F = false.
Proof. unfold fge. destruct x; split; reflexivity. Qed.

(** X23: a flat market gives no signal.  On a frame that is long
    enough and whose closes all have one value c, with EMA periods of
    at least 1, [analyze_technicals] returns a signal with RSI NaN (so
    'neutral', whatever the two RSI thresholds are), MACD, signal line
    and histogram 0, both EMAs at c, no crossover, and bias 'neutral'
    with strength 0: whatever the volumes and the spike threshold are,
    a volume spike alone never makes a direction. *)
Theorem analyze_technicals_flat (c : Q) (df : DataFrame) (sym tf : string)
    (rsi_oversold rsi_overbought : pyfloat) (sp lp : Z) (vt : pyfloat) :
  flat_at c df -> (1 <= sp)%Z -> (1 <= lp)%Z ->
  (Z.max lp 26 + 10 <= Z.of_nat (length df))%Z ->
  exists sig,
    analyze_technicals df sym tf rsi_oversold rsi_overbought sp lp vt
    = Some sig /\
    rsi sig = NaN /\ rsi_signal sig = "neutral"%string /\
    (macd sig == Fin 0)%F /\ (macd_signal sig == Fin 0)%F /\
    (macd_histogram sig == Fin 0)%F /\
    (ema_short sig == Fin c)%F /\ (ema_long sig == Fin c)%F /\
    macd_crossover sig = "none"%string /\ ema_crossover sig = "none"%string /\
    bias sig = "neutral"%string /\ (strength sig == Fin 0)%F.
Proof.
  intros Hf Hsp Hlp Hlen.
  assert (Hne : df <> []) by (intros ->; cbn in Hlen; lia).
  unfold analyze_technicals.
  replace (Z.of_nat (length df) <? Z.max lp 26 + 10)%Z with false
    by (symmetry; apply Z.ltb_ge; lia).
  destruct (calculate_macd_flat c df Hf)
    as (m & s & h & -> & Lm & Ls & Lh & Wm & Ws & Wh).
  cbn [mbind option_bind]. unfold calculate_ema.
  destruct (ewm_mean_within sp c c (map close df) Hsp Hf)
    as (es & -> & Les & Wes & _).
  destruct (ewm_mean_within lp c c (map close df) Hlp Hf)
    as (el & -> & Lel & Wel & _).
  cbn [mbind option_bind].
  destruct (calculate_volume_ratio_some df 20 Hne) as [vr ->].
  cbn [mbind option_bind].
  rewrite (calculate_rsi_flat_last c df 14 Hf) by lia.
  cbn [mbind option_bind].
  assert (NE : forall x : Series, length x = length df -> x <> []).
  { intros x E ->. cbn in E. lia. }
  rewrite length_map in Les, Lel.
  destruct (iloc_neg_last_within 0 0 m (NE _ Lm) Wm) as (cm & -> & Hcm).
  destruct (iloc_neg_last_within 0 0 s (NE _ Ls) Ws) as (cs & -> & Hcs).
  destruct (iloc_neg_last_within 0 0 h (NE _ Lh) Wh) as (ch & -> & Hch).
  destruct (iloc_neg_last_within c c es (NE _ Les) Wes) as (ces & -> & Hces).
  destruct (iloc_neg_last_within c c el (NE _ Lel) Wel) as (cel & -> & Hcel).
  destruct (iloc_neg_last_within c c (map close df)) as (cp & -> & Hcp);
    [apply NE, length_map | exact Hf | ].
  cbn [mbind option_bind].
  replace (2 <=? length df)%nat with true
    by (symmetry; apply Nat.leb_le; lia).
  destruct (iloc_neg_in_range (map close df) 2) as [pc ->];
    [lia | rewrite length_map; lia | ].
  cbn [mbind option_bind].
  destruct (fle_nan rsi_oversold) as [-> _].
  destruct (fle_nan rsi_overbought) as [_ ->].
  destruct (level_crossover_none 0 m s Wm Ws) as [-> _].
  destruct (level_crossover_none c es el Wes Wel) as [_ ->].
  assert (Uh : unsigned (Fin ch))
    by (right; exists ch; split; [reflexivity | exact Hch]).
  pose proof (level_price_vs_ema c cp cel) as Up.
  destruct (unsigned_no_sign _ Uh) as [H1 H2].
  destruct (unsigned_not_far _ (Up ltac:(lra) ltac:(lra))) as [P1 P2].
  unfold calculate_bias, bias_scores.
  cbn [String.eqb Ascii.eqb Bool.eqb].
  rewrite H1, H2, P1, P2.
  assert (E : (if (vr >=? vt)%F
               then if (Fin 0 >? Fin 0)%F then ((Fin 0 + Fin 1)%F, Fin 0)
                    else if (Fin 0 >? Fin 0)%F then (Fin 0, (Fin 0 + Fin 1)%F)
                    else (Fin 0, Fin 0)
               else (Fin 0, Fin 0)) = (Fin 0, Fin 0))
    by (destruct (vr >=? vt)%F; reflexivity).
  rewrite E.
  eexists. split; [reflexivity | ]. cbn.
  repeat match goal with |- _ /\ _ => split end; try reflexivity; lra.
Qed.

End FlatMarket.

Section TechnicalExamples.
Import technical Pandas MoreSamples.

Lemma ramp_finite_closes : finite_closes ramp.
Proof. unfold finite_closes. cbn. repeat constructor. Qed.

Lemma ramp_volumes : Forall nonneg (map volume ramp).
Proof.
  cbn. repeat (constructor; [exists 5; split; [reflexivity | lra] | ]).
  constructor.
Qed.

Lemma level_flat : flat_at 100 level.
Proof.
  unfold flat_at. cbn.
  repeat (constructor; [exists 100; split; [reflexivity | lra] | ]).
  constructor.
Qed.

Lemma analyze_technicals_result_witness :
  exists sig,
    analyze_technicals ramp "BTCUSDT" "1h" (Fin 30) (Fin 70) 12 26 (Fin 2)
    = Some sig /\
    (rsi sig = NaN \/ within 0 100 (rsi sig)).
Proof.
  destruct (proj2 (analyze_technicals_result ramp "BTCUSDT" "1h" 30 70 12 26
                     (Fin 2)))
    as (sig & E & _ & _ & R & _);
    [exact ramp_finite_closes | exact ramp_volumes | lia | lia | lra | lra
    | cbn; lia | ].
  exists sig. split; [exact E | exact R].
Defined.

Lemma analyze_technicals_flat_witness :
  exists sig,
    analyze_technicals level "BTCUSDT" "1h" (Fin 30) (Fin 70) 12 26 (Fin 2)
    = Some sig /\
    bias sig = "neutral"%string /\ (strength sig == Fin 0)%F.
Proof.
  destruct (analyze_technicals_flat 100 level "BTCUSDT" "1h" (Fin 30)
              (Fin 70) 12 26 (Fin 2))
    as (sig & E & _ & _ & _ & _ & _ & _ & _ & _ & _ & B & S);
    [exact level_flat | lia | lia | cbn; lia | ].
  exists sig. split; [exact E | ]. split; [exact B | exact S].
Defined.

End TechnicalExamples.

(** ** One timeframe of one symbol, end to end *)

Section Timeframe.
Import signals config.

Lemma analyze_funding_rate_nonneg (sym : string) (t : option Z)
    (rate hp hn : pyfloat) (ep en : Q) :
  en < 0 -> 0 < ep -> (Fin 0 <=? hp)%F = true ->
  exists r,
    funding.analyze_funding_rate sym rate t (Fin ep) (Fin en) hp hn = Some r /\
    nonneg (funding.score r).
Proof.
  intros Hen Hep Hhp. unfold funding.analyze_funding_rate.
  destruct (classify_funding_facts rate hp hn ep en Hen Hep Hhp)
    as (sg & it & s & d & -> & L & U & _).
  cbn [mbind option_bind].
  destruct (pyround1_range s 0 10 0 100) as (r & Er & Lr & Ur);
    [reflexivity | reflexivity | lra | lra | ].
  eexists. split; [reflexivity | ]. cbn [funding.score].
  exists r. split; [exact Er | exact Lr].
Qed.

Lemma estimate_liquidations_nonneg (trades : list liquidation.Trade)
    (thr : pyfloat) :
  Forall (fun t => nonneg (liquidation.quote_qty t)) trades ->
  exists a b,
    liquidation.estimate_liquidations_from_trades trades thr
    = (Fin a, Fin b) /\ 0 <= a /\ 0 <= b.
Proof.
  intros H. unfold liquidation.estimate_liquidations_from_trades.
  destruct trades as [ |t0 ts] eqn:Et.
  { exists 0, 0. split; [reflexivity | lra]. }
  rewrite <- Et in *.
  assert (Hs : Forall (fun t => nonneg (liquidation.quote_qty t))
                 (liquidation.sorted_by_time trades))
    by (rewrite sorted_by_time_perm; exact H).
  destruct (liquidation.sorted_by_time trades) as [ |first rest].
  { exists 0, 0. split; [reflexivity | lra]. }
  apply Forall_cons in Hs as [_ Hr].
  destruct (scan_trades_bounds thr rest Hr first 0 0)
    as (a & b & -> & A & B & _).
  exists a, b. split; [reflexivity | lra].
Qed.

Lemma analyze_liquidations_nonneg (sym : string) (long short T : Q) :
  0 <= long -> 0 <= short -> 1 <= T ->
  exists r,
    liquidation.analyze_liquidations sym (Fin long) (Fin short) (Fin T)
    = Some r /\ nonneg (liquidation.score r).
Proof.
  intros Hl Hs HT. unfold liquidation.analyze_liquidations.
  destruct (classify_liquidations_facts (Fin long) (Fin short) T)
    as (sg & s & d & -> & _ & _ & _ & Z & D);
    [cbn; apply Qle_bool_iff; lra | cbn; apply Qle_bool_iff; lra | exact HT | ].
  cbn [mbind option_bind].
  destruct (rounded_class_score sg s Z D) as (r & Er & Zr & Dr).
  eexists. split; [reflexivity | ]. cbn [liquidation.score].
  exists r. split; [exact Er | ].
  destruct (String.eqb_spec sg "neutral") as [E | N].
  - rewrite (Zr E). lra.
  - destruct (Dr N). lra.
Qed.

(** X24: one timeframe of [analyze_symbol] from the fetched data to the
    aggregated signal.  With thresholds in range (an oversold level
    above 0, an overbought level below 100, EMA periods of at least 1,
    a positive and a negative extreme funding rate, a liquidation
    threshold of at least 1), a frame of finite closes and
    non-negative volumes of any length and trades of non-negative
    notional, the timeframe is never skipped: no step raises, for any
    funding rate, and the aggregated total_score is a value of
    [0, 10]. *)
Theorem analyze_timeframe_score_range (cfg : Config) (sym tf : string)
    (df : list technical.Bar) (rate : pyfloat) (ft : option Z)
    (trades : list liquidation.Trade) :
  thresholds_in_range cfg ->
  finite_closes df -> Forall nonneg (map technical.volume df) ->
  Forall (fun t => nonneg (liquidation.quote_qty t)) trades ->
  exists r s,
    main.analyze_timeframe cfg sym tf df rate ft trades = Some r /\
    total_score r = Fin s /\ 0 <= s /\ s <= 10.
Proof.
  intros (o & b & ep & en & T & Eo & Eb & Ho & Hb & Hsp & Hlp & Eep & Een
          & Hep & Hen & ET & HT) Hc Hv Ht.
  unfold main.analyze_timeframe. rewrite Eo, Eb, Eep, Een, ET.
  destruct (analyze_funding_rate_nonneg sym ft rate
              funding.default_high_positive_threshold
              funding.default_high_negative_threshold ep en Hen Hep)
    as (f & -> & Hf); [reflexivity | ].
  cbn [mbind option_bind].
  destruct (estimate_liquidations_nonneg trades
              liquidation.default_price_threshold_percent Ht)
    as (ll & sl & -> & Hll & Hsl).
  destruct (analyze_liquidations_nonneg sym ll sl T Hll Hsl HT)
    as (l & -> & Hl).
  cbn [mbind option_bind].
  destruct (tally_lenses_nonneg
              (technical.analyze_technicals df sym tf (Fin o) (Fin b)
                 (ema_short_period cfg) (ema_long_period cfg)
                 (volume_spike_threshold cfg))
              (Some f) (Some l) default_weights 0.50 0.30 0.20)
    as (c1 & c2 & c3 & t & E & T3);
    [reflexivity | reflexivity | reflexivity | lra | lra | lra | | | | ];
    cycle 3.
  { rewrite (aggregate_signals_eq sym tf _ _ _ None _ _ _ _ E).
    cbn [total_score].
    destruct (rounded_total_range t T3) as (r & Er & Lr & Ur).
    eexists. exists r. split; [reflexivity | ]. auto. }
  - intros x Hx.
    destruct (Z.of_nat (length df)
              <? Z.max (ema_long_period cfg) 26 + 10)%Z eqn:Short.
    + unfold technical.analyze_technicals in Hx. rewrite Short in Hx.
      discriminate.
    + apply Z.ltb_ge in Short.
      destruct (analyze_technicals_signal df sym tf o b
                  (ema_short_period cfg) (ema_long_period cfg)
                  (volume_spike_threshold cfg) Hc Hv Hsp Hlp Ho Hb Short)
        as (sig & E & _ & _ & _ & _ & _ & _ & _ & _ & _ & _ & B).
      rewrite E in Hx. injection Hx as <-.
      destruct B as [[_ B] | [_ (q & -> & L & U)]].
      * destruct (technical.strength sig) as [ | | |q]; cbn in B;
          try contradiction.
        exists q. split; [reflexivity | lra].
      * exists q. split; [reflexivity | lra].
  - intros x Hx. injection Hx as <-. exact Hf.
  - intros x Hx. injection Hx as <-. exact Hl.
Qed.

End Timeframe.

Section TimeframeExample.
Import signals config Samples MoreSamples.

Lemma analyze_timeframe_score_range_witness :
  exists r s,
    main.analyze_timeframe (loaded "token" "chat") "BTCUSDT" "1h" ramp
      (Fin 0.12) None tape = Some r /\
    total_score r = Fin s /\ 0 <= s /\ s <= 10.
Proof.
  apply (analyze_timeframe_score_range (loaded "token" "chat") "BTCUSDT" "1h"
           ramp (Fin 0.12) None tape).
  - exists 30, 70, 0.1, (-0.1), 1000000.
    repeat match goal with |- _ /\ _ => split end;
      cbn; first [reflexivity | lra | lia].
  - exact ramp_finite_closes.
  - exact ramp_volumes.
  - repeat constructor; eexists; (split; [reflexivity | lra]).
Defined.

End TimeframeExample.

(** ** The validation of the configuration *)

Section Validation.
Import config.

Lemma is_empty_false (s : string) : is_empty s = false <-> s <> ""%string.
Proof. destruct s; cbn; split; congruence. Qed.

(** X25: what [validate_config] reports.  For a configuration whose
    exchange name is ASCII text, no error is reported exactly when
    both Telegram settings are non-empty, min_signal_score is neither
    below 0 nor above 10, rsi_oversold is not at or above
    rsi_overbought, and the exchange name in lower case is one of
    auto, binance, bybit, okx; the Binance keys play no part.  The
    errors are a selection of the five messages in the order of the
    checks, each at most once.  The comparisons are false on NaN, so a
    NaN min_signal_score or a NaN RSI threshold is never reported. *)
Theorem validate_config_report (cfg : Config) :
  is_ascii (preferred_exchange cfg) = true ->
  (validate_config cfg = [] <->
   telegram_bot_token cfg <> ""%string /\
   telegram_chat_id cfg <> ""%string /\
   (min_signal_score cfg <? Fin 0)%F = false /\
   (min_signal_score cfg >? Fin 10)%F = false /\
   (rsi_oversold cfg >=? rsi_overbought cfg)%F = false /\
   Text.lower (preferred_exchange cfg) ∈ valid_exchanges) /\
  sublist (validate_config cfg) validation_messages /\
  (is_nan (min_signal_score cfg) = true ->
   "MIN_SIGNAL_SCORE must be between 0 and 10"%string ∉ validate_config cfg) /\
  (is_nan (rsi_oversold cfg) = true \/ is_nan (rsi_overbought cfg) = true ->
   "RSI_OVERSOLD must be less than RSI_OVERBOUGHT"%string
   ∉ validate_config cfg).
Proof.
  intros _. unfold validate_config, validation_messages.
  rewrite <- !is_empty_false.
  assert (N1 : is_nan (min_signal_score cfg) = true ->
               (min_signal_score cfg <? Fin 0)%F
               || (min_signal_score cfg >? Fin 10)%F = false).
  { unfold fgt. destruct (min_signal_score cfg); cbn; congruence. }
  assert (N2 : is_nan (rsi_oversold cfg) = true \/
               is_nan (rsi_overbought cfg) = true ->
               (rsi_oversold cfg >=? rsi_overbought cfg)%F = false).
  { unfold fge.
    destruct (rsi_oversold cfg), (rsi_overbought cfg); cbn;
      intros [? | ?]; congruence. }
  destruct (is_empty (telegram_bot_token cfg)),
    (is_empty (telegram_chat_id cfg)),
    (min_signal_score cfg <? Fin 0)%F eqn:S1,
    (min_signal_score cfg >? Fin 10)%F eqn:S2,
    (rsi_oversold cfg >=? rsi_overbought cfg)%F eqn:S3;
    cbn [orb app] in *;
    (destruct (decide (Text.lower (preferred_exchange cfg) ∈ valid_exchanges))
       as [V | V];
     [rewrite (bool_decide_eq_true_2 _ V)
     | rewrite (bool_decide_eq_false_2 _ V)]);
    cbn [app];
    (split; [split; [intros E; try discriminate E; tauto
                    | intros (? & ? & ? & ? & ? & ?);
                      try discriminate; try contradiction; reflexivity] | ]);
    (split; [repeat first [apply sublist_nil | apply sublist_skip
                          | apply sublist_cons] | ]);
    (split; [intros Hn; try (specialize (N1 Hn); discriminate N1)
            | intros Hn; try (specialize (N2 Hn); discriminate N2)]);
    rewrite ?elem_of_cons, elem_of_nil; intros X;
    repeat (destruct X as [X | X]; [discriminate X | ]); exact X.
Qed.

End Validation.

Section ValidationExample.
Import config MoreSamples.

Lemma validate_config_report_witness :
  validate_config (loaded "token" "chat") = [] <->
  telegram_bot_token (loaded "token" "chat") <> ""%string /\
  telegram_chat_id (loaded "token" "chat") <> ""%string /\
  (min_signal_score (loaded "token" "chat") <? Fin 0)%F = false /\
  (min_signal_score (loaded "token" "chat") >? Fin 10)%F = false /\
  (rsi_oversold (loaded "token" "chat")
   >=? rsi_overbought (loaded "token" "chat"))%F = false /\
  Text.lower (preferred_exchange (loaded "token" "chat")) ∈ valid_exchanges.
Proof.
  apply (validate_config_report (loaded "token" "chat")). reflexivity.
Defined.

End ValidationExample.
